(** * pyxavi.dictionary: the path-addressable [Dictionary] class

    A shallow embedding of [src/pyxavi/dictionary.py] and the properties
    of its operations.

    Conventions of the embedding.
    - A Python object is a [pyobj]: [None], a bool, an int, a str, a list
      or a dict with str keys, the shapes a JSON or YAML loader produces.
      A dict is an association list in insertion order.
    - A str is a [string]: characters are code points below 256, on which
      [str.isdecimal] accepts exactly the digits 0 to 9.
    - The store is a tree: no object is reachable along two different
      paths.  A method that mutates an object in place is a function
      that returns the object after the call, and the caller puts it
      back where it took it from.
    - A call that raises returns [Raise e]; a mutating method returns the
      content after the call next to the outcome, so that what a failed
      call leaves behind is visible.
    - An instance is its [_content] and its [_separator]; the separator is
      one character and never changes after [__init__], so the methods
      are parameterised by it and thread the content. *)

From Stdlib Require Import ZArith List String Ascii Bool Lia.
Import ListNotations.

Open Scope string_scope.
Open Scope Z_scope.

(** ** Exceptions and results *)

Inductive exn : Type :=
| IndexError
| TypeError
| ValueError
| RuntimeError
| KeyError
| RecursionError.

Inductive result (A : Type) : Type :=
| Ok (a : A)
| Raise (e : exn).

Arguments Ok {A} a.
Arguments Raise {A} e.

Definition bind {A B : Type} (r : result A) (k : A -> result B) : result B :=
  match r with
  | Ok a => k a
  | Raise e => Raise e
  end.

Notation "x <- r ;; k" := (bind r (fun x => k))
  (at level 61, r at next level, right associativity).

(** ** Python str methods *)

Module PyStr.

Definition is_digit (c : ascii) : bool :=
  let n := nat_of_ascii c in
  (48 <=? n)%nat && (n <=? 57)%nat.

Fixpoint all_digits (s : string) : bool :=
  match s with
  | EmptyString => true
  | String c s' => is_digit c && all_digits s'
  end.

(** [s.isdecimal()]: non-empty and every character is a decimal digit. *)
Definition isdecimal (s : string) : bool :=
  match s with
  | EmptyString => false
  | String _ _ => all_digits s
  end.

Fixpoint digits_value (acc : Z) (s : string) : Z :=
  match s with
  | EmptyString => acc
  | String c s' => digits_value (10 * acc + (Z.of_nat (nat_of_ascii c) - 48)) s'
  end.

(** [int(s)] on the strings [_is_int] accepts: an optional sign and
    decimal digits.  The interpreter's limit on the number of digits
    (4300 by default from Python 3.11 on), beyond which [int] raises
    [ValueError], is not modelled: a statement that depends on it bounds
    the length of the path. *)
Definition int (s : string) : Z :=
  match s with
  | String "-"%char s' => - digits_value 0 s'
  | String "+"%char s' => digits_value 0 s'
  | _ => digits_value 0 s
  end.

(** [s.find(sep)]: the lowest index at which [sep] occurs, or -1. *)
Fixpoint find (sep : ascii) (s : string) : Z :=
  match s with
  | EmptyString => -1
  | String c s' =>
      if Ascii.eqb c sep then 0
      else let r := find sep s' in if r <? 0 then -1 else r + 1
  end.

(** [s.split(sep)]: the pieces between the occurrences of [sep]; a
    string without [sep], the empty one included, is its only piece. *)
Fixpoint split (sep : ascii) (s : string) : list string :=
  match s with
  | EmptyString => [EmptyString]
  | String c s' =>
      if Ascii.eqb c sep then EmptyString :: split sep s'
      else match split sep s' with
           | [] => [String c EmptyString]
           | p :: ps => String c p :: ps
           end
  end.

(** [sep.join(pieces)]. *)
Fixpoint join (sep : ascii) (pieces : list string) : string :=
  match pieces with
  | [] => EmptyString
  | p :: ps =>
      match ps with
      | [] => p
      | _ :: _ => p ++ String sep (join sep ps)
      end
  end.

(** [item in s] on two strings: [item] occurs in [s]. *)
Definition contains (item s : string) : bool :=
  match String.index 0 item s with
  | Some _ => true
  | None => false
  end.

End PyStr.

(** ** Python objects *)

#[local] Set Warnings "-register-all".

Inductive pyobj : Type :=
| VNone
| VBool (b : bool)
| VInt (z : Z)
| VStr (s : string)
| VList (l : list pyobj)
| VDict (d : list (string * pyobj)).

Definition is_none (v : pyobj) : bool :=
  match v with
  | VNone => true
  | _ => false
  end.

(** The truth value of an object, as [if obj] and [obj and ...] test it. *)
Definition truthy (v : pyobj) : bool :=
  match v with
  | VNone => false
  | VBool b => b
  | VInt z => negb (z =? 0)
  | VStr s => negb (String.eqb s "")
  | VList l => match l with [] => false | _ :: _ => true end
  | VDict d => match d with [] => false | _ :: _ => true end
  end.

Definition len {A : Type} (l : list A) : Z := Z.of_nat (List.length l).

(** [range(lo, hi)]. *)
Definition range (lo hi : Z) : list Z :=
  map (fun k => lo + Z.of_nat k) (seq 0 (Z.to_nat (hi - lo))).

(** *** dict *)

Module PyDict.

Definition t : Type := list (string * pyobj).

Fixpoint get (k : string) (d : t) : option pyobj :=
  match d with
  | [] => None
  | (k', v) :: d' => if String.eqb k k' then Some v else get k d'
  end.

Definition mem (k : string) (d : t) : bool :=
  match get k d with
  | Some _ => true
  | None => false
  end.

(** [d[k] = v]: overwrites the entry of [k] where it stands, or adds
    a new last entry. *)
Fixpoint set (k : string) (v : pyobj) (d : t) : t :=
  match d with
  | [] => [(k, v)]
  | (k', v') :: d' =>
      if String.eqb k k' then (k', v) :: d' else (k', v') :: set k v d'
  end.

(** [del d[k]]. *)
Definition del (k : string) (d : t) : t :=
  filter (fun kv => negb (String.eqb k (fst kv))) d.

Definition keys (d : t) : list string := map fst d.

End PyDict.

(** *** list, with Python's indices: [-1] is the last position *)

Module PyList.

(** The position an index denotes in a list of [n] elements. *)
Definition position (i : Z) (n : nat) : option nat :=
  if 0 <=? i then
    if i <? Z.of_nat n then Some (Z.to_nat i) else None
  else
    if - Z.of_nat n <=? i then Some (Z.to_nat (Z.of_nat n + i)) else None.

(** [l[i]]. *)
Definition getitem (l : list pyobj) (i : Z) : result pyobj :=
  match position i (List.length l) with
  | Some k =>
      match nth_error l k with
      | Some v => Ok v
      | None => Raise IndexError
      end
  | None => Raise IndexError
  end.

Fixpoint put (l : list pyobj) (k : nat) (v : pyobj) : list pyobj :=
  match l, k with
  | [], _ => []
  | _ :: l', O => v :: l'
  | x :: l', S k' => x :: put l' k' v
  end.

(** The list once the object at index [i], mutated in place, has
    become [v]. *)
Definition update (l : list pyobj) (i : Z) (v : pyobj) : list pyobj :=
  match position i (List.length l) with
  | Some k => put l k v
  | None => l
  end.

(** [l[i] = v]. *)
Definition setitem (l : list pyobj) (i : Z) (v : pyobj) : result (list pyobj) :=
  match position i (List.length l) with
  | Some k => Ok (put l k v)
  | None => Raise IndexError
  end.

Fixpoint remove (l : list pyobj) (k : nat) : list pyobj :=
  match l, k with
  | [], _ => []
  | _ :: l', O => l'
  | x :: l', S k' => x :: remove l' k'
  end.

(** [del l[i]]. *)
Definition delitem (l : list pyobj) (i : Z) : result (list pyobj) :=
  match position i (List.length l) with
  | Some k => Ok (remove l k)
  | None => Raise IndexError
  end.

End PyList.

(** [item in obj] for a str [item]. *)
Definition contains (item : string) (obj : pyobj) : result bool :=
  match obj with
  | VDict d => Ok (PyDict.mem item d)
  | VList l =>
      Ok (existsb (fun x => match x with
                            | VStr s => String.eqb item s
                            | _ => false
                            end) l)
  | VStr s => Ok (PyStr.contains item s)
  | VNone | VBool _ | VInt _ => Raise TypeError
  end.

(** [obj[item]] for a str [item]. *)
Definition getitem_str (obj : pyobj) (item : string) : result pyobj :=
  match obj with
  | VDict d =>
      match PyDict.get item d with
      | Some v => Ok v
      | None => Raise KeyError
      end
  | _ => Raise TypeError
  end.

(** [obj[item] = v] for a str [item]. *)
Definition setitem_str (obj : pyobj) (item : string) (v : pyobj) : result pyobj :=
  match obj with
  | VDict d => Ok (VDict (PyDict.set item v d))
  | _ => Raise TypeError
  end.

(** ** The class [Dictionary] *)

Definition PATH_SEPARATOR_CHAR : ascii := ".".

Section Dictionary.

(** [self._separator], set once by [__init__] (["."] by default). *)
Variable _separator : ascii.

#[local] Abbreviation find := (PyStr.find _separator).
#[local] Abbreviation split := (PyStr.split _separator).
#[local] Abbreviation join := (PyStr.join _separator).

(** [_is_int]: [element[0]] raises [IndexError] on the empty string. *)
Definition _is_int (element : string) : result bool :=
  match element with
  | EmptyString => Raise IndexError
  | String c rest =>
      if Ascii.eqb c "-" || Ascii.eqb c "+" then Ok (PyStr.isdecimal rest)
      else Ok (PyStr.isdecimal element)
  end.

(** The [for item in param_name.split(...)] loop of [get], from the
    current [local_content]. *)
Fixpoint get_walk (items : list string) (default_value local_content : pyobj)
  : result pyobj :=
  match items with
  | [] => Ok local_content
  | item :: rest =>
      is_index <- _is_int item ;;
      if (is_index : bool) then
        let item := PyStr.int item in
        match local_content with
        | VList l =>
            if item <? len l then
              child <- PyList.getitem l item ;;
              if is_none child then Ok default_value
              else get_walk rest default_value child
            else Ok default_value
        | _ => Ok default_value
        end
      else
        present <- contains item local_content ;;
        if (present : bool) then
          child <- getitem_str local_content item ;;
          if is_none child then Ok default_value
          else get_walk rest default_value child
        else Ok default_value
  end.

Definition get (param_name : string) (default_value : pyobj) (_content : pyobj)
  : result pyobj :=
  if 0 <? find param_name then
    get_walk (split param_name) default_value _content
  else
    if truthy _content then
      present <- contains param_name _content ;;
      if (present : bool) then getitem_str _content param_name
      else Ok default_value
    else Ok default_value.

Definition get_all (_content : pyobj) : pyobj := _content.

(** [_is_out_of_range]: [list_to_check[index]] raised [IndexError]. *)
Definition _is_out_of_range (index : Z) (list_to_check : list pyobj) : bool :=
  match PyList.getitem list_to_check index with
  | Ok _ => false
  | Raise _ => true
  end.

(** One round of the loop that fills a list up to [param_name]. *)
Definition fill_step (param_name : Z) (value : pyobj) (dictionary : list pyobj)
  (idx : Z) : list pyobj :=
  if negb (_is_out_of_range idx dictionary) then dictionary
  else dictionary ++ [if idx =? param_name then value else VNone].

(** [__recursive_set].  It returns the object [dictionary] as the call
    leaves it, and the outcome.  Each nested call consumes one unit of
    [fuel]; [recursive_set] below gives it more than it can use. *)
Fixpoint recursive_set_fuel (fuel : nat) (param_name : string)
  (value dictionary : pyobj) : pyobj * result unit :=
  match fuel with
  | O => (dictionary, Raise RecursionError)
  | S fuel' =>
      if 0 <? find param_name then
        let pieces := split param_name in
        match _is_int (hd "" pieces) with
        | Raise e => (dictionary, Raise e)
        | Ok true =>
            let item := PyStr.int (hd "" pieces) in
            match dictionary with
            | VList l =>
                if item <? len l then
                  match PyList.getitem l item with
                  | Ok child =>
                      if is_none child then (dictionary, Raise RuntimeError)
                      else
                        let (child', r) :=
                          recursive_set_fuel fuel' (join (tl pieces)) value child in
                        (VList (PyList.update l item child'), r)
                  | Raise e => (dictionary, Raise e)
                  end
                else (dictionary, Raise RuntimeError)
            | _ => (dictionary, Raise ValueError)
            end
        | Ok false =>
            match dictionary with
            | VDict d =>
                match PyDict.get (hd "" pieces) d with
                | None => (dictionary, Raise RuntimeError)
                | Some child =>
                    let (child', r) :=
                      recursive_set_fuel fuel' (join (tl pieces)) value child in
                    (VDict (PyDict.set (hd "" pieces) child' d), r)
                end
            | _ => (dictionary, Raise RuntimeError)
            end
        end
      else
        match _is_int param_name with
        | Raise e => (dictionary, Raise e)
        | Ok true =>
            let param_name := PyStr.int param_name in
            match dictionary with
            | VList l =>
                if param_name <? len l then
                  match PyList.setitem l param_name value with
                  | Ok l' => (VList l', Ok tt)
                  | Raise e => (dictionary, Raise e)
                  end
                else
                  (VList (fold_left (fill_step param_name value)
                            (range 0 (param_name + 1)) l), Ok tt)
            | _ => (dictionary, Raise ValueError)
            end
        | Ok false =>
            match dictionary with
            | VNone =>
                (* dictionary = {param_name: value} rebinds the local
                   name; no object changes *)
                (dictionary, Ok tt)
            | _ =>
                match setitem_str dictionary param_name value with
                | Ok dictionary' => (dictionary', Ok tt)
                | Raise e => (dictionary, Raise e)
                end
            end
        end
  end.

Definition recursive_set (param_name : string) (value dictionary : pyobj)
  : pyobj * result unit :=
  recursive_set_fuel (S (String.length param_name)) param_name value dictionary.

(** [set]; [param_name] is [None] or a str. *)
Definition set (param_name : option string) (value : pyobj) (_content : pyobj)
  : pyobj * result unit :=
  match param_name with
  | None => (_content, Raise RuntimeError)
  | Some param_name => recursive_set param_name value _content
  end.

Definition _get_focused_key (param_name : string) : string :=
  if 0 <? find param_name then last (split param_name) ""
  else param_name.

Definition get_parent (param_name : string) (_content : pyobj) : result pyobj :=
  if 0 <? find param_name then
    let pieces := split param_name in
    let parent_key := join (removelast pieces) in
    get parent_key VNone _content
  else Ok _content.

Definition key_exists (param_name : string) (_content : pyobj) : result bool :=
  let key_to_search := _get_focused_key param_name in
  parent_object <- get_parent param_name _content ;;
  if is_none parent_object then Ok false
  else
    match parent_object with
    | VList l =>
        is_index <- _is_int key_to_search ;;
        if (is_index : bool) then
          if _is_out_of_range (PyStr.int key_to_search) l then Ok false
          else Ok true
        else Ok false
    | VDict d => Ok (if PyDict.mem key_to_search d then true else false)
    | _ => Ok false
    end.

(** [get_keys_in].  A tuple or a set, which the code lists as it lists
    a list, is not among the objects of [pyobj]. *)
Definition get_keys_in (param_name : option string) (_content : pyobj)
  : result pyobj :=
  obj <- match param_name with
         | Some param_name => get param_name VNone _content
         | None => Ok _content
         end ;;
  match obj with
  | VDict d => Ok (VList (map VStr (PyDict.keys d)))
  | VList l => Ok (VList (map VInt (range 0 (len l))))
  | _ => Ok VNone
  end.

Definition to_dict (_content : pyobj) : pyobj := get_all _content.

(** *** References into the store

    [get] and [get_parent] return the object itself, and [delete]
    mutates what it got.  In a tree an object is known by the accesses
    that lead to it from the root: its [address].  [get_address] follows
    [get] and returns the address of the object [get] returns, or [None]
    where [get] returns [default_value] ([get_address_get] below). *)

Inductive step : Type :=
| Key (k : string)
| Index (k : nat).

Definition address : Type := list step.

Fixpoint deref (a : address) (root : pyobj) : option pyobj :=
  match a with
  | [] => Some root
  | Key k :: a' =>
      match root with
      | VDict d =>
          match PyDict.get k d with
          | Some child => deref a' child
          | None => None
          end
      | _ => None
      end
  | Index k :: a' =>
      match root with
      | VList l =>
          match nth_error l k with
          | Some child => deref a' child
          | None => None
          end
      | _ => None
      end
  end.

(** Runs the in-place operation [op] on the object at [a]. *)
Fixpoint update_at {A : Type} (a : address) (op : pyobj -> pyobj * result A)
  (root : pyobj) : pyobj * result A :=
  match a with
  | [] => op root
  | Key k :: a' =>
      match root with
      | VDict d =>
          match PyDict.get k d with
          | Some child =>
              let (child', r) := update_at a' op child in
              (VDict (PyDict.set k child' d), r)
          | None => (root, Raise KeyError)
          end
      | _ => (root, Raise TypeError)
      end
  | Index k :: a' =>
      match root with
      | VList l =>
          match nth_error l k with
          | Some child =>
              let (child', r) := update_at a' op child in
              (VList (PyList.put l k child'), r)
          | None => (root, Raise IndexError)
          end
      | _ => (root, Raise TypeError)
      end
  end.

Definition under (s : step) (a : option address) : option address :=
  match a with
  | Some a' => Some (s :: a')
  | None => None
  end.

Fixpoint get_walk_address (items : list string) (local_content : pyobj)
  : result (option address) :=
  match items with
  | [] => Ok (Some [])
  | item :: rest =>
      is_index <- _is_int item ;;
      if (is_index : bool) then
        let item := PyStr.int item in
        match local_content with
        | VList l =>
            if item <? len l then
              child <- PyList.getitem l item ;;
              if is_none child then Ok None
              else
                match PyList.position item (List.length l) with
                | Some k =>
                    a <- get_walk_address rest child ;; Ok (under (Index k) a)
                | None => Raise IndexError
                end
            else Ok None
        | _ => Ok None
        end
      else
        present <- contains item local_content ;;
        if (present : bool) then
          child <- getitem_str local_content item ;;
          if is_none child then Ok None
          else a <- get_walk_address rest child ;; Ok (under (Key item) a)
        else Ok None
  end.

Definition get_address (param_name : string) (_content : pyobj)
  : result (option address) :=
  if 0 <? find param_name then
    get_walk_address (split param_name) _content
  else
    if truthy _content then
      present <- contains param_name _content ;;
      if (present : bool) then
        _ <- getitem_str _content param_name ;; Ok (Some [Key param_name])
      else Ok None
    else Ok None.

Definition get_parent_address (param_name : string) (_content : pyobj)
  : result (option address) :=
  if 0 <? find param_name then
    let pieces := split param_name in
    let parent_key := join (removelast pieces) in
    get_address parent_key _content
  else Ok (Some []).

(** [del parent[key_to_delete]], after the conversion of the key to an
    int when [parent] is a list and the key is an index. *)
Definition del_key (key_to_delete : string) (parent : pyobj) : pyobj * result bool :=
  match parent with
  | VList l =>
      match _is_int key_to_delete with
      | Raise e => (parent, Raise e)
      | Ok true =>
          match PyList.delitem l (PyStr.int key_to_delete) with
          | Ok l' => (VList l', Ok true)
          | Raise e => (parent, Raise e)
          end
      | Ok false => (parent, Raise TypeError)
      end
  | VDict d =>
      if PyDict.mem key_to_delete d then (VDict (PyDict.del key_to_delete d), Ok true)
      else (parent, Raise KeyError)
  | _ => (parent, Raise TypeError)
  end.

Definition delete (param_name : string) (_content : pyobj) : pyobj * result bool :=
  match key_exists param_name _content with
  | Raise e => (_content, Raise e)
  | Ok true =>
      let key_to_delete := _get_focused_key param_name in
      match get_parent_address param_name _content with
      | Raise e => (_content, Raise e)
      | Ok (Some parent) => update_at parent (del_key key_to_delete) _content
      | Ok None => (_content, Raise TypeError)
      end
  | Ok false => (_content, Ok false)
  end.

(** The loop of [initialise_recursive] over the remaining [pieces]. *)
Fixpoint initialise_loop (pieces : list string) (parent_path : string)
  (_content : pyobj) : pyobj * result unit :=
  match pieces with
  | [] => (_content, Ok tt)
  | piece :: rest =>
      let path := parent_path ++ piece in
      match key_exists path _content with
      | Raise e => (_content, Raise e)
      | Ok true => initialise_loop rest (path ++ String _separator "") _content
      | Ok false =>
          match get_parent path _content with
          | Raise e => (_content, Raise e)
          | Ok parent =>
              let compatible :=
                match parent with
                | VDict _ => is_index <- _is_int piece ;; Ok (negb is_index)
                | VList _ => _is_int piece
                | _ => Ok false
                end in
              match compatible with
              | Raise e => (_content, Raise e)
              | Ok true =>
                  match set (Some path) (VDict []) _content with
                  | (_content', Ok _) =>
                      initialise_loop rest (path ++ String _separator "") _content'
                  | (_content', Raise e) => (_content', Raise e)
                  end
              | Ok false => (_content, Raise RuntimeError)
              end
          end
      end
  end.

Definition initialise_recursive (param_name : string) (_content : pyobj)
  : pyobj * result unit :=
  initialise_loop (split param_name) "" _content.

End Dictionary.

(** ** Objects used in the statements *)

(** The root after the object at [a] has been replaced by [x]. *)
Definition put_at (a : address) (x : pyobj) (root : pyobj) : pyobj :=
  fst (update_at a (fun _ => (x, Ok tt)) root).

(** The dicts nested along [keys], down to [leaf]:
    [{k1: {k2: ... {kn: leaf}}}]. *)
Fixpoint chain (keys : list string) (leaf : pyobj) : pyobj :=
  match keys with
  | [] => leaf
  | k :: keys' => VDict [(k, chain keys' leaf)]
  end.

(** The [parent_path] of [initialise_recursive] once the segments [done]
    are behind: each of them, followed by the separator. *)
Definition parent_path_after (sep : ascii) (done : list string) : string :=
  match done with
  | [] => ""
  | _ :: _ => PyStr.join sep done ++ String sep ""
  end.

(** ** More objects used in the statements *)

(** [__init__]: the content as given, and the separator, ["."] when
    [path_separator_char] is [None]. *)
Definition __init__ (content : pyobj) (path_separator_char : option ascii)
  : pyobj * ascii :=
  (content,
   match path_separator_char with
   | Some c => c
   | None => PATH_SEPARATOR_CHAR
   end).

(** The segment [__recursive_set] looks at first: the first piece of a
    path that it splits, the whole path otherwise. *)
Definition first_segment (sep : ascii) (param_name : string) : string :=
  if 0 <? PyStr.find sep param_name then hd "" (PyStr.split sep param_name)
  else param_name.

(** Two objects of the same type; a [None], a bool, an int or a str is
    of the same kind only as itself. *)
Definition same_kind (a b : pyobj) : Prop :=
  match a, b with
  | VList _, VList _ => True
  | VDict _, VDict _ => True
  | VNone, VNone => True
  | VBool x, VBool y => x = y
  | VInt x, VInt y => x = y
  | VStr x, VStr y => x = y
  | _, _ => False
  end.

(** ** Facts on [find], [split] and [join] *)

Section StrFacts.

Variable sep : ascii.

Lemma find_lower (s : string) : -1 <= PyStr.find sep s.
Proof.
  induction s as [|c s IH]; simpl; [lia|].
  destruct (Ascii.eqb c sep); [lia|].
  destruct (PyStr.find sep s <? 0) eqn:E; [lia|].
  apply Z.ltb_ge in E. lia.
Qed.

Lemma find_cons_other (c : ascii) (s : string) :
  Ascii.eqb c sep = false ->
  PyStr.find sep (String c s)
  = if PyStr.find sep s <? 0 then -1 else PyStr.find sep s + 1.
Proof. intros E. simpl. rewrite E. reflexivity. Qed.

Lemma split_not_nil (s : string) : PyStr.split sep s <> [].
Proof.
  destruct s as [|c s]; simpl; [discriminate|].
  destruct (Ascii.eqb c sep); [discriminate|].
  destruct (PyStr.split sep s); discriminate.
Qed.

Lemma join_cons (k : string) (ks : list string) :
  ks <> [] -> PyStr.join sep (k :: ks) = k ++ String sep (PyStr.join sep ks).
Proof. destruct ks; [congruence|reflexivity]. Qed.

Lemma join_split (s : string) : PyStr.join sep (PyStr.split sep s) = s.
Proof.
  induction s as [|c s IH]; [reflexivity|].
  simpl PyStr.split. destruct (Ascii.eqb c sep) eqn:E.
  - apply Ascii.eqb_eq in E. subst c.
    rewrite join_cons by apply split_not_nil. rewrite IH. reflexivity.
  - pose proof (split_not_nil s) as Hne.
    destruct (PyStr.split sep s) as [|p ps]; [congruence|].
    destruct ps as [|q qs].
    + simpl in *. congruence.
    + simpl in *. congruence.
Qed.

Lemma split_pieces_no_sep (s : string) :
  Forall (fun k => PyStr.find sep k = -1) (PyStr.split sep s).
Proof.
  induction s as [|c s IH]; simpl.
  - constructor; [reflexivity|constructor].
  - destruct (Ascii.eqb c sep) eqn:E.
    + constructor; [reflexivity|exact IH].
    + destruct (PyStr.split sep s) as [|p ps]; simpl.
      * constructor; [|constructor]. simpl. rewrite E. reflexivity.
      * inversion IH as [|? ? Hp Hps]; subst. constructor; [|exact Hps].
        simpl. rewrite E, Hp. reflexivity.
Qed.

Lemma find_no_sep_cons (c : ascii) (k : string) :
  PyStr.find sep (String c k) = -1 ->
  Ascii.eqb c sep = false /\ PyStr.find sep k = -1.
Proof.
  simpl. destruct (Ascii.eqb c sep); [discriminate|].
  pose proof (find_lower k).
  destruct (PyStr.find sep k <? 0) eqn:E; intros H'.
  - apply Z.ltb_lt in E. split; [reflexivity|lia].
  - apply Z.ltb_ge in E. lia.
Qed.

Lemma find_app_sep (k r : string) :
  PyStr.find sep k = -1 ->
  PyStr.find sep (k ++ String sep r) = Z.of_nat (String.length k).
Proof.
  induction k as [|c k IH]; intros H.
  - simpl. rewrite Ascii.eqb_refl. reflexivity.
  - apply find_no_sep_cons in H as [E H].
    change (String c k ++ String sep r) with (String c (k ++ String sep r)).
    rewrite find_cons_other by exact E. rewrite IH by exact H.
    destruct (Z.of_nat (String.length k) <? 0) eqn:L.
    + apply Z.ltb_lt in L. lia.
    + simpl String.length. lia.
Qed.

Lemma split_app_sep (k r : string) :
  PyStr.find sep k = -1 ->
  PyStr.split sep (k ++ String sep r) = k :: PyStr.split sep r.
Proof.
  induction k as [|c k IH]; intros H.
  - simpl. rewrite Ascii.eqb_refl. reflexivity.
  - apply find_no_sep_cons in H as [E H].
    change (String c k ++ String sep r) with (String c (k ++ String sep r)).
    simpl PyStr.split. rewrite E, IH by exact H. reflexivity.
Qed.

Lemma split_no_sep (k : string) :
  PyStr.find sep k = -1 -> PyStr.split sep k = [k].
Proof.
  induction k as [|c k IH]; intros H; [reflexivity|].
  apply find_no_sep_cons in H as [E H].
  simpl. rewrite E, IH by exact H. reflexivity.
Qed.

Lemma split_join (ks : list string) :
  ks <> [] -> Forall (fun k => PyStr.find sep k = -1) ks ->
  PyStr.split sep (PyStr.join sep ks) = ks.
Proof.
  induction ks as [|k ks IH]; intros Hne Hall; [congruence|].
  inversion Hall as [|? ? Hk Hks]; subst.
  destruct ks as [|k' ks'].
  - simpl. apply split_no_sep, Hk.
  - rewrite join_cons by discriminate.
    rewrite split_app_sep by exact Hk. rewrite IH; [reflexivity|discriminate|exact Hks].
Qed.

Lemma tail_shorter (s : string) :
  0 <= PyStr.find sep s ->
  (String.length (PyStr.join sep (tl (PyStr.split sep s))) < String.length s)%nat.
Proof.
  induction s as [|c s IH]; simpl; [lia|].
  destruct (Ascii.eqb c sep) eqn:E.
  - intros _. simpl. rewrite join_split. lia.
  - pose proof (find_lower s).
    destruct (PyStr.find sep s <? 0) eqn:L; [lia|]. apply Z.ltb_ge in L.
    intros _. specialize (IH L).
    destruct (PyStr.split sep s) as [|p ps]; simpl in *; lia.
Qed.

End StrFacts.

(** ** Facts on dicts and lists *)

Lemma dict_get_set_same (k : string) (v : pyobj) (d : PyDict.t) :
  PyDict.get k (PyDict.set k v d) = Some v.
Proof.
  induction d as [|[k' v'] d IH]; simpl.
  - rewrite String.eqb_refl. reflexivity.
  - destruct (String.eqb k k') eqn:E; simpl; rewrite E; [reflexivity|exact IH].
Qed.

Lemma dict_set_unchanged (k : string) (v : pyobj) (d : PyDict.t) :
  PyDict.get k d = Some v -> PyDict.set k v d = d.
Proof.
  induction d as [|[k' v'] d IH]; simpl; [discriminate|].
  destruct (String.eqb k k') eqn:E; intros H.
  - congruence.
  - rewrite IH by exact H. reflexivity.
Qed.

Lemma dict_mem_del (k : string) (d : PyDict.t) :
  PyDict.mem k (PyDict.del k d) = false.
Proof.
  unfold PyDict.mem, PyDict.del.
  induction d as [|[k' v'] d IH]; simpl; [reflexivity|].
  destruct (String.eqb k k') eqn:E; simpl; [exact IH|].
  rewrite E. exact IH.
Qed.

Lemma dict_set_not_nil (k : string) (v : pyobj) (d : PyDict.t) :
  PyDict.set k v d <> [].
Proof.
  destruct d as [|[k' v'] d]; simpl; [discriminate|].
  destruct (String.eqb k k'); discriminate.
Qed.

Lemma put_length (l : list pyobj) (k : nat) (v : pyobj) :
  List.length (PyList.put l k v) = List.length l.
Proof.
  revert k. induction l as [|x l IH]; intros [|k]; simpl; auto.
Qed.

Lemma put_unchanged (l : list pyobj) (k : nat) (v : pyobj) :
  nth_error l k = Some v -> PyList.put l k v = l.
Proof.
  revert k. induction l as [|x l IH]; intros [|k]; simpl; try discriminate.
  - congruence.
  - intros H. rewrite IH by exact H. reflexivity.
Qed.

Lemma nth_error_put_same (l : list pyobj) (k : nat) (v w : pyobj) :
  nth_error l k = Some w -> nth_error (PyList.put l k v) k = Some v.
Proof.
  revert k. induction l as [|x l IH]; intros [|k]; simpl; try discriminate.
  - reflexivity.
  - apply IH.
Qed.

Lemma getitem_position (l : list pyobj) (i : Z) (v : pyobj) :
  PyList.getitem l i = Ok v ->
  exists k, PyList.position i (List.length l) = Some k /\ nth_error l k = Some v.
Proof.
  unfold PyList.getitem.
  destruct (PyList.position i (List.length l)) as [k|]; [|discriminate].
  destruct (nth_error l k) as [x|] eqn:E; [|discriminate].
  intros H. inversion H; subst. exists k. split; [reflexivity|exact E].
Qed.

(** ** [__recursive_set] has fuel to spare *)

Section SetFacts.

Variable sep : ascii.

(** A branch that raises returns the object it was given. *)
Ltac kept := let H := fresh in intros H; inversion H; reflexivity.

(** A call that raises leaves the object it was given as it was. *)
Lemma recursive_set_fuel_raise (fuel : nat) :
  forall param_name value dictionary dictionary' e,
    recursive_set_fuel sep fuel param_name value dictionary = (dictionary', Raise e) ->
    dictionary' = dictionary.
Proof.
  induction fuel as [|fuel IH]; intros p v c c' e; simpl.
  - kept.
  - destruct (0 <? PyStr.find sep p).
    + destruct (_is_int (hd "" (PyStr.split sep p))) as [[|]|e0].
      * destruct c as [| | | |l|d]; try kept.
        destruct (PyStr.int (hd "" (PyStr.split sep p)) <? len l); [|kept].
        destruct (PyList.getitem l _) as [child|e1] eqn:G; [|kept].
        destruct (getitem_position _ _ _ G) as [k [Hk Hn]].
        destruct (is_none child); [kept|].
        destruct (recursive_set_fuel sep fuel _ v child) as [child' r] eqn:R.
        intros H. inversion H; subst.
        apply IH in R. subst child'. unfold PyList.update.
        rewrite Hk, put_unchanged by exact Hn. reflexivity.
      * destruct c as [| | | |l|d]; try kept.
        destruct (PyDict.get _ d) as [child|] eqn:G; [|kept].
        destruct (recursive_set_fuel sep fuel _ v child) as [child' r] eqn:R.
        intros H. inversion H; subst.
        apply IH in R. subst child'. rewrite dict_set_unchanged by exact G. reflexivity.
      * kept.
    + destruct (_is_int p) as [[|]|e0].
      * destruct c as [| | | |l|d]; try kept.
        destruct (PyStr.int p <? len l); [|intros H; inversion H].
        destruct (PyList.setitem l _ v); kept.
      * destruct c as [| | | |l|d]; simpl; kept.
      * kept.
Qed.

(** The outcome does not depend on the fuel once it exceeds the length
    of the path. *)
Lemma recursive_set_fuel_enough (fuel1 : nat) :
  forall fuel2 param_name value dictionary,
    (String.length param_name < fuel1)%nat ->
    (String.length param_name < fuel2)%nat ->
    recursive_set_fuel sep fuel1 param_name value dictionary
    = recursive_set_fuel sep fuel2 param_name value dictionary.
Proof.
  induction fuel1 as [|fuel1 IH]; intros fuel2 p v c H1 H2; [lia|].
  destruct fuel2 as [|fuel2]; [lia|].
  simpl. destruct (0 <? PyStr.find sep p) eqn:F; [|reflexivity].
  apply Z.ltb_lt in F.
  assert (T : (String.length (PyStr.join sep (tl (PyStr.split sep p)))
               < String.length p)%nat) by (apply tail_shorter; lia).
  destruct (_is_int (hd "" (PyStr.split sep p))) as [[|]|e0]; [| |reflexivity].
  - destruct c as [| | | |l|d]; try reflexivity.
    destruct (PyStr.int _ <? len l); [|reflexivity].
    destruct (PyList.getitem l _) as [child|e1]; [|reflexivity].
    destruct (is_none child); [reflexivity|].
    rewrite (IH fuel2) by lia. reflexivity.
  - destruct c as [| | | |l|d]; try reflexivity.
    destruct (PyDict.get _ d) as [child|]; [|reflexivity].
    rewrite (IH fuel2) by lia. reflexivity.
Qed.

Lemma recursive_set_fuel_eq (fuel : nat) (param_name : string) (value dictionary : pyobj) :
  (String.length param_name < fuel)%nat ->
  recursive_set_fuel sep fuel param_name value dictionary
  = recursive_set sep param_name value dictionary.
Proof.
  intros H. unfold recursive_set. apply recursive_set_fuel_enough; lia.
Qed.

(** [__recursive_set] never exhausts its fuel. *)
Lemma recursive_set_terminates (fuel : nat) :
  forall param_name value dictionary,
    (String.length param_name < fuel)%nat ->
    snd (recursive_set_fuel sep fuel param_name value dictionary)
    <> Raise RecursionError.
Proof.
  induction fuel as [|fuel IH]; intros p v c H; [lia|].
  simpl. destruct (0 <? PyStr.find sep p) eqn:F.
  - apply Z.ltb_lt in F.
    assert (T : (String.length (PyStr.join sep (tl (PyStr.split sep p)))
                 < String.length p)%nat) by (apply tail_shorter; lia).
    assert (Hhd : _is_int (hd "" (PyStr.split sep p)) <> Raise RecursionError).
    { unfold _is_int. destruct (hd "" (PyStr.split sep p)) as [|a s]; [discriminate|].
      destruct (Ascii.eqb a "-" || Ascii.eqb a "+"); discriminate. }
    destruct (_is_int (hd "" (PyStr.split sep p))) as [[|]|e0]; [| |simpl; congruence].
    + destruct c as [| | | |l|d]; try (simpl; discriminate).
      destruct (PyStr.int _ <? len l); [|simpl; discriminate].
      unfold PyList.getitem.
      destruct (PyList.position _ _) as [k|]; [|simpl; discriminate].
      destruct (nth_error l k) as [child|]; [|simpl; discriminate].
      destruct (is_none child); [simpl; discriminate|].
      specialize (IH (PyStr.join sep (tl (PyStr.split sep p))) v child).
      destruct (recursive_set_fuel sep fuel _ v child) as [child' r].
      simpl in *. apply IH. lia.
    + destruct c as [| | | |l|d]; try (simpl; discriminate).
      destruct (PyDict.get _ d) as [child|]; [|simpl; discriminate].
      specialize (IH (PyStr.join sep (tl (PyStr.split sep p))) v child).
      destruct (recursive_set_fuel sep fuel _ v child) as [child' r].
      simpl in *. apply IH. lia.
  - unfold _is_int. destruct p as [|a s]; [simpl; discriminate|].
    destruct (Ascii.eqb a "-" || Ascii.eqb a "+").
    + destruct (PyStr.isdecimal s).
      * destruct c as [| | | |l|d]; try (simpl; discriminate).
        destruct (PyStr.int _ <? len l); [|simpl; discriminate].
        unfold PyList.setitem.
        destruct (PyList.position _ _); simpl; discriminate.
      * destruct c as [| | | |l|d]; simpl; discriminate.
    + destruct (PyStr.isdecimal (String a s)).
      * destruct c as [| | | |l|d]; try (simpl; discriminate).
        destruct (PyStr.int _ <? len l); [|simpl; discriminate].
        unfold PyList.setitem.
        destruct (PyList.position _ _); simpl; discriminate.
      * destruct c as [| | | |l|d]; simpl; discriminate.
Qed.

Lemma recursive_set_never_exhausts (param_name : string) (value dictionary : pyobj) :
  snd (recursive_set sep param_name value dictionary) <> Raise RecursionError.
Proof.
  apply recursive_set_terminates. lia.
Qed.

End SetFacts.
(** ** Single steps of [__recursive_set] *)

Section StepFacts.

Variable sep : ascii.

Lemma find_zero (s : string) :
  PyStr.find sep s = 0 -> exists r, s = String sep r.
Proof.
  destruct s as [|c s]; simpl; [discriminate|].
  destruct (Ascii.eqb c sep) eqn:E.
  - apply Ascii.eqb_eq in E. subst. eauto.
  - pose proof (find_lower sep s).
    destruct (PyStr.find sep s <? 0) eqn:L; [discriminate|].
    apply Z.ltb_ge in L. lia.
Qed.

(** The last segment, a key, over a dict. *)
Lemma recursive_set_last_key (param_name : string) (value : pyobj) (d : PyDict.t) :
  PyStr.find sep param_name <= 0 ->
  _is_int param_name = Ok false ->
  recursive_set sep param_name value (VDict d)
  = (VDict (PyDict.set param_name value d), Ok tt).
Proof.
  intros F I. unfold recursive_set. simpl.
  destruct (0 <? PyStr.find sep param_name) eqn:L; [apply Z.ltb_lt in L; lia|].
  rewrite I. reflexivity.
Qed.

(** A key segment before the last one, over a dict that has the key. *)
Lemma recursive_set_descend_key (param_name : string) (value child : pyobj)
  (d : PyDict.t) :
  0 < PyStr.find sep param_name ->
  _is_int (hd "" (PyStr.split sep param_name)) = Ok false ->
  PyDict.get (hd "" (PyStr.split sep param_name)) d = Some child ->
  recursive_set sep param_name value (VDict d)
  = (let (child', r) :=
       recursive_set sep (PyStr.join sep (tl (PyStr.split sep param_name))) value child in
     (VDict (PyDict.set (hd "" (PyStr.split sep param_name)) child' d), r)).
Proof.
  intros F I G. unfold recursive_set at 1. simpl.
  destruct (0 <? PyStr.find sep param_name) eqn:L; [|apply Z.ltb_ge in L; lia].
  rewrite I, G. rewrite recursive_set_fuel_eq; [reflexivity|].
  apply tail_shorter. lia.
Qed.

(** [list_to_check[index]] succeeds from [-len] to [len - 1]. *)
Lemma is_out_of_range_bounds (index : Z) (l : list pyobj) :
  _is_out_of_range index l = negb ((- len l <=? index) && (index <? len l)).
Proof.
  unfold _is_out_of_range, PyList.getitem, PyList.position, len.
  destruct (0 <=? index) eqn:P.
  - apply Z.leb_le in P.
    destruct (index <? Z.of_nat (List.length l)) eqn:Q.
    + apply Z.ltb_lt in Q.
      destruct (nth_error l (Z.to_nat index)) eqn:N.
      * destruct (- Z.of_nat (List.length l) <=? index) eqn:R;
          [reflexivity|apply Z.leb_gt in R; lia].
      * apply nth_error_None in N. lia.
    + rewrite andb_false_r. reflexivity.
  - apply Z.leb_gt in P.
    destruct (- Z.of_nat (List.length l) <=? index) eqn:R.
    + apply Z.leb_le in R.
      destruct (nth_error l (Z.to_nat (Z.of_nat (List.length l) + index))) eqn:N.
      * destruct (index <? Z.of_nat (List.length l)) eqn:Q;
          [reflexivity|apply Z.ltb_ge in Q; lia].
      * apply nth_error_None in N. lia.
    + reflexivity.
Qed.

Lemma fill_step_inside (n : Z) (v : pyobj) (l : list pyobj) (idx : Z) :
  0 <= idx < len l -> fill_step n v l idx = l.
Proof.
  intros H. unfold fill_step. rewrite is_out_of_range_bounds.
  destruct (- len l <=? idx) eqn:P; [|apply Z.leb_gt in P; unfold len in *; lia].
  destruct (idx <? len l) eqn:Q; [reflexivity|apply Z.ltb_ge in Q; lia].
Qed.

Lemma fill_step_outside (n : Z) (v : pyobj) (l : list pyobj) (idx : Z) :
  len l <= idx ->
  fill_step n v l idx = (l ++ [if idx =? n then v else VNone])%list.
Proof.
  intros H. unfold fill_step. rewrite is_out_of_range_bounds.
  destruct (idx <? len l) eqn:Q; [apply Z.ltb_lt in Q; lia|].
  rewrite andb_false_r. reflexivity.
Qed.

Lemma fill_round (n : Z) (v : pyobj) (a k : nat) (l : list pyobj) :
  fold_left (fill_step n v) (map (fun j => 0 + Z.of_nat j) (seq a (S k))) l
  = fold_left (fill_step n v) (map (fun j => 0 + Z.of_nat j) (seq (S a) k))
      (fill_step n v l (0 + Z.of_nat a)).
Proof. reflexivity. Qed.

(** The filling loop: rounds below the length change nothing. *)
Lemma fill_skip (n : Z) (v : pyobj) (k : nat) :
  forall (a : nat) (l : list pyobj),
    (a + k <= List.length l)%nat ->
    fold_left (fill_step n v) (map (fun j => 0 + Z.of_nat j) (seq a k)) l = l.
Proof.
  induction k as [|k IH]; intros a l H; [reflexivity|].
  rewrite fill_round, fill_step_inside by (unfold len; lia). apply IH. lia.
Qed.

(** The filling loop: from the length on, each round appends. *)
Lemma fill_append (n : nat) (v : pyobj) (k : nat) :
  forall l : list pyobj,
    (List.length l + k = n)%nat ->
    fold_left (fill_step (Z.of_nat n) v)
      (map (fun j => 0 + Z.of_nat j) (seq (List.length l) (S k))) l
    = (l ++ repeat VNone k ++ [v])%list.
Proof.
  induction k as [|k IH]; intros l H.
  - rewrite fill_round, fill_step_outside by (unfold len; lia).
    destruct (0 + Z.of_nat (List.length l) =? Z.of_nat n) eqn:R;
      [reflexivity|apply Z.eqb_neq in R; lia].
  - rewrite fill_round, fill_step_outside by (unfold len; lia).
    destruct (0 + Z.of_nat (List.length l) =? Z.of_nat n) eqn:R;
      [apply Z.eqb_eq in R; lia|].
    specialize (IH (l ++ [VNone])%list).
    rewrite length_app in IH. simpl List.length in IH.
    replace (List.length l + 1)%nat with (S (List.length l)) in IH by lia.
    rewrite IH by lia. rewrite <- app_assoc. reflexivity.
Qed.

Lemma fill_loop (n : Z) (v : pyobj) (l : list pyobj) :
  len l <= n ->
  fold_left (fill_step n v) (range 0 (n + 1)) l
  = (l ++ repeat VNone (Z.to_nat (n - len l)) ++ [v])%list.
Proof.
  unfold len, range. intros H.
  replace (Z.to_nat (n + 1 - 0))
    with (List.length l + S (Z.to_nat (n - Z.of_nat (List.length l))))%nat by lia.
  rewrite seq_app, map_app, fold_left_app.
  rewrite (fill_skip n v (List.length l) 0%nat l) by lia. simpl Nat.add.
  replace n with (Z.of_nat (Z.to_nat n)) at 1 by lia.
  apply fill_append. lia.
Qed.

(** The last segment, an index at or beyond the length of a list. *)
Lemma recursive_set_last_index_beyond (param_name : string) (value : pyobj)
  (l : list pyobj) :
  PyStr.find sep param_name <= 0 ->
  _is_int param_name = Ok true ->
  len l <= PyStr.int param_name ->
  recursive_set sep param_name value (VList l)
  = (VList (l ++ repeat VNone (Z.to_nat (PyStr.int param_name - len l)) ++ [value])%list,
     Ok tt).
Proof.
  intros F I B. unfold recursive_set. simpl.
  destruct (0 <? PyStr.find sep param_name) eqn:L; [apply Z.ltb_lt in L; lia|].
  rewrite I.
  destruct (PyStr.int param_name <? len l) eqn:Q; [apply Z.ltb_lt in Q; lia|].
  rewrite fill_loop by exact B. reflexivity.
Qed.

End StepFacts.

(** ** The loop of [initialise_recursive] *)

(** A loop that raises has completed the rounds before the failing one. *)
Lemma initialise_loop_raise (sep : ascii) (pieces : list string) :
  forall parent_path _content _content' e,
    initialise_loop sep pieces parent_path _content = (_content', Raise e) ->
    exists done rest,
      pieces = (done ++ rest)%list /\ rest <> [] /\
      initialise_loop sep done parent_path _content = (_content', Ok tt).
Proof.
  induction pieces as [|piece rest IH]; intros pp c c' e; cbn [initialise_loop].
  - discriminate.
  - assert (Stop : forall x, (c, @Raise unit x) = (c', Raise e) ->
             exists done rest0,
               piece :: rest = (done ++ rest0)%list /\ rest0 <> [] /\
               initialise_loop sep done pp c = (c', Ok tt)).
    { intros x H. inversion H; subst. exists [], (piece :: rest).
      repeat split; [discriminate]. }
    destruct (key_exists sep (pp ++ piece) c) as [[|]|e0] eqn:K; [| |apply Stop].
    + intros H. apply IH in H as [done [rest0 [E [N L]]]].
      exists (piece :: done), rest0. subst rest. repeat split; [exact N|].
      cbn [initialise_loop]. rewrite K. exact L.
    + destruct (get_parent sep (pp ++ piece) c) as [parent|e0] eqn:P; [|apply Stop].
      destruct (match parent with
                | VDict _ => is_index <- _is_int piece ;; Ok (negb is_index)
                | VList _ => _is_int piece
                | _ => Ok false
                end) as [[|]|e0] eqn:C; [| apply Stop | apply Stop].
      destruct (set sep (Some (pp ++ piece)) (VDict []) c) as [c1 [[]|e1]] eqn:S.
      * intros H. apply IH in H as [done [rest0 [E [N L]]]].
        exists (piece :: done), rest0. subst rest. repeat split; [exact N|].
        cbn [initialise_loop]. rewrite K, P, C, S. exact L.
      * intros H. inversion H; subst.
        apply recursive_set_fuel_raise in S. subst.
        exists [], (piece :: rest). repeat split; discriminate.
Qed.

(** ** Addresses *)

Lemma update_at_deref {A : Type} (a : address) (op : pyobj -> pyobj * result A) :
  forall root x x' r,
    deref a root = Some x -> op x = (x', r) ->
    update_at a op root = (put_at a x' root, r).
Proof.
  unfold put_at.
  induction a as [|[k|k] a IH]; intros root x x' r D O.
  - simpl in *. inversion D; subst. exact O.
  - destruct root as [| | | |l|d]; simpl in D; try discriminate.
    simpl. destruct (PyDict.get k d) as [child|]; [|discriminate].
    rewrite (IH child x x' r D O).
    destruct (update_at a (fun _ => (x', Ok tt)) child) as [child' r']. reflexivity.
  - destruct root as [| | | |l|d]; simpl in D; try discriminate.
    simpl. destruct (nth_error l k) as [child|]; [|discriminate].
    rewrite (IH child x x' r D O).
    destruct (update_at a (fun _ => (x', Ok tt)) child) as [child' r']. reflexivity.
Qed.

Lemma put_at_nil (x root : pyobj) : put_at [] x root = x.
Proof. reflexivity. Qed.

Lemma put_at_key (k : string) (a : address) (x child : pyobj) (d : PyDict.t) :
  PyDict.get k d = Some child ->
  put_at (Key k :: a) x (VDict d) = VDict (PyDict.set k (put_at a x child) d).
Proof.
  intros G. unfold put_at. simpl. rewrite G.
  destruct (update_at a (fun _ => (x, Ok tt)) child). reflexivity.
Qed.

Lemma put_at_index (k : nat) (a : address) (x child : pyobj) (l : list pyobj) :
  nth_error l k = Some child ->
  put_at (Index k :: a) x (VList l) = VList (PyList.put l k (put_at a x child)).
Proof.
  intros G. unfold put_at. simpl. rewrite G.
  destruct (update_at a (fun _ => (x, Ok tt)) child). reflexivity.
Qed.

Lemma put_at_not_none (a : address) (x root y : pyobj) :
  deref a root = Some y -> is_none x = false -> is_none (put_at a x root) = false.
Proof.
  destruct a as [|[k|k] a]; intros D N.
  - exact N.
  - destruct root as [| | | |l|d]; simpl in D; try discriminate.
    destruct (PyDict.get k d) as [child|] eqn:G; [|discriminate].
    rewrite (put_at_key _ _ _ _ _ G). reflexivity.
  - destruct root as [| | | |l|d]; simpl in D; try discriminate.
    destruct (nth_error l k) as [child|] eqn:G; [|discriminate].
    rewrite (put_at_index _ _ _ _ _ G). reflexivity.
Qed.

(** [get_walk_address] returns the address of what [get_walk] returns. *)
Lemma get_walk_address_get_walk (items : list string) :
  forall local_content,
    match get_walk_address items local_content with
    | Ok (Some a) =>
        exists x, deref a local_content = Some x /\
                  forall default_value,
                    get_walk items default_value local_content = Ok x
    | Ok None =>
        forall default_value,
          get_walk items default_value local_content = Ok default_value
    | Raise e =>
        forall default_value,
          get_walk items default_value local_content = Raise e
    end.
Proof.
  induction items as [|item rest IH]; intros c.
  - simpl. exists c. split; reflexivity.
  - cbn [get_walk_address get_walk].
    destruct (_is_int item) as [[|]|e]; cbn [bind]; [| |reflexivity].
    + destruct c as [| | | |l|d]; try reflexivity.
      destruct (PyStr.int item <? len l); [|reflexivity].
      destruct (PyList.getitem l (PyStr.int item)) as [child|e] eqn:G;
        cbn [bind]; [|reflexivity].
      destruct (is_none child); [reflexivity|].
      destruct (getitem_position _ _ _ G) as [k [Hk Hn]]. rewrite Hk.
      specialize (IH child).
      destruct (get_walk_address rest child) as [[a|]|e]; cbn [bind under].
      * destruct IH as [x [D W]]. exists x. split; [|exact W].
        simpl. rewrite Hn. exact D.
      * exact IH.
      * exact IH.
    + destruct (contains item c) as [[|]|e]; cbn [bind]; [| |reflexivity]; [|reflexivity].
      destruct (getitem_str c item) as [child|e] eqn:G; cbn [bind]; [|reflexivity].
      destruct (is_none child); [reflexivity|].
      specialize (IH child).
      destruct (get_walk_address rest child) as [[a|]|e]; cbn [bind under];
        [|exact IH|exact IH].
      destruct IH as [x [D W]]. exists x. split; [|exact W].
      destruct c as [| | | |l|d]; simpl in G; try discriminate.
      simpl. destruct (PyDict.get item d); [|discriminate].
      inversion G; subst. exact D.
Qed.

Lemma get_address_get (sep : ascii) (param_name : string) (_content : pyobj) :
  match get_address sep param_name _content with
  | Ok (Some a) =>
      exists x, deref a _content = Some x /\
                forall default_value,
                  get sep param_name default_value _content = Ok x
  | Ok None =>
      forall default_value,
        get sep param_name default_value _content = Ok default_value
  | Raise e =>
      forall default_value, get sep param_name default_value _content = Raise e
  end.
Proof.
  unfold get_address, get.
  destruct (0 <? PyStr.find sep param_name).
  - apply get_walk_address_get_walk.
  - destruct (truthy _content); [|reflexivity].
    destruct (contains param_name _content) as [[|]|e]; cbn [bind];
      [| |reflexivity]; [|reflexivity].
    destruct (getitem_str _content param_name) as [child|e] eqn:G; cbn [bind];
      [|reflexivity].
    exists child. split; [|reflexivity].
    destruct _content as [| | | |l|d]; simpl in G; try discriminate.
    simpl. destruct (PyDict.get param_name d); [|discriminate].
    inversion G; subst. reflexivity.
Qed.

(** Replacing the object a walk ends at by one that is not [None] does
    not change the walk. *)
Lemma get_walk_address_put_at (items : list string) (x' : pyobj) :
  is_none x' = false ->
  forall local_content a,
    get_walk_address items local_content = Ok (Some a) ->
    get_walk_address items (put_at a x' local_content) = Ok (Some a) /\
    deref a (put_at a x' local_content) = Some x'.
Proof.
  intros N. induction items as [|item rest IH]; intros c a.
  - simpl. intros H. inversion H; subst. split; reflexivity.
  - cbn [get_walk_address].
    destruct (_is_int item) as [[|]|e] eqn:I; cbn [bind]; [| |discriminate].
    + destruct c as [| | | |l|d]; try discriminate.
      destruct (PyStr.int item <? len l) eqn:B; [|discriminate].
      destruct (PyList.getitem l (PyStr.int item)) as [child|e] eqn:G;
        cbn [bind]; [|discriminate].
      destruct (is_none child) eqn:NC; [discriminate|].
      destruct (getitem_position _ _ _ G) as [k [Hk Hn]]. rewrite Hk.
      pose proof (get_walk_address_get_walk rest child) as V.
      destruct (get_walk_address rest child) as [[a'|]|e] eqn:W;
        cbn [bind under]; try discriminate.
      intros H. inversion H; subst a. clear H.
      destruct V as [x [D _]].
      destruct (IH child a' W) as [W' D'].
      rewrite (put_at_index _ _ _ _ _ Hn).
      assert (G' : PyList.getitem (PyList.put l k (put_at a' x' child))
                     (PyStr.int item) = Ok (put_at a' x' child)).
      { unfold PyList.getitem. rewrite put_length, Hk.
        rewrite (nth_error_put_same _ _ _ _ Hn). reflexivity. }
      split.
      * unfold len in *. rewrite put_length, B, G'. cbn [bind].
        rewrite (put_at_not_none _ _ _ _ D N), Hk, W'. reflexivity.
      * simpl. rewrite (nth_error_put_same _ _ _ _ Hn). exact D'.
    + destruct (contains item c) as [[|]|e] eqn:C; cbn [bind]; try discriminate.
      destruct (getitem_str c item) as [child|e] eqn:G; cbn [bind]; [|discriminate].
      destruct (is_none child) eqn:NC; [discriminate|].
      pose proof (get_walk_address_get_walk rest child) as V.
      destruct (get_walk_address rest child) as [[a'|]|e] eqn:W;
        cbn [bind under]; try discriminate.
      intros H. inversion H; subst a. clear H.
      destruct V as [x [D _]].
      destruct (IH child a' W) as [W' D'].
      destruct c as [| | | |l|d]; simpl in G; try discriminate.
      destruct (PyDict.get item d) as [child0|] eqn:Gd; [|discriminate].
      inversion G; subst child0. clear G.
      rewrite (put_at_key _ _ _ _ _ Gd).
      split.
      * cbn [bind contains].
        unfold PyDict.mem. rewrite dict_get_set_same. cbn [bind getitem_str].
        rewrite dict_get_set_same. cbn [bind].
        rewrite (put_at_not_none _ _ _ _ D N), W'. reflexivity.
      * simpl. rewrite dict_get_set_same. exact D'.
Qed.

Lemma get_address_put_at (sep : ascii) (param_name : string) (x' : pyobj)
  (_content : pyobj) (a : address) :
  is_none x' = false ->
  get_address sep param_name _content = Ok (Some a) ->
  get_address sep param_name (put_at a x' _content) = Ok (Some a) /\
  deref a (put_at a x' _content) = Some x'.
Proof.
  intros N. unfold get_address.
  destruct (0 <? PyStr.find sep param_name).
  - apply get_walk_address_put_at. exact N.
  - destruct (truthy _content); [|discriminate].
    destruct (contains param_name _content) as [[|]|e]; cbn [bind]; try discriminate.
    destruct (getitem_str _content param_name) as [child|e] eqn:G; cbn [bind];
      [|discriminate].
    intros H. inversion H; subst a. clear H.
    destruct _content as [| | | |l|d]; simpl in G; try discriminate.
    destruct (PyDict.get param_name d) as [child0|] eqn:Gd; [|discriminate].
    rewrite (put_at_key _ _ _ _ _ Gd). rewrite put_at_nil.
    split.
    + pose proof (dict_set_not_nil param_name x' d) as NN.
      cbn [truthy]. destruct (PyDict.set param_name x' d) as [|kv d'] eqn:E;
        [congruence|]. rewrite <- E.
      cbn [contains bind getitem_str]. unfold PyDict.mem.
      rewrite dict_get_set_same. reflexivity.
    + simpl. rewrite dict_get_set_same. reflexivity.
Qed.

(** The same two facts for [get_parent]. *)
Lemma get_parent_address_get_parent (sep : ascii) (param_name : string)
  (_content : pyobj) :
  match get_parent_address sep param_name _content with
  | Ok (Some a) =>
      exists x, deref a _content = Some x /\
                get_parent sep param_name _content = Ok x
  | Ok None => get_parent sep param_name _content = Ok VNone
  | Raise e => get_parent sep param_name _content = Raise e
  end.
Proof.
  unfold get_parent_address, get_parent.
  destruct (0 <? PyStr.find sep param_name).
  - pose proof (get_address_get sep
                  (PyStr.join sep (removelast (PyStr.split sep param_name)))
                  _content) as G.
    destruct (get_address sep _ _content) as [[a|]|e].
    + destruct G as [x [D G]]. exists x. split; [exact D|apply G].
    + apply G.
    + apply G.
  - exists _content. split; reflexivity.
Qed.

Lemma get_parent_address_put_at (sep : ascii) (param_name : string) (x' : pyobj)
  (_content : pyobj) (a : address) :
  is_none x' = false ->
  get_parent_address sep param_name _content = Ok (Some a) ->
  get_parent_address sep param_name (put_at a x' _content) = Ok (Some a) /\
  deref a (put_at a x' _content) = Some x'.
Proof.
  intros N. unfold get_parent_address.
  destruct (0 <? PyStr.find sep param_name).
  - apply get_address_put_at. exact N.
  - intros H. inversion H; subst a. split; reflexivity.
Qed.

(** ** [delete] on an existing key *)

Lemma position_inside (i : Z) (n : nat) :
  - Z.of_nat n <= i < Z.of_nat n ->
  exists k, PyList.position i n = Some k /\ (k < n)%nat.
Proof.
  intros H. unfold PyList.position.
  destruct (0 <=? i) eqn:P.
  - apply Z.leb_le in P.
    destruct (i <? Z.of_nat n) eqn:Q; [|apply Z.ltb_ge in Q; lia].
    exists (Z.to_nat i). split; [reflexivity|lia].
  - apply Z.leb_gt in P.
    destruct (- Z.of_nat n <=? i) eqn:Q; [|apply Z.leb_gt in Q; lia].
    exists (Z.to_nat (Z.of_nat n + i)). split; [reflexivity|lia].
Qed.

Lemma remove_length (l : list pyobj) (k : nat) :
  (k < List.length l)%nat -> S (List.length (PyList.remove l k)) = List.length l.
Proof.
  revert k. induction l as [|x l IH]; intros [|k]; simpl; try lia.
  intros H. rewrite IH by lia. reflexivity.
Qed.

Lemma nth_error_remove (l : list pyobj) :
  forall k j,
    nth_error (PyList.remove l k) j
    = if (j <? k)%nat then nth_error l j else nth_error l (S j).
Proof.
  induction l as [|x l IH]; intros k j.
  - simpl. destruct (j <? k)%nat; destruct j; reflexivity.
  - destruct k as [|k]; [reflexivity|].
    destruct j as [|j]; [reflexivity|].
    simpl PyList.remove. cbn [nth_error]. rewrite IH.
    change (S j <? S k)%nat with (j <? k)%nat. reflexivity.
Qed.

(** A [delete] of an existing key mutates the parent in place: the
    parent of the path is afterwards what [del] made of it. *)
Lemma delete_existing (sep : ascii) (param_name : string) (_content x x' : pyobj) :
  key_exists sep param_name _content = Ok true ->
  get_parent sep param_name _content = Ok x ->
  del_key (_get_focused_key sep param_name) x = (x', Ok true) ->
  is_none x' = false ->
  exists _content',
    delete sep param_name _content = (_content', Ok true) /\
    get_parent sep param_name _content' = Ok x' /\
    (_content' = _content -> x' = x).
Proof.
  intros K P D N.
  pose proof (get_parent_address_get_parent sep param_name _content) as G.
  destruct (get_parent_address sep param_name _content) as [[a|]|e] eqn:A.
  - destruct G as [y [Dy Gy]]. rewrite Gy in P. inversion P; subst y. clear P.
    exists (put_at a x' _content).
    destruct (get_parent_address_put_at sep param_name x' _content a N A) as [A' D'].
    split; [|split].
    + unfold delete. rewrite K, A.
      apply (update_at_deref a _ _content x); assumption.
    + pose proof (get_parent_address_get_parent sep param_name
                    (put_at a x' _content)) as G'.
      rewrite A' in G'. destruct G' as [z [Dz Gz]].
      rewrite D' in Dz. inversion Dz; subst z. exact Gz.
    + intros E. rewrite E in D'. congruence.
  - unfold key_exists in K. rewrite G in K. discriminate.
  - unfold key_exists in K. rewrite G in K. discriminate.
Qed.

(** ** Paths of key segments over nested dicts *)

Lemma string_app_assoc (a b c : string) : ((a ++ b) ++ c = a ++ (b ++ c))%string.
Proof.
  induction a as [|x a IH]; simpl; [reflexivity|]. rewrite IH. reflexivity.
Qed.

Lemma is_int_false_not_empty (k : string) : _is_int k = Ok false -> k <> "".
Proof. intros H E. subst k. discriminate. Qed.

Lemma chain_snoc (keys : list string) (k : string) (leaf : pyobj) :
  chain (keys ++ [k]) leaf = chain keys (VDict [(k, leaf)]).
Proof.
  induction keys as [|k' keys IH]; simpl; [reflexivity|]. rewrite IH. reflexivity.
Qed.

Lemma chain_none (keys : list string) (leaf : pyobj) :
  is_none (chain keys leaf) = true -> keys = [] /\ leaf = VNone.
Proof.
  destruct keys; simpl; [|discriminate].
  destruct leaf; try discriminate. auto.
Qed.

Lemma get_walk_chain (keys : list string) (leaf default_value : pyobj) :
  Forall (fun k => _is_int k = Ok false) keys ->
  (is_none leaf = true -> default_value = VNone) ->
  get_walk keys default_value (chain keys leaf) = Ok leaf.
Proof.
  intros K N. induction keys as [|k keys IH]; [reflexivity|].
  inversion K as [|? ? Hk Hks]; subst.
  cbn [get_walk chain]. rewrite Hk. cbn [bind contains].
  unfold PyDict.mem. cbn [PyDict.get]. rewrite String.eqb_refl.
  cbn [bind getitem_str PyDict.get]. rewrite String.eqb_refl. cbn [bind].
  destruct (is_none (chain keys leaf)) eqn:E.
  - apply chain_none in E as [E1 E2]. subst. rewrite N by reflexivity. reflexivity.
  - apply IH. exact Hks.
Qed.

Section ChainFacts.

Variable sep : ascii.

#[local] Abbreviation prefix := (parent_path_after sep).

Lemma join_snoc (done : list string) (k : string) :
  PyStr.join sep (done ++ [k]) = prefix done ++ k.
Proof.
  induction done as [|k0 done IH]; [reflexivity|].
  change ((k0 :: done) ++ [k])%list with (k0 :: (done ++ [k]))%list.
  rewrite join_cons by (destruct done; simpl; discriminate).
  rewrite IH. unfold parent_path_after. destruct done as [|k1 done].
  - simpl. rewrite string_app_assoc. reflexivity.
  - rewrite (join_cons sep k0 (k1 :: done)) by discriminate.
    rewrite !string_app_assoc. reflexivity.
Qed.

Lemma find_join_single (k : string) :
  PyStr.find sep k = -1 -> (0 <? PyStr.find sep (PyStr.join sep [k])) = false.
Proof. intros H. simpl. rewrite H. reflexivity. Qed.

Lemma find_join_several (k : string) (keys : list string) :
  PyStr.find sep k = -1 -> k <> "" -> keys <> [] ->
  (0 <? PyStr.find sep (PyStr.join sep (k :: keys))) = true.
Proof.
  intros H N K. rewrite join_cons by exact K. rewrite find_app_sep by exact H.
  apply Z.ltb_lt. destruct k; [congruence|]. simpl. lia.
Qed.

Lemma get_chain (keys : list string) (leaf default_value : pyobj) :
  keys <> [] ->
  Forall (fun k => _is_int k = Ok false) keys ->
  Forall (fun k => PyStr.find sep k = -1) keys ->
  (is_none leaf = true -> default_value = VNone) ->
  get sep (PyStr.join sep keys) default_value (chain keys leaf) = Ok leaf.
Proof.
  intros NE K S N. unfold get.
  destruct keys as [|k [|k' keys]]; [congruence| |].
  - inversion S; subst. rewrite find_join_single by assumption.
    cbn [chain truthy PyStr.join contains bind]. unfold PyDict.mem.
    cbn [PyDict.get]. rewrite String.eqb_refl. cbn [getitem_str PyDict.get].
    rewrite String.eqb_refl. reflexivity.
  - inversion S; subst. inversion K; subst.
    rewrite find_join_several;
      [|assumption|apply is_int_false_not_empty; assumption|discriminate].
    rewrite split_join by (discriminate || assumption).
    apply get_walk_chain; assumption.
Qed.

Lemma get_parent_chain (done : list string) (k : string) (leaf : pyobj) :
  Forall (fun k => _is_int k = Ok false) (done ++ [k]) ->
  Forall (fun k => PyStr.find sep k = -1) (done ++ [k]) ->
  is_none leaf = false ->
  get_parent sep (PyStr.join sep (done ++ [k])) (chain done leaf) = Ok leaf.
Proof.
  intros K S N. unfold get_parent.
  destruct done as [|k0 done].
  - cbn [app] in *. inversion S; subst.
    rewrite find_join_single by assumption. reflexivity.
  - change ((k0 :: done) ++ [k])%list with (k0 :: (done ++ [k]))%list in *.
    inversion S; subst. inversion K; subst.
    rewrite find_join_several;
      [|assumption|apply is_int_false_not_empty; assumption
       |destruct done; simpl; discriminate].
    rewrite split_join by (discriminate || assumption).
    change (k0 :: (done ++ [k]))%list with ((k0 :: done) ++ [k])%list in *.
    rewrite removelast_last.
    apply Forall_app in K as [K1 _]. apply Forall_app in S as [S1 _].
    apply get_chain; try assumption; [discriminate|].
    rewrite N. discriminate.
Qed.

Lemma focused_key_join (done : list string) (k : string) :
  Forall (fun k => _is_int k = Ok false) (done ++ [k]) ->
  Forall (fun k => PyStr.find sep k = -1) (done ++ [k]) ->
  _get_focused_key sep (PyStr.join sep (done ++ [k])) = k.
Proof.
  intros K S. unfold _get_focused_key.
  destruct done as [|k0 done].
  - cbn [app] in *. inversion S; subst.
    rewrite find_join_single by assumption. reflexivity.
  - change ((k0 :: done) ++ [k])%list with (k0 :: (done ++ [k]))%list in *.
    inversion S; subst. inversion K; subst.
    rewrite find_join_several;
      [|assumption|apply is_int_false_not_empty; assumption
       |destruct done; simpl; discriminate].
    rewrite split_join by (discriminate || assumption).
    change (k0 :: (done ++ [k]))%list with ((k0 :: done) ++ [k])%list.
    apply last_last.
Qed.

Lemma recursive_set_chain (keys : list string) (k : string) (value : pyobj)
  (d : PyDict.t) :
  Forall (fun k => _is_int k = Ok false) (keys ++ [k]) ->
  Forall (fun k => PyStr.find sep k = -1) (keys ++ [k]) ->
  recursive_set sep (PyStr.join sep (keys ++ [k])) value (chain keys (VDict d))
  = (chain keys (VDict (PyDict.set k value d)), Ok tt).
Proof.
  induction keys as [|k0 keys IH]; intros K S.
  - cbn [app] in *. inversion K; subst. inversion S; subst.
    apply recursive_set_last_key; [simpl; lia|assumption].
  - change ((k0 :: keys) ++ [k])%list with (k0 :: (keys ++ [k]))%list in *.
    inversion S as [|? ? S0 S1]; subst. inversion K as [|? ? K0 K1]; subst.
    assert (F : (0 <? PyStr.find sep (PyStr.join sep (k0 :: (keys ++ [k])))) = true).
    { apply find_join_several;
        [assumption|apply is_int_false_not_empty; assumption
        |destruct keys; simpl; discriminate]. }
    apply Z.ltb_lt in F.
    cbn [chain].
    rewrite (recursive_set_descend_key sep _ _ (chain keys (VDict d)));
      rewrite ?split_join by (discriminate || assumption); cbn [hd tl];
      [|exact F|exact K0|simpl; rewrite String.eqb_refl; reflexivity].
    rewrite IH by assumption. simpl. rewrite String.eqb_refl. reflexivity.
Qed.

Lemma initialise_loop_chain (rest : list string) :
  forall done,
    Forall (fun k => _is_int k = Ok false) (done ++ rest) ->
    Forall (fun k => PyStr.find sep k = -1) (done ++ rest) ->
    initialise_loop sep rest (prefix done) (chain done (VDict []))
    = (chain (done ++ rest) (VDict []), Ok tt).
Proof.
  induction rest as [|piece rest IH]; intros done K S.
  - rewrite app_nil_r. reflexivity.
  - assert (K1 : Forall (fun k => _is_int k = Ok false) (done ++ [piece])).
    { apply Forall_app in K as [Ka Kb]. inversion Kb; subst.
      apply Forall_app. split; [assumption|]. constructor; [assumption|constructor]. }
    assert (S1 : Forall (fun k => PyStr.find sep k = -1) (done ++ [piece])).
    { apply Forall_app in S as [Sa Sb]. inversion Sb; subst.
      apply Forall_app. split; [assumption|]. constructor; [assumption|constructor]. }
    assert (I : _is_int piece = Ok false).
    { apply Forall_app in K1 as [_ Kb]. inversion Kb; assumption. }
    cbn [initialise_loop]. rewrite <- join_snoc.
    assert (P : get_parent sep (PyStr.join sep (done ++ [piece]))
                  (chain done (VDict [])) = Ok (VDict []))
      by (apply get_parent_chain; auto).
    assert (E : key_exists sep (PyStr.join sep (done ++ [piece]))
                  (chain done (VDict [])) = Ok false).
    { unfold key_exists. rewrite P. reflexivity. }
    rewrite E, P, I. cbn [bind negb].
    unfold set. rewrite recursive_set_chain by assumption.
    cbn [PyDict.set]. rewrite <- chain_snoc.
    replace (PyStr.join sep (done ++ [piece]) ++ String sep "")
      with (prefix (done ++ [piece])).
    + rewrite IH; rewrite <- app_assoc; [reflexivity|exact K|exact S].
    + unfold parent_path_after. destruct (done ++ [piece])%list eqn:Q; [|reflexivity].
      destruct done; simpl; discriminate.
Qed.

End ChainFacts.

(** * The claims *)

(** ** Reads that raise *)

(** C1.  The read operations do not return normally on every path.  Over
    the content [{"a": 5}], [get("a.b", default)] reaches the int [5] with
    the key segment ["b"] and the test ["b" in 5] raises [TypeError], for
    every default; [key_exists], [get_parent] and [get_keys_in] raise the
    same way on paths that go through [get].  Over [{"a": {}}] the empty
    segment of ["a..b"] raises [IndexError] in [_is_int], and over
    [{"a": []}] the index [-1] raises [IndexError]. *)
Theorem read_operations_raise :
  (forall default_value,
      get PATH_SEPARATOR_CHAR "a.b" default_value (VDict [("a", VInt 5)])
      = Raise TypeError) /\
  key_exists PATH_SEPARATOR_CHAR "a.b.c" (VDict [("a", VInt 5)]) = Raise TypeError /\
  get_parent PATH_SEPARATOR_CHAR "a.b.c" (VDict [("a", VInt 5)]) = Raise TypeError /\
  get_keys_in PATH_SEPARATOR_CHAR (Some "a.b") (VDict [("a", VInt 5)])
  = Raise TypeError /\
  (forall default_value,
      get PATH_SEPARATOR_CHAR "a..b" default_value (VDict [("a", VDict [])])
      = Raise IndexError) /\
  (forall default_value,
      get PATH_SEPARATOR_CHAR "a.-1" default_value (VDict [("a", VList [])])
      = Raise IndexError).
Proof.
  repeat split; intros; reflexivity.
Qed.

(** ** Writes that are lost *)

(** C2.  A [set] that completes is not always read back.  Over
    [{"a": None}], [set("a.b", 1)] completes and changes nothing, and
    [get("a.b")] then returns [None], not [1].  Over [{"a": {}}],
    [set("a..b", 1)] completes, storing the key [".b"], and [get("a..b")]
    then raises [IndexError]. *)
Theorem set_then_get_differs :
  set PATH_SEPARATOR_CHAR (Some "a.b") (VInt 1) (VDict [("a", VNone)])
  = (VDict [("a", VNone)], Ok tt) /\
  get PATH_SEPARATOR_CHAR "a.b" VNone (VDict [("a", VNone)]) = Ok VNone /\
  set PATH_SEPARATOR_CHAR (Some "a..b") (VInt 1) (VDict [("a", VDict [])])
  = (VDict [("a", VDict [(".b", VInt 1)])], Ok tt) /\
  get PATH_SEPARATOR_CHAR "a..b" VNone (VDict [("a", VDict [(".b", VInt 1)])])
  = Raise IndexError.
Proof.
  repeat split; reflexivity.
Qed.

(** C3.  A final key segment over a node that is neither a dict nor a
    list does not replace the node by [{segment: value}].  Over [None]
    the call completes and the node stays [None], at the root and below
    it; over a str or an int it raises [TypeError] and the node stays.  Before the last segment, a key segment over such a node
    raises [RuntimeError]. *)
Theorem set_key_over_non_container :
  forall value,
    set PATH_SEPARATOR_CHAR (Some "a") value VNone = (VNone, Ok tt) /\
    set PATH_SEPARATOR_CHAR (Some "a.b") value (VDict [("a", VNone)])
    = (VDict [("a", VNone)], Ok tt) /\
    set PATH_SEPARATOR_CHAR (Some "a.b") value (VDict [("a", VStr "s")])
    = (VDict [("a", VStr "s")], Raise TypeError) /\
    set PATH_SEPARATOR_CHAR (Some "a.b") value (VDict [("a", VInt 5)])
    = (VDict [("a", VInt 5)], Raise TypeError) /\
    set PATH_SEPARATOR_CHAR (Some "a.b.c") value (VDict [("a", VInt 5)])
    = (VDict [("a", VInt 5)], Raise RuntimeError) /\
    set PATH_SEPARATOR_CHAR (Some "a.b.c") value (VDict [("a", VNone)])
    = (VDict [("a", VNone)], Raise RuntimeError).
Proof.
  intros value. repeat split; reflexivity.
Qed.

(** ** Failed writes *)

(** C4, the counterexample.  Over the empty content,
    [initialise_recursive("a.0")] creates [{"a": {}}] for the first
    segment and then raises [RuntimeError] at the index segment: the
    content after the failed call is not the content before it. *)
Lemma initialise_recursive_failure_leaves_mutation :
  initialise_recursive PATH_SEPARATOR_CHAR "a.0" (VDict [])
  = (VDict [("a", VDict [])], Raise RuntimeError) /\
  VDict [("a", VDict [])] <> VDict [].
Proof.
  split; [reflexivity|discriminate].
Qed.

(** C4, as amended.  A [set] that raises leaves the content exactly as
    it was.  An [initialise_recursive] that raises leaves the content as
    the rounds before the failing segment made it: the loop over those
    segments alone completes with that very content, the empty dicts it
    created included, and the failing round changes nothing. *)
Theorem failed_write_leaves_content :
  forall _separator param_name _content _content' e,
    (forall value,
        set _separator param_name value _content = (_content', Raise e) ->
        _content' = _content) /\
    (forall path,
        initialise_recursive _separator path _content = (_content', Raise e) ->
        exists done rest,
          PyStr.split _separator path = (done ++ rest)%list /\ rest <> [] /\
          initialise_loop _separator done "" _content = (_content', Ok tt)).
Proof.
  intros sep p c c' e. split.
  - intros v. destruct p as [p|]; simpl.
    + apply recursive_set_fuel_raise.
    + intros H. inversion H. reflexivity.
  - intros path. apply initialise_loop_raise.
Qed.

Lemma failed_write_leaves_content_witness :
  set PATH_SEPARATOR_CHAR (Some "a.b") (VInt 1) (VDict [("a", VInt 5)])
  = (VDict [("a", VInt 5)], Raise TypeError) /\
  VDict [("a", VInt 5)] = VDict [("a", VInt 5)] /\
  initialise_recursive PATH_SEPARATOR_CHAR "a.0" (VDict [])
  = (VDict [("a", VDict [])], Raise RuntimeError) /\
  exists done rest,
    PyStr.split PATH_SEPARATOR_CHAR "a.0" = (done ++ rest)%list /\ rest <> [] /\
    initialise_loop PATH_SEPARATOR_CHAR done "" (VDict [])
    = (VDict [("a", VDict [])], Ok tt).
Proof.
  split; [reflexivity|]. split; [|split; [reflexivity|]].
  - apply (proj1 (failed_write_leaves_content PATH_SEPARATOR_CHAR (Some "a.b")
                    (VDict [("a", VInt 5)]) (VDict [("a", VInt 5)]) TypeError)
             (VInt 1)).
    reflexivity.
  - apply (proj2 (failed_write_leaves_content PATH_SEPARATOR_CHAR None
                    (VDict []) (VDict [("a", VDict [])]) RuntimeError) "a.0").
    reflexivity.
Defined.

(** ** [delete] twice *)

(** C5, the counterexample.  [delete("a.0")] over [{"a": [1, 2]}] returns
    [True] and leaves [{"a": [2]}]; the second call returns [True] again
    and leaves [{"a": []}].  Over the empty content, [delete("a")]
    returns [False] at the first call. *)
Lemma delete_twice_on_list_index :
  delete PATH_SEPARATOR_CHAR "a.0" (VDict [("a", VList [VInt 1; VInt 2])])
  = (VDict [("a", VList [VInt 2])], Ok true) /\
  delete PATH_SEPARATOR_CHAR "a.0" (VDict [("a", VList [VInt 2])])
  = (VDict [("a", VList [])], Ok true) /\
  delete PATH_SEPARATOR_CHAR "a" (VDict []) = (VDict [], Ok false).
Proof.
  repeat split; reflexivity.
Qed.

(** C5, as amended.  When the parent of the path is a dict that has the
    last segment as a key, [delete] returns [True] and leaves the parent
    as that dict without the key; a second [delete] of the same path
    returns [False] and leaves the content as the first call left it.
    When the parent is a list and the last segment an index of it, from
    [-len] to [len - 1], [delete] returns [True] and leaves the parent as
    that list without the element at the index, each later element moved
    down by one; the second [delete] returns [False] and changes nothing
    when the index is not one of the shorter list, and otherwise returns
    [True] again and removes from the shorter list the element that is
    then at the index.  When [key_exists] is [False], the first [delete]
    already returns [False] and changes nothing, and when [key_exists]
    raises, [delete] raises the same and changes nothing. *)
Theorem delete_twice :
  forall _separator param_name _content,
    let key_to_delete := _get_focused_key _separator param_name in
    (forall d : PyDict.t,
        get_parent _separator param_name _content = Ok (VDict d) ->
        PyDict.mem key_to_delete d = true ->
        exists _content',
          delete _separator param_name _content = (_content', Ok true) /\
          get_parent _separator param_name _content'
          = Ok (VDict (PyDict.del key_to_delete d)) /\
          delete _separator param_name _content' = (_content', Ok false)) /\
    (forall l : list pyobj,
        get_parent _separator param_name _content = Ok (VList l) ->
        _is_int key_to_delete = Ok true ->
        - len l <= PyStr.int key_to_delete < len l ->
        exists _content' k l',
          delete _separator param_name _content = (_content', Ok true) /\
          PyList.position (PyStr.int key_to_delete) (List.length l) = Some k /\
          get_parent _separator param_name _content' = Ok (VList l') /\
          List.length l = S (List.length l') /\
          (forall j, nth_error l' j
                     = if (j <? k)%nat then nth_error l j else nth_error l (S j)) /\
          if (- (len l - 1) <=? PyStr.int key_to_delete)
             && (PyStr.int key_to_delete <? len l - 1)
          then exists _content'' k' l'',
                 delete _separator param_name _content' = (_content'', Ok true) /\
                 PyList.position (PyStr.int key_to_delete) (List.length l') = Some k' /\
                 get_parent _separator param_name _content'' = Ok (VList l'') /\
                 List.length l' = S (List.length l'') /\
                 (forall j, nth_error l'' j
                            = if (j <? k')%nat then nth_error l' j
                              else nth_error l' (S j)) /\
                 _content'' <> _content'
          else delete _separator param_name _content' = (_content', Ok false)) /\
    (key_exists _separator param_name _content = Ok false ->
     delete _separator param_name _content = (_content, Ok false)) /\
    (forall e,
        key_exists _separator param_name _content = Raise e ->
        delete _separator param_name _content = (_content, Raise e)).
Proof.
  intros sep p c key. split; [|split; [|split]].
  - intros d P M.
    assert (K : key_exists sep p c = Ok true).
    { unfold key_exists. fold key. rewrite P. simpl. rewrite M. reflexivity. }
    destruct (delete_existing sep p c (VDict d) (VDict (PyDict.del key d)) K P)
      as [c1 [D1 [P1 _]]]; [fold key; simpl; rewrite M; reflexivity|reflexivity|].
    exists c1. split; [exact D1|]. split; [exact P1|].
    unfold delete, key_exists. fold key. rewrite P1. simpl.
    rewrite dict_mem_del. reflexivity.
  - intros l P I B.
    assert (KE : forall c0 l0,
               get_parent sep p c0 = Ok (VList l0) ->
               key_exists sep p c0
               = Ok ((- len l0 <=? PyStr.int key) && (PyStr.int key <? len l0))).
    { intros c0 l0 P0. unfold key_exists. fold key. rewrite P0. simpl.
      rewrite I. simpl. rewrite is_out_of_range_bounds.
      destruct ((- len l0 <=? PyStr.int key) && (PyStr.int key <? len l0));
        reflexivity. }
    assert (DE : forall c0 l0,
               get_parent sep p c0 = Ok (VList l0) ->
               - len l0 <= PyStr.int key < len l0 ->
               exists c1 k,
                 delete sep p c0 = (c1, Ok true) /\
                 PyList.position (PyStr.int key) (List.length l0) = Some k /\
                 get_parent sep p c1 = Ok (VList (PyList.remove l0 k)) /\
                 List.length l0 = S (List.length (PyList.remove l0 k))).
    { intros c0 l0 P0 B0.
      destruct (position_inside (PyStr.int key) (List.length l0) B0) as [k [Hk Lk]].
      assert (K : key_exists sep p c0 = Ok true).
      { rewrite (KE c0 l0 P0).
        destruct (- len l0 <=? PyStr.int key) eqn:X; [|apply Z.leb_gt in X; lia].
        destruct (PyStr.int key <? len l0) eqn:Y; [|apply Z.ltb_ge in Y; lia].
        reflexivity. }
      destruct (delete_existing sep p c0 (VList l0) (VList (PyList.remove l0 k)) K P0)
        as [c1 [D1 [P1 _]]].
      - fold key. simpl. rewrite I. unfold PyList.delitem. rewrite Hk. reflexivity.
      - reflexivity.
      - exists c1, k. repeat split; try assumption.
        symmetry. apply remove_length. exact Lk. }
    destruct (DE c l P B) as [c1 [k [D1 [Hk [P1 L1]]]]].
    exists c1, k, (PyList.remove l k).
    split; [exact D1|]. split; [exact Hk|]. split; [exact P1|]. split; [exact L1|].
    split; [intros j; apply nth_error_remove|].
    assert (Len : len (PyList.remove l k) = len l - 1) by (unfold len; lia).
    rewrite <- Len.
    destruct ((- len (PyList.remove l k) <=? PyStr.int key)
              && (PyStr.int key <? len (PyList.remove l k))) eqn:In.
    + apply andb_true_iff in In as [X Y].
      apply Z.leb_le in X. apply Z.ltb_lt in Y.
      destruct (DE c1 (PyList.remove l k) P1 (conj X Y)) as [c2 [k' [D2 [Hk' [P2 L2]]]]].
      exists c2, k', (PyList.remove (PyList.remove l k) k').
      split; [exact D2|]. split; [exact Hk'|]. split; [exact P2|]. split; [exact L2|].
      split; [intros j; apply nth_error_remove|].
      intros E. rewrite E, P1 in P2. inversion P2 as [Q].
      rewrite <- Q in L2. lia.
    + unfold delete. rewrite (KE c1 _ P1), In. reflexivity.
  - intros K. unfold delete. rewrite K. reflexivity.
  - intros e K. unfold delete. rewrite K. reflexivity.
Qed.

Lemma delete_twice_witness :
  (get_parent PATH_SEPARATOR_CHAR "a.b"
     (VDict [("a", VDict [("b", VInt 1); ("c", VInt 2)])])
   = Ok (VDict [("b", VInt 1); ("c", VInt 2)]) /\
   exists _content',
     delete PATH_SEPARATOR_CHAR "a.b"
       (VDict [("a", VDict [("b", VInt 1); ("c", VInt 2)])])
     = (_content', Ok true) /\
     get_parent PATH_SEPARATOR_CHAR "a.b" _content' = Ok (VDict [("c", VInt 2)]) /\
     delete PATH_SEPARATOR_CHAR "a.b" _content' = (_content', Ok false)) /\
  (get_parent PATH_SEPARATOR_CHAR "a.1" (VDict [("a", VList [VInt 1; VInt 2])])
   = Ok (VList [VInt 1; VInt 2]) /\
   exists _content' k l',
     delete PATH_SEPARATOR_CHAR "a.1" (VDict [("a", VList [VInt 1; VInt 2])])
     = (_content', Ok true) /\
     PyList.position 1 2 = Some k /\
     get_parent PATH_SEPARATOR_CHAR "a.1" _content' = Ok (VList l') /\
     2%nat = S (List.length l') /\
     (forall j, nth_error l' j
                = if (j <? k)%nat then nth_error [VInt 1; VInt 2] j
                  else nth_error [VInt 1; VInt 2] (S j)) /\
     delete PATH_SEPARATOR_CHAR "a.1" _content' = (_content', Ok false)) /\
  (key_exists PATH_SEPARATOR_CHAR "a.b" (VDict [("a", VNone)]) = Ok false /\
   delete PATH_SEPARATOR_CHAR "a.b" (VDict [("a", VNone)])
   = (VDict [("a", VNone)], Ok false)) /\
  (key_exists PATH_SEPARATOR_CHAR "a.b.c" (VDict [("a", VInt 5)]) = Raise TypeError /\
   delete PATH_SEPARATOR_CHAR "a.b.c" (VDict [("a", VInt 5)])
   = (VDict [("a", VInt 5)], Raise TypeError)).
Proof.
  split; [|split; [|split]]; (split; [reflexivity|]).
  - apply (proj1 (delete_twice PATH_SEPARATOR_CHAR "a.b"
                    (VDict [("a", VDict [("b", VInt 1); ("c", VInt 2)])]))
             [("b", VInt 1); ("c", VInt 2)]); reflexivity.
  - apply (proj1 (proj2 (delete_twice PATH_SEPARATOR_CHAR "a.1"
                           (VDict [("a", VList [VInt 1; VInt 2])])))
             [VInt 1; VInt 2]); [reflexivity|reflexivity|].
    unfold len. simpl. lia.
  - apply (proj1 (proj2 (proj2 (delete_twice PATH_SEPARATOR_CHAR "a.b"
                                  (VDict [("a", VNone)]))))).
    reflexivity.
  - apply (proj2 (proj2 (proj2 (delete_twice PATH_SEPARATOR_CHAR "a.b.c"
                                  (VDict [("a", VInt 5)])))) TypeError).
    reflexivity.
Defined.

(** ** Writing beyond the end of a list *)

(** C6.  Over a root dict whose key ["a"] holds the empty list,
    [set("a.3", "x")] completes; afterwards [get_keys_in("a")] is
    [[0, 1, 2, 3]], [get] returns the default for ["a.0"], ["a.1"] and
    ["a.2"], which hold [None], and [get("a.3")] returns ["x"].  In
    general, a last segment that is an index at or beyond the length of
    the list appends as many [None] as the index exceeds the length, and
    then the value: the list grows to the index plus one. *)
Theorem set_index_beyond_length_extends :
  (forall d : PyDict.t,
      PyDict.get "a" d = Some (VList []) ->
      let _content' :=
        VDict (PyDict.set "a" (VList [VNone; VNone; VNone; VStr "x"]) d) in
      set PATH_SEPARATOR_CHAR (Some "a.3") (VStr "x") (VDict d) = (_content', Ok tt) /\
      get_keys_in PATH_SEPARATOR_CHAR (Some "a") _content'
      = Ok (VList [VInt 0; VInt 1; VInt 2; VInt 3]) /\
      (forall default_value,
          get PATH_SEPARATOR_CHAR "a.0" default_value _content' = Ok default_value /\
          get PATH_SEPARATOR_CHAR "a.1" default_value _content' = Ok default_value /\
          get PATH_SEPARATOR_CHAR "a.2" default_value _content' = Ok default_value /\
          get PATH_SEPARATOR_CHAR "a.3" default_value _content' = Ok (VStr "x"))) /\
  (forall _separator param_name value (l : list pyobj),
      PyStr.find _separator param_name <= 0 ->
      _is_int param_name = Ok true ->
      len l <= PyStr.int param_name ->
      recursive_set _separator param_name value (VList l)
      = (VList (l ++ repeat VNone (Z.to_nat (PyStr.int param_name - len l)) ++ [value])%list,
         Ok tt)).
Proof.
  split.
  - intros d H c'. subst c'.
    assert (G : forall v, PyDict.get "a" (PyDict.set "a" v d) = Some v)
      by (intros; apply dict_get_set_same).
    assert (T : truthy (VDict (PyDict.set "a" (VList [VNone; VNone; VNone; VStr "x"]) d))
                = true).
    { simpl. pose proof (dict_set_not_nil "a" (VList [VNone; VNone; VNone; VStr "x"]) d).
      destruct (PyDict.set "a" _ d); congruence. }
    split; [|split].
    + unfold set.
      rewrite (recursive_set_descend_key _ _ _ (VList []));
        [reflexivity|reflexivity|reflexivity|exact H].
    + unfold get_keys_in, get. simpl PyStr.find. cbv iota. rewrite T.
      unfold contains, PyDict.mem, getitem_str. rewrite G. reflexivity.
    + intros dflt.
      repeat split; unfold get; simpl; unfold PyDict.mem; rewrite G; reflexivity.
  - intros. apply recursive_set_last_index_beyond; assumption.
Qed.

Lemma set_index_beyond_length_extends_witness :
  PyDict.get "a" [("z", VInt 0); ("a", VList [])] = Some (VList []) /\
  (let _content' :=
     VDict [("z", VInt 0); ("a", VList [VNone; VNone; VNone; VStr "x"])] in
   set PATH_SEPARATOR_CHAR (Some "a.3") (VStr "x")
     (VDict [("z", VInt 0); ("a", VList [])]) = (_content', Ok tt) /\
   get_keys_in PATH_SEPARATOR_CHAR (Some "a") _content'
   = Ok (VList [VInt 0; VInt 1; VInt 2; VInt 3]) /\
   (forall default_value,
       get PATH_SEPARATOR_CHAR "a.0" default_value _content' = Ok default_value /\
       get PATH_SEPARATOR_CHAR "a.1" default_value _content' = Ok default_value /\
       get PATH_SEPARATOR_CHAR "a.2" default_value _content' = Ok default_value /\
       get PATH_SEPARATOR_CHAR "a.3" default_value _content' = Ok (VStr "x"))) /\
  recursive_set PATH_SEPARATOR_CHAR "5" (VStr "x") (VList [VInt 1; VInt 2])
  = (VList [VInt 1; VInt 2; VNone; VNone; VNone; VStr "x"], Ok tt).
Proof.
  split; [reflexivity|]. split.
  - apply (proj1 set_index_beyond_length_extends [("z", VInt 0); ("a", VList [])]).
    reflexivity.
  - apply (proj2 set_index_beyond_length_extends PATH_SEPARATOR_CHAR "5" (VStr "x")
             [VInt 1; VInt 2]).
    + simpl. lia.
    + reflexivity.
    + unfold len. simpl. lia.
Defined.

(** ** [initialise_recursive], then [set], then [get] *)

(** C7, the counterexample.  Over the empty content, where no path is
    present, [initialise_recursive("a.0")] does not succeed: it raises
    [RuntimeError] at the index segment ["0"], whose parent is the dict
    created for ["a"]. *)
Lemma initialise_recursive_rejects_index_segment :
  key_exists PATH_SEPARATOR_CHAR "a.0" (VDict []) = Ok false /\
  snd (initialise_recursive PATH_SEPARATOR_CHAR "a.0" (VDict []))
  = Raise RuntimeError.
Proof.
  split; reflexivity.
Qed.

(** C7, as amended.  Over the empty content, for a path whose segments
    are all non-empty key segments (none is an index segment),
    [initialise_recursive(p)] completes and builds the dicts nested along
    the segments, [set(p, v)] then completes, and [get(p)] then returns
    [v]. *)
Theorem initialise_then_set_then_get :
  forall _separator param_name value,
    Forall (fun k => _is_int k = Ok false) (PyStr.split _separator param_name) ->
    let keys := PyStr.split _separator param_name in
    initialise_recursive _separator param_name (VDict [])
    = (chain keys (VDict []), Ok tt) /\
    set _separator (Some param_name) value (chain keys (VDict []))
    = (chain keys value, Ok tt) /\
    get _separator param_name VNone (chain keys value) = Ok value.
Proof.
  intros sep p v K keys.
  pose proof (split_pieces_no_sep sep p) as S. fold keys in S, K.
  pose proof (split_not_nil sep p) as NE. fold keys in NE.
  pose proof (join_split sep p) as J. fold keys in J.
  split; [|split].
  - unfold initialise_recursive. fold keys.
    apply (initialise_loop_chain sep keys []); assumption.
  - unfold set. rewrite <- J.
    destruct (exists_last NE) as [init [k E]]. rewrite E in *.
    rewrite chain_snoc.
    rewrite recursive_set_chain by assumption.
    simpl PyDict.set. rewrite String.eqb_refl. rewrite chain_snoc. reflexivity.
  - rewrite <- J. apply get_chain; try assumption.
    destruct v; try discriminate. reflexivity.
Qed.

Lemma initialise_then_set_then_get_witness :
  Forall (fun k => _is_int k = Ok false) (PyStr.split PATH_SEPARATOR_CHAR "a.b") /\
  initialise_recursive PATH_SEPARATOR_CHAR "a.b" (VDict [])
  = (VDict [("a", VDict [("b", VDict [])])], Ok tt) /\
  set PATH_SEPARATOR_CHAR (Some "a.b") (VInt 1) (VDict [("a", VDict [("b", VDict [])])])
  = (VDict [("a", VDict [("b", VInt 1)])], Ok tt) /\
  get PATH_SEPARATOR_CHAR "a.b" VNone (VDict [("a", VDict [("b", VInt 1)])])
  = Ok (VInt 1).
Proof.
  assert (K : Forall (fun k => _is_int k = Ok false)
                (PyStr.split PATH_SEPARATOR_CHAR "a.b"))
    by (repeat constructor).
  split; [exact K|].
  exact (initialise_then_set_then_get PATH_SEPARATOR_CHAR "a.b" (VInt 1) K).
Defined.

(** ** [key_exists] *)

(** C8.  [key_exists] is not [False] on every path whose parent path
    does not resolve to an object: it raises what the walk of [get] along
    the parent path raises.  Over a root dict where the key segment [a]
    holds an int or a bool, [key_exists] of [a], a key segment [b] and any
    last segment raises [TypeError], from the test [b in 5].  Where [a]
    holds anything but [None], an empty segment after [a] raises
    [IndexError], from [element[0]] in [_is_int].  Where [a] holds a
    list, the path [a] followed by the separator alone, whose last
    segment is empty, raises [IndexError] as well. *)
Theorem key_exists_raises_on_unresolved_parent :
  forall _separator (d : PyDict.t) a,
    PyStr.find _separator a = -1 ->
    _is_int a = Ok false ->
    (forall b c x,
        PyStr.find _separator b = -1 ->
        PyStr.find _separator c = -1 ->
        _is_int b = Ok false ->
        PyDict.get a d = Some x ->
        (exists z, x = VInt z) \/ (exists t, x = VBool t) ->
        key_exists _separator (a ++ String _separator (b ++ String _separator c))
          (VDict d)
        = Raise TypeError) /\
    (forall c x,
        PyStr.find _separator c = -1 ->
        PyDict.get a d = Some x ->
        is_none x = false ->
        key_exists _separator (a ++ String _separator (String _separator c)) (VDict d)
        = Raise IndexError) /\
    (forall l,
        PyDict.get a d = Some (VList l) ->
        key_exists _separator (a ++ String _separator "") (VDict d)
        = Raise IndexError).
Proof.
  intros sep d a Fa Ia.
  assert (Na : a <> "") by (apply is_int_false_not_empty; exact Ia).
  assert (La : forall r, (0 <? PyStr.find sep (a ++ String sep r)) = true).
  { intros r. rewrite find_app_sep by exact Fa. apply Z.ltb_lt.
    destruct a; [congruence|simpl; lia]. }
  assert (W : forall x rest,
             PyDict.get a d = Some x -> is_none x = false ->
             get_walk (a :: rest) VNone (VDict d) = get_walk rest VNone x).
  { intros x rest G N. cbn [get_walk]. rewrite Ia. cbn [bind contains].
    unfold PyDict.mem. rewrite G. cbn [getitem_str]. rewrite G. cbn [bind].
    rewrite N. reflexivity. }
  split; [|split].
  - intros b c x Fb Fc Ib G S.
    assert (Sp : PyStr.split sep (a ++ String sep (b ++ String sep c)) = [a; b; c]).
    { rewrite split_app_sep by exact Fa. rewrite split_app_sep by exact Fb.
      rewrite split_no_sep by exact Fc. reflexivity. }
    unfold key_exists, get_parent. rewrite La, Sp. cbv zeta.
    change (PyStr.join sep (removelast [a; b; c])) with (a ++ String sep b)%string.
    unfold get. rewrite La. rewrite split_app_sep by exact Fa.
    rewrite split_no_sep by exact Fb.
    rewrite (W x [b] G) by (destruct S as [[z E]|[t E]]; subst x; reflexivity).
    cbn [get_walk]. rewrite Ib. cbn [bind].
    destruct S as [[z E]|[t E]]; subst x; reflexivity.
  - intros c x Fc G N.
    assert (Sp : PyStr.split sep (a ++ String sep (String sep c)) = [a; ""; c]).
    { rewrite split_app_sep by exact Fa.
      change (String sep c) with ("" ++ String sep c)%string.
      rewrite split_app_sep by reflexivity.
      rewrite split_no_sep by exact Fc. reflexivity. }
    unfold key_exists, get_parent. rewrite La, Sp. cbv zeta.
    change (PyStr.join sep (removelast [a; ""; c])) with (a ++ String sep "")%string.
    unfold get. rewrite La. rewrite split_app_sep by exact Fa.
    change (PyStr.split sep "") with [""].
    rewrite (W x [""] G N). reflexivity.
  - intros l G.
    assert (Sp : PyStr.split sep (a ++ String sep "") = [a; ""]).
    { rewrite split_app_sep by exact Fa. reflexivity. }
    unfold key_exists, get_parent, _get_focused_key. rewrite La, Sp. cbv zeta.
    change (PyStr.join sep (removelast [a; ""])) with a.
    change (last [a; ""] "") with "".
    unfold get.
    assert (Z0 : (0 <? PyStr.find sep a) = false) by (rewrite Fa; reflexivity).
    rewrite Z0.
    assert (T : truthy (VDict d) = true).
    { destruct d; [discriminate|reflexivity]. }
    rewrite T. cbn [contains bind]. unfold PyDict.mem. rewrite G.
    cbn [getitem_str]. rewrite G. reflexivity.
Qed.

Lemma key_exists_raises_on_unresolved_parent_witness :
  key_exists PATH_SEPARATOR_CHAR "a.b.c" (VDict [("a", VInt 5)]) = Raise TypeError /\
  key_exists PATH_SEPARATOR_CHAR "a..c" (VDict [("a", VDict [])]) = Raise IndexError /\
  key_exists PATH_SEPARATOR_CHAR "a." (VDict [("a", VList [])]) = Raise IndexError.
Proof.
  split; [|split].
  - apply (proj1 (key_exists_raises_on_unresolved_parent PATH_SEPARATOR_CHAR
                    [("a", VInt 5)] "a" eq_refl eq_refl) "b" "c" (VInt 5));
      try reflexivity.
    left. exists 5. reflexivity.
  - apply (proj1 (proj2 (key_exists_raises_on_unresolved_parent PATH_SEPARATOR_CHAR
                           [("a", VDict [])] "a" eq_refl eq_refl)) "c" (VDict []));
      reflexivity.
  - apply (proj2 (proj2 (key_exists_raises_on_unresolved_parent PATH_SEPARATOR_CHAR
                           [("a", VList [])] "a" eq_refl eq_refl)) []).
    reflexivity.
Defined.

(** ** The empty path *)

(** C9.  [set] raises its own [RuntimeError] only for the path [None].
    For the empty string it raises [IndexError], from [element[0]] in
    [_is_int], whatever the separator, the value and the content, and it
    leaves the content as it was. *)
Theorem set_empty_path_raises_IndexError :
  forall _separator value _content,
    set _separator (Some "") value _content = (_content, Raise IndexError) /\
    set _separator None value _content = (_content, Raise RuntimeError).
Proof.
  intros. split; reflexivity.
Qed.

(** ** A separator at the start of the path *)

(** C10, the counterexample.  With the separator ["-"], the path ["-5"]
    has its only separator at index 0, and [set] does not store the key
    ["-5"] in the root dict: the whole string is an index segment, and
    the call raises [ValueError] over a dict. *)
Lemma leading_separator_set_as_index :
  PyStr.find "-" "-5" = 0 /\
  PyStr.find "-" "5" = -1 /\
  set "-" (Some "-5") (VInt 1) (VDict []) = (VDict [], Raise ValueError) /\
  set "-" (Some "-5") (VInt 1) (VDict [])
  <> (VDict (PyDict.set "-5" (VInt 1) []), Ok tt).
Proof.
  repeat split; discriminate.
Qed.

(** C10, as amended.  When the first separator of the path stands at
    index 0, no operation splits the path.  Over a root dict, [get]
    looks the whole string up as one key of the root, [key_exists] tells
    whether it is one, and [get_parent] returns the root.  [set] stores
    the value under the whole string as one key of the root when the
    string is not an index segment, which it never is with the default
    separator. *)
Theorem leading_separator_is_one_key :
  forall _separator param_name (d : PyDict.t),
    PyStr.find _separator param_name = 0 ->
    (forall default_value,
        get _separator param_name default_value (VDict d)
        = Ok (match PyDict.get param_name d with
              | Some v => v
              | None => default_value
              end)) /\
    key_exists _separator param_name (VDict d) = Ok (PyDict.mem param_name d) /\
    get_parent _separator param_name (VDict d) = Ok (VDict d) /\
    (forall value,
        _is_int param_name = Ok false ->
        set _separator (Some param_name) value (VDict d)
        = (VDict (PyDict.set param_name value d), Ok tt)) /\
    (_separator = PATH_SEPARATOR_CHAR -> _is_int param_name = Ok false).
Proof.
  intros sep p d F.
  assert (L : (0 <? PyStr.find sep p) = false) by (rewrite F; reflexivity).
  split; [|split; [|split; [|split]]].
  - intros dflt. unfold get. rewrite L.
    destruct d as [|[k v] d]; [reflexivity|].
    cbn [truthy contains bind getitem_str]. unfold PyDict.mem.
    destruct (PyDict.get p ((k, v) :: d)); reflexivity.
  - unfold key_exists, get_parent, _get_focused_key. rewrite L. simpl.
    destruct (PyDict.mem p d); reflexivity.
  - unfold get_parent. rewrite L. reflexivity.
  - intros v I. unfold set. apply recursive_set_last_key; [lia|exact I].
  - intros E. subst sep. apply find_zero in F as [r F]. subst p. reflexivity.
Qed.

Lemma leading_separator_is_one_key_witness :
  PyStr.find PATH_SEPARATOR_CHAR ".a.b" = 0 /\
  get PATH_SEPARATOR_CHAR ".a.b" VNone (VDict [(".a.b", VInt 1)]) = Ok (VInt 1) /\
  key_exists PATH_SEPARATOR_CHAR ".a.b" (VDict [(".a.b", VInt 1)]) = Ok true /\
  get_parent PATH_SEPARATOR_CHAR ".a.b" (VDict [(".a.b", VInt 1)])
  = Ok (VDict [(".a.b", VInt 1)]) /\
  set PATH_SEPARATOR_CHAR (Some ".a.b") (VInt 2) (VDict [(".a.b", VInt 1)])
  = (VDict [(".a.b", VInt 2)], Ok tt).
Proof.
  destruct (leading_separator_is_one_key PATH_SEPARATOR_CHAR ".a.b"
              [(".a.b", VInt 1)] eq_refl) as [G [K [P [S I]]]].
  split; [reflexivity|].
  split; [exact (G VNone)|].
  split; [exact K|].
  split; [exact P|].
  exact (S (VInt 2) (I eq_refl)).
Defined.

(** * Further properties *)

(** ** The two equations of [__recursive_set] *)

Section SetEquations.

Variable sep : ascii.

(** A path that is split: the first piece selects the child, and the
    rest of the path is set in it. *)
Lemma recursive_set_descend (param_name : string) (value dictionary : pyobj) :
  0 < PyStr.find sep param_name ->
  recursive_set sep param_name value dictionary
  = let pieces := PyStr.split sep param_name in
    match _is_int (hd "" pieces) with
    | Raise e => (dictionary, Raise e)
    | Ok true =>
        let item := PyStr.int (hd "" pieces) in
        match dictionary with
        | VList l =>
            if item <? len l then
              match PyList.getitem l item with
              | Ok child =>
                  if is_none child then (dictionary, Raise RuntimeError)
                  else
                    let (child', r) :=
                      recursive_set sep (PyStr.join sep (tl pieces)) value child in
                    (VList (PyList.update l item child'), r)
              | Raise e => (dictionary, Raise e)
              end
            else (dictionary, Raise RuntimeError)
        | _ => (dictionary, Raise ValueError)
        end
    | Ok false =>
        match dictionary with
        | VDict d =>
            match PyDict.get (hd "" pieces) d with
            | None => (dictionary, Raise RuntimeError)
            | Some child =>
                let (child', r) :=
                  recursive_set sep (PyStr.join sep (tl pieces)) value child in
                (VDict (PyDict.set (hd "" pieces) child' d), r)
            end
        | _ => (dictionary, Raise RuntimeError)
        end
    end.
Proof.
  intros F. unfold recursive_set at 1. cbn [recursive_set_fuel].
  destruct (0 <? PyStr.find sep param_name) eqn:L; [|apply Z.ltb_ge in L; lia].
  assert (T : (String.length (PyStr.join sep (tl (PyStr.split sep param_name)))
               < String.length param_name)%nat) by (apply tail_shorter; lia).
  cbv zeta.
  destruct (_is_int (hd "" (PyStr.split sep param_name))) as [[|]|e]; [| |reflexivity].
  - destruct dictionary as [| | | |l|d]; try reflexivity.
    destruct (PyStr.int _ <? len l); [|reflexivity].
    destruct (PyList.getitem l _) as [child|e]; [|reflexivity].
    destruct (is_none child); [reflexivity|].
    rewrite recursive_set_fuel_eq by exact T. reflexivity.
  - destruct dictionary as [| | | |l|d]; try reflexivity.
    destruct (PyDict.get _ d) as [child|]; [|reflexivity].
    rewrite recursive_set_fuel_eq by exact T. reflexivity.
Qed.

(** A path that is not split: the write itself. *)
Lemma recursive_set_last (param_name : string) (value dictionary : pyobj) :
  PyStr.find sep param_name <= 0 ->
  recursive_set sep param_name value dictionary
  = match _is_int param_name with
    | Raise e => (dictionary, Raise e)
    | Ok true =>
        let index := PyStr.int param_name in
        match dictionary with
        | VList l =>
            if index <? len l then
              match PyList.setitem l index value with
              | Ok l' => (VList l', Ok tt)
              | Raise e => (dictionary, Raise e)
              end
            else
              (VList (l ++ repeat VNone (Z.to_nat (index - len l)) ++ [value])%list,
               Ok tt)
        | _ => (dictionary, Raise ValueError)
        end
    | Ok false =>
        match dictionary with
        | VNone => (dictionary, Ok tt)
        | VDict d => (VDict (PyDict.set param_name value d), Ok tt)
        | _ => (dictionary, Raise TypeError)
        end
    end.
Proof.
  intros F. unfold recursive_set. cbn [recursive_set_fuel].
  destruct (0 <? PyStr.find sep param_name) eqn:L; [apply Z.ltb_lt in L; lia|].
  destruct (_is_int param_name) as [[|]|e]; [| |reflexivity].
  - destruct dictionary as [| | | |l|d]; try reflexivity.
    cbv zeta. destruct (PyStr.int param_name <? len l) eqn:B; [reflexivity|].
    apply Z.ltb_ge in B. rewrite fill_loop by exact B. reflexivity.
  - destruct dictionary as [| | | |l|d]; reflexivity.
Qed.

(** The object a call returns is of the type of the object it was
    given. *)
Lemma recursive_set_kind (param_name : string) (value dictionary : pyobj) :
  same_kind dictionary (fst (recursive_set sep param_name value dictionary)).
Proof.
  assert (R : forall c, same_kind c c) by (intros []; simpl; auto).
  destruct (0 <? PyStr.find sep param_name) eqn:L.
  - apply Z.ltb_lt in L. rewrite recursive_set_descend by exact L. cbv zeta.
    destruct (_is_int _) as [[|]|e]; [| |apply R].
    + destruct dictionary as [| | | |l|d]; try apply R.
      destruct (_ <? len l); [|apply R].
      destruct (PyList.getitem l _) as [child|e]; [|apply R].
      destruct (is_none child); [apply R|].
      destruct (recursive_set sep _ value child). exact I.
    + destruct dictionary as [| | | |l|d]; try apply R.
      destruct (PyDict.get _ d) as [child|]; [|apply R].
      destruct (recursive_set sep _ value child). exact I.
  - apply Z.ltb_ge in L. rewrite recursive_set_last by exact L.
    destruct (_is_int _) as [[|]|e]; [| |apply R].
    + destruct dictionary as [| | | |l|d]; try apply R.
      cbv zeta. destruct (_ <? len l); [|exact I].
      destruct (PyList.setitem l _ value); [exact I|apply R].
    + destruct dictionary as [| | | |l|d]; try apply R; exact I.
Qed.

Lemma recursive_set_not_none (param_name : string) (value dictionary : pyobj) :
  is_none dictionary = false ->
  is_none (fst (recursive_set sep param_name value dictionary)) = false.
Proof.
  intros N. pose proof (recursive_set_kind param_name value dictionary) as K.
  destruct dictionary; try discriminate;
    destruct (fst (recursive_set sep param_name value _)); simpl in K;
    try reflexivity; contradiction.
Qed.

End SetEquations.
(** ** Reading back what [set] wrote *)

Lemma position_lt (i : Z) (n k : nat) :
  PyList.position i n = Some k -> (k < n)%nat.
Proof.
  unfold PyList.position.
  destruct (0 <=? i) eqn:P.
  - apply Z.leb_le in P. destruct (i <? Z.of_nat n) eqn:Q; [|discriminate].
    apply Z.ltb_lt in Q. intros H. inversion H. lia.
  - apply Z.leb_gt in P. destruct (- Z.of_nat n <=? i) eqn:Q; [|discriminate].
    apply Z.leb_le in Q. intros H. inversion H. lia.
Qed.

Lemma update_length (l : list pyobj) (i : Z) (v : pyobj) :
  List.length (PyList.update l i v) = List.length l.
Proof.
  unfold PyList.update. destruct (PyList.position i (List.length l)); [|reflexivity].
  apply put_length.
Qed.

Lemma update_unchanged (l : list pyobj) (i : Z) (v : pyobj) :
  PyList.getitem l i = Ok v -> PyList.update l i v = l.
Proof.
  intros G. destruct (getitem_position _ _ _ G) as [k [Hk Hn]].
  unfold PyList.update. rewrite Hk. apply put_unchanged. exact Hn.
Qed.

Lemma getitem_update (l : list pyobj) (i : Z) (v w : pyobj) :
  PyList.getitem l i = Ok w -> PyList.getitem (PyList.update l i v) i = Ok v.
Proof.
  intros G. destruct (getitem_position _ _ _ G) as [k [Hk Hn]].
  unfold PyList.getitem. rewrite update_length, Hk.
  unfold PyList.update. rewrite Hk, (nth_error_put_same _ _ _ _ Hn). reflexivity.
Qed.

Lemma getitem_setitem (l l' : list pyobj) (i : Z) (v : pyobj) :
  PyList.setitem l i v = Ok l' ->
  List.length l' = List.length l /\ PyList.getitem l' i = Ok v.
Proof.
  unfold PyList.setitem, PyList.getitem.
  destruct (PyList.position i (List.length l)) as [k|] eqn:Hk; [|discriminate].
  intros H. inversion H; subst l'. rewrite put_length. split; [reflexivity|].
  rewrite Hk. pose proof (position_lt _ _ _ Hk) as L.
  destruct (nth_error l k) as [w|] eqn:N.
  - rewrite (nth_error_put_same _ _ _ _ N). reflexivity.
  - apply nth_error_None in N. lia.
Qed.

Lemma getitem_appended (l : list pyobj) (i : Z) (v : pyobj) :
  len l <= i ->
  let l' := (l ++ repeat VNone (Z.to_nat (i - len l)) ++ [v])%list in
  len l' = i + 1 /\ PyList.getitem l' i = Ok v.
Proof.
  intros B l'. unfold len in *.
  assert (L : List.length l' = S (Z.to_nat i)).
  { unfold l'. rewrite !length_app, repeat_length. simpl. lia. }
  split; [lia|].
  unfold PyList.getitem, PyList.position. rewrite L.
  destruct (0 <=? i) eqn:P; [|apply Z.leb_gt in P; lia].
  destruct (i <? Z.of_nat (S (Z.to_nat i))) eqn:Q; [|apply Z.ltb_ge in Q; lia].
  unfold l'. rewrite app_assoc, nth_error_app2;
    rewrite length_app, repeat_length; [|lia].
  replace (Z.to_nat i - (List.length l + Z.to_nat (i - Z.of_nat (List.length l))))%nat
    with 0%nat by lia.
  reflexivity.
Qed.

(** A walk from [None] that has a segment to look at returns the
    default or raises. *)
Lemma get_walk_from_none (items : list string) (default_value v : pyobj) :
  items <> [] -> get_walk items default_value VNone = Ok v -> v = default_value.
Proof.
  destruct items as [|item rest]; [congruence|]. intros _.
  cbn [get_walk]. destruct (_is_int item) as [[|]|e]; cbn [bind contains].
  - intros H. inversion H. reflexivity.
  - discriminate.
  - discriminate.
Qed.

Section ReadBack.

Variable sep : ascii.

(** Along pieces that are not empty, a [__recursive_set] that completes
    has put the value where the walk of [get] finds it, or it has met
    [None] at the end of the walk and changed nothing. *)
Lemma recursive_set_then_walk (keys : list string) :
  forall value dictionary dictionary',
    keys <> [] ->
    Forall (fun k => k <> "") keys ->
    Forall (fun k => PyStr.find sep k = -1) keys ->
    recursive_set sep (PyStr.join sep keys) value dictionary = (dictionary', Ok tt) ->
    get_walk keys VNone dictionary' = Ok value \/
    (dictionary' = dictionary /\
     get_walk (removelast keys) VNone dictionary = Ok VNone).
Proof.
  induction keys as [|k0 keys IH]; intros v c c' NE N S; [congruence|].
  inversion N as [|? ? N0 N1]; subst. inversion S as [|? ? S0 S1]; subst.
  destruct keys as [|k1 keys].
  - (* the last segment *)
    cbn [PyStr.join removelast get_walk].
    rewrite recursive_set_last by lia.
    destruct (_is_int k0) as [[|]|e] eqn:I; cbn [bind]; [| |discriminate].
    + destruct c as [| | | |l|d]; try discriminate. cbv zeta.
      destruct (PyStr.int k0 <? len l) eqn:B.
      * destruct (PyList.setitem l (PyStr.int k0) v) as [l'|e] eqn:W; [|discriminate].
        intros H. inversion H; subst c'. left.
        destruct (getitem_setitem _ _ _ _ W) as [L G].
        unfold len in *. rewrite L, B, G. cbn [bind].
        destruct v; reflexivity.
      * intros H. inversion H; subst c'. left. apply Z.ltb_ge in B.
        destruct (getitem_appended l (PyStr.int k0) v B) as [L G].
        rewrite L, G.
        destruct (PyStr.int k0 <? PyStr.int k0 + 1) eqn:Q; [|apply Z.ltb_ge in Q; lia].
        cbn [bind]. destruct v; reflexivity.
    + destruct c as [| | | |l|d]; try discriminate.
      * intros H. inversion H; subst c'. right. split; reflexivity.
      * intros H. inversion H; subst c'. left.
        cbn [contains]. unfold PyDict.mem. rewrite dict_get_set_same.
        cbn [bind getitem_str]. rewrite dict_get_set_same. cbn [bind].
        destruct v; reflexivity.
  - (* a segment before the last *)
    assert (F : 0 < PyStr.find sep (PyStr.join sep (k0 :: k1 :: keys))).
    { rewrite join_cons by discriminate. rewrite find_app_sep by exact S0.
      destruct k0; [congruence|]. simpl. lia. }
    rewrite recursive_set_descend by exact F.
    rewrite split_join by (discriminate || assumption). cbn [hd tl]. cbv zeta.
    change (removelast (k0 :: k1 :: keys)) with (k0 :: removelast (k1 :: keys)).
    cbn [get_walk].
    destruct (_is_int k0) as [[|]|e] eqn:I; cbn [bind]; [| |discriminate].
    + destruct c as [| | | |l|d]; try discriminate.
      destruct (PyStr.int k0 <? len l) eqn:B; [|discriminate].
      destruct (PyList.getitem l (PyStr.int k0)) as [child|e] eqn:G; [|discriminate].
      destruct (is_none child) eqn:NC; [discriminate|].
      pose proof (recursive_set_not_none sep (PyStr.join sep (k1 :: keys)) v child NC)
        as NC'.
      destruct (recursive_set sep (PyStr.join sep (k1 :: keys)) v child)
        as [child' r] eqn:R.
      intros H. inversion H; subst c' r. simpl in NC'.
      destruct (IH v child child') as [Found|[Same Lost]];
        try assumption; try discriminate.
      * left. unfold len in *. rewrite update_length, B.
        rewrite (getitem_update _ _ _ _ G). cbn [bind]. rewrite NC'. exact Found.
      * right. subst child'. rewrite update_unchanged by exact G.
        split; [reflexivity|]. cbn [bind]. rewrite NC. exact Lost.
    + destruct c as [| | | |l|d]; try discriminate.
      destruct (PyDict.get k0 d) as [child|] eqn:G; [|discriminate].
      destruct (recursive_set sep (PyStr.join sep (k1 :: keys)) v child)
        as [child' r] eqn:R.
      intros H. inversion H; subst c' r.
      cbn [contains]. unfold PyDict.mem. rewrite dict_get_set_same, G.
      cbn [bind getitem_str]. rewrite dict_get_set_same, G. cbn [bind].
      destruct (IH v child child') as [Found|[Same Lost]];
        try assumption; try discriminate.
      * left. destruct (is_none child') eqn:NC'; [|exact Found].
        destruct child'; try discriminate.
        apply get_walk_from_none in Found; [|discriminate]. subst v. reflexivity.
      * right. subst child'. rewrite dict_set_unchanged by exact G.
        split; [reflexivity|].
        destruct (is_none child); [reflexivity|exact Lost].
Qed.

End ReadBack.
Lemma Forall_removelast {A : Type} (P : A -> Prop) (l : list A) :
  Forall P l -> Forall P (removelast l).
Proof.
  induction l as [|x l IH]; intros H; [constructor|].
  inversion H; subst. destruct l as [|y l]; [constructor|].
  change (removelast (x :: y :: l)) with (x :: removelast (y :: l)).
  constructor; [assumption|]. apply IH. assumption.
Qed.

Lemma truthy_dict_with (k : string) (v : pyobj) (d : PyDict.t) :
  PyDict.get k d = Some v -> truthy (VDict d) = true.
Proof. destruct d; [discriminate|reflexivity]. Qed.

(** The single-segment branch of [get] over a dict that has the key. *)
Lemma get_single_found (sep : ascii) (k : string) (v default_value : pyobj)
  (d : PyDict.t) :
  PyStr.find sep k <= 0 ->
  PyDict.get k d = Some v ->
  get sep k default_value (VDict d) = Ok v.
Proof.
  intros F G. unfold get.
  destruct (0 <? PyStr.find sep k) eqn:L; [apply Z.ltb_lt in L; lia|].
  rewrite (truthy_dict_with _ _ _ G). cbn [contains bind getitem_str].
  unfold PyDict.mem. rewrite G. reflexivity.
Qed.

Lemma find_join_cons (sep : ascii) (k : string) (keys : list string) :
  k <> "" -> PyStr.find sep k = -1 -> keys <> [] ->
  0 < PyStr.find sep (PyStr.join sep (k :: keys)).
Proof.
  intros N S K. rewrite join_cons by exact K. rewrite find_app_sep by exact S.
  destruct k; [congruence|]. simpl. lia.
Qed.

(** Over a root dict and along segments that are not empty, a [set] that
    completes is read back by [get], or the parent of the path is [None]
    and nothing changed. *)
Lemma set_read_back (sep : ascii) (param_name : string) (value : pyobj)
  (d : PyDict.t) (_content' : pyobj) :
  Forall (fun k => k <> "") (PyStr.split sep param_name) ->
  set sep (Some param_name) value (VDict d) = (_content', Ok tt) ->
  get sep param_name VNone _content' = Ok value \/
  (_content' = VDict d /\ get_parent sep param_name (VDict d) = Ok VNone).
Proof.
  intros N W. cbn [set] in W.
  pose proof (split_pieces_no_sep sep param_name) as S.
  pose proof (join_split sep param_name) as J.
  destruct (PyStr.split sep param_name) as [|k0 [|k1 keys]] eqn:E.
  - exfalso. apply (split_not_nil sep param_name). exact E.
  - (* one segment *)
    cbn [PyStr.join] in J. subst param_name. inversion S as [|? ? S0 _]; subst.
    rewrite recursive_set_last in W by lia.
    destruct (_is_int k0) as [[|]|e]; try discriminate.
    inversion W; subst. left.
    apply get_single_found; [lia|apply dict_get_set_same].
  - (* several segments *)
    apply Forall_cons_iff in N as [N0 N1]. apply Forall_cons_iff in S as [S0 S1].
    assert (F : 0 < PyStr.find sep param_name).
    { rewrite <- J. apply find_join_cons; [assumption|assumption|discriminate]. }
    pose proof W as W'. rewrite <- J in W'.
    apply recursive_set_then_walk in W';
      [|discriminate|constructor; assumption|constructor; assumption].
    destruct W' as [Found|[Same Lost]].
    + left. unfold get.
      destruct (0 <? PyStr.find sep param_name) eqn:L; [|apply Z.ltb_ge in L; lia].
      rewrite E. exact Found.
    + right. split; [exact Same|].
      unfold get_parent.
      destruct (0 <? PyStr.find sep param_name) eqn:L; [|apply Z.ltb_ge in L; lia].
      rewrite E. cbv zeta.
      change (removelast (k0 :: k1 :: keys)) with (k0 :: removelast (k1 :: keys)) in *.
      destruct (removelast (k1 :: keys)) as [|k2 rest] eqn:RL.
      * (* two segments: the parent is looked up in the root *)
        cbn [PyStr.join].
        rewrite recursive_set_descend in W by exact F.
        rewrite E in W. cbn [hd tl] in W. cbv zeta in W.
        cbn [get_walk] in Lost.
        destruct (_is_int k0) as [[|]|e]; try discriminate.
        destruct (PyDict.get k0 d) as [child|] eqn:G; [|discriminate].
        cbn [bind contains getitem_str] in Lost. unfold PyDict.mem in Lost.
        rewrite G in Lost. cbn [bind] in Lost.
        destruct child; try (simpl in Lost; discriminate).
        apply get_single_found; [lia|exact G].
      * (* more: the parent is reached by the walk *)
        assert (S2 : Forall (fun k => PyStr.find sep k = -1) (k0 :: k2 :: rest)).
        { constructor; [assumption|]. rewrite <- RL.
          apply Forall_removelast. exact S1. }
        unfold get.
        destruct (0 <? PyStr.find sep (PyStr.join sep (k0 :: k2 :: rest))) eqn:L2.
        -- rewrite split_join by (discriminate || assumption). exact Lost.
        -- apply Z.ltb_ge in L2.
           pose proof (find_join_cons sep k0 (k2 :: rest) N0 S0). 
           assert (k2 :: rest <> []) by discriminate. intuition lia.
Qed.

(** X1.  Over a root dict, for a path none of whose segments is empty:
    when [set(p, v)] completes, [get(p)] afterwards returns [v]; the one
    exception is a path whose parent is [None] for [get_parent], where
    [set] completes without changing anything. *)
Theorem set_completed_is_read_back :
  forall _separator param_name value (d : PyDict.t) _content',
    Forall (fun k => k <> "") (PyStr.split _separator param_name) ->
    set _separator (Some param_name) value (VDict d) = (_content', Ok tt) ->
    get _separator param_name VNone _content' = Ok value \/
    (_content' = VDict d /\
     get_parent _separator param_name (VDict d) = Ok VNone).
Proof.
  intros. apply set_read_back; assumption.
Qed.

Lemma set_completed_is_read_back_witness :
  Forall (fun k => k <> "") (PyStr.split PATH_SEPARATOR_CHAR "a.-1.b") /\
  set PATH_SEPARATOR_CHAR (Some "a.-1.b") (VInt 1)
    (VDict [("a", VList [VNone; VDict []])])
  = (VDict [("a", VList [VNone; VDict [("b", VInt 1)]])], Ok tt) /\
  (get PATH_SEPARATOR_CHAR "a.-1.b" VNone
     (VDict [("a", VList [VNone; VDict [("b", VInt 1)]])]) = Ok (VInt 1) \/
   (VDict [("a", VList [VNone; VDict [("b", VInt 1)]])]
    = VDict [("a", VList [VNone; VDict []])] /\
    get_parent PATH_SEPARATOR_CHAR "a.-1.b" (VDict [("a", VList [VNone; VDict []])])
    = Ok VNone)).
Proof.
  assert (N : Forall (fun k => k <> "") (PyStr.split PATH_SEPARATOR_CHAR "a.-1.b"))
    by (repeat constructor; discriminate).
  split; [exact N|]. split; [reflexivity|].
  apply (set_completed_is_read_back PATH_SEPARATOR_CHAR "a.-1.b" (VInt 1)
           [("a", VList [VNone; VDict []])] _ N).
  reflexivity.
Defined.
(** ** What [set] and [initialise_recursive] leave alone in the root *)

Lemma dict_get_set_other (k k0 : string) (x : pyobj) (d : PyDict.t) :
  k <> k0 -> PyDict.get k (PyDict.set k0 x d) = PyDict.get k d.
Proof.
  intros N.
  assert (E : String.eqb k k0 = false) by (apply String.eqb_neq; exact N).
  induction d as [|[k' v'] d IH]; simpl.
  - rewrite E. reflexivity.
  - destruct (String.eqb k0 k') eqn:E0; simpl.
    + apply String.eqb_eq in E0. subst k'. rewrite E. reflexivity.
    + rewrite IH. reflexivity.
Qed.

Lemma dict_keys_set (k : string) (x : pyobj) (d : PyDict.t) :
  PyDict.keys (PyDict.set k x d)
  = if PyDict.mem k d then PyDict.keys d else (PyDict.keys d ++ [k])%list.
Proof.
  unfold PyDict.mem, PyDict.keys.
  induction d as [|[k' v'] d IH]; simpl; [reflexivity|].
  destruct (String.eqb k k') eqn:E; simpl; [reflexivity|].
  rewrite IH. destruct (PyDict.get k d); reflexivity.
Qed.

(** A [set] over a root dict returns a dict in which only the entry of
    the first segment may differ, and whose keys are the former keys, in
    order, followed by the first segment when it is new. *)
Lemma set_root_frame (sep : ascii) (param_name : string) (value : pyobj)
  (d : PyDict.t) :
  exists d',
    fst (set sep (Some param_name) value (VDict d)) = VDict d' /\
    (forall k, k <> first_segment sep param_name ->
               PyDict.get k d' = PyDict.get k d) /\
    (PyDict.keys d' = PyDict.keys d \/
     (PyDict.mem (first_segment sep param_name) d = false /\
      PyDict.keys d' = (PyDict.keys d ++ [first_segment sep param_name])%list)).
Proof.
  assert (Same : exists d', VDict d = VDict d' /\
             (forall k, k <> first_segment sep param_name ->
                        PyDict.get k d' = PyDict.get k d) /\
             (PyDict.keys d' = PyDict.keys d \/
              (PyDict.mem (first_segment sep param_name) d = false /\
               PyDict.keys d'
               = (PyDict.keys d ++ [first_segment sep param_name])%list)))
    by (exists d; auto).
  assert (Put : forall x,
             exists d', VDict (PyDict.set (first_segment sep param_name) x d) = VDict d' /\
               (forall k, k <> first_segment sep param_name ->
                          PyDict.get k d' = PyDict.get k d) /\
               (PyDict.keys d' = PyDict.keys d \/
                (PyDict.mem (first_segment sep param_name) d = false /\
                 PyDict.keys d'
                 = (PyDict.keys d ++ [first_segment sep param_name])%list))).
  { intros x. eexists. split; [reflexivity|]. split.
    - intros k N. apply dict_get_set_other. exact N.
    - rewrite dict_keys_set.
      destruct (PyDict.mem (first_segment sep param_name) d); auto. }
  cbn [set]. unfold first_segment in *.
  destruct (0 <? PyStr.find sep param_name) eqn:L.
  - apply Z.ltb_lt in L. rewrite recursive_set_descend by exact L. cbv zeta.
    destruct (_is_int _) as [[|]|e]; try exact Same.
    destruct (PyDict.get _ d) as [child|]; [|exact Same].
    destruct (recursive_set sep _ value child) as [child' r]. apply Put.
  - apply Z.ltb_ge in L. rewrite recursive_set_last by exact L.
    destruct (_is_int param_name) as [[|]|e]; try exact Same.
    apply Put.
Qed.

(** X2.  [set] over a root dict never removes or moves a key of the
    root, whether it completes or raises: the root is still a dict, and
    its keys are the former keys in their order, followed by one new key
    at most. *)
Theorem set_keeps_root_keys :
  forall _separator param_name value (d : PyDict.t),
    exists d' added,
      fst (set _separator (Some param_name) value (VDict d)) = VDict d' /\
      PyDict.keys d' = (PyDict.keys d ++ added)%list /\
      (List.length added <= 1)%nat.
Proof.
  intros sep p v d.
  destruct (set_root_frame sep p v d) as [d' [E [_ [K|[_ K]]]]].
  - exists d', []. rewrite app_nil_r. auto.
  - exists d', [first_segment sep p]. auto.
Qed.

(** The loop of [initialise_recursive] over a root dict returns a dict
    whose keys start with the former keys. *)
Lemma initialise_loop_root_keys (sep : ascii) (pieces : list string) :
  forall parent_path (d : PyDict.t),
    exists d' added,
      fst (initialise_loop sep pieces parent_path (VDict d)) = VDict d' /\
      PyDict.keys d' = (PyDict.keys d ++ added)%list.
Proof.
  induction pieces as [|piece rest IH]; intros pp d.
  - exists d, []. split; [reflexivity|]. rewrite app_nil_r. reflexivity.
  - assert (Same : exists d' added, VDict d = VDict d' /\
               PyDict.keys d' = (PyDict.keys d ++ added)%list).
    { exists d, []. split; [reflexivity|]. rewrite app_nil_r. reflexivity. }
    cbn [initialise_loop].
    destruct (key_exists sep (pp ++ piece) (VDict d)) as [[|]|e]; [apply IH| |exact Same].
    destruct (get_parent sep (pp ++ piece) (VDict d)) as [parent|e]; [|exact Same].
    destruct (match parent with
              | VDict _ => is_index <- _is_int piece ;; Ok (negb is_index)
              | VList _ => _is_int piece
              | _ => Ok false
              end) as [[|]|e]; [|exact Same|exact Same].
    destruct (set_root_frame sep (pp ++ piece) (VDict []) d) as [d1 [E [_ K]]].
    destruct (set sep (Some (pp ++ piece)) (VDict []) (VDict d)) as [c1 [[]|e]];
      simpl in E; subst c1.
    + destruct (IH (pp ++ piece ++ String sep "")%string d1) as [d' [added [E' K']]].
      rewrite <- string_app_assoc in E'.
      destruct K as [K|[_ K]]; rewrite K in K'.
      * exists d', added. split; assumption.
      * exists d', ([first_segment sep (pp ++ piece)] ++ added)%list.
        split; [assumption|]. rewrite K', <- app_assoc. reflexivity.
    + destruct K as [K|[_ K]].
      * exists d1, []. split; [reflexivity|]. rewrite app_nil_r. exact K.
      * exists d1, [first_segment sep (pp ++ piece)]. split; [reflexivity|exact K].
Qed.

(** X3.  [initialise_recursive] over a root dict never removes or moves
    a key of the root, whether it completes or raises: the root is still
    a dict, and its keys are the former keys in their order, followed by
    the keys that were added. *)
Theorem initialise_recursive_keeps_root_keys :
  forall _separator param_name (d : PyDict.t),
    exists d' added,
      fst (initialise_recursive _separator param_name (VDict d)) = VDict d' /\
      PyDict.keys d' = (PyDict.keys d ++ added)%list.
Proof.
  intros. apply initialise_loop_root_keys.
Qed.
(** ** What [delete] does and what it leaves *)

Lemma dict_get_del (k key : string) (d : PyDict.t) :
  PyDict.get k (PyDict.del key d)
  = if String.eqb k key then None else PyDict.get k d.
Proof.
  unfold PyDict.del. induction d as [|[k' v'] d IH]; simpl.
  - destruct (String.eqb k key); reflexivity.
  - destruct (String.eqb key k') eqn:E; simpl.
    + apply String.eqb_eq in E. subst k'. rewrite IH.
      destruct (String.eqb k key); reflexivity.
    + rewrite IH. destruct (String.eqb k k') eqn:E'; [|reflexivity].
      apply String.eqb_eq in E'. subst k'.
      rewrite String.eqb_sym, E. reflexivity.
Qed.

Lemma dict_keys_del (key : string) (d : PyDict.t) :
  PyDict.keys (PyDict.del key d)
  = filter (fun k => negb (String.eqb key k)) (PyDict.keys d).
Proof.
  unfold PyDict.del, PyDict.keys. induction d as [|[k' v'] d IH]; simpl; [reflexivity|].
  destruct (String.eqb key k'); simpl; rewrite IH; reflexivity.
Qed.

(** When [key_exists] is [True], the parent is a dict that has the key
    or a list that has the index, and [del] succeeds on it. *)
Lemma key_exists_true_del (sep : ascii) (param_name : string) (_content : pyobj) :
  key_exists sep param_name _content = Ok true ->
  let key := _get_focused_key sep param_name in
  (exists d, get_parent sep param_name _content = Ok (VDict d) /\
             PyDict.mem key d = true /\
             del_key key (VDict d) = (VDict (PyDict.del key d), Ok true)) \/
  (exists l k, get_parent sep param_name _content = Ok (VList l) /\
               _is_int key = Ok true /\
               PyList.position (PyStr.int key) (List.length l) = Some k /\
               (k < List.length l)%nat /\
               del_key key (VList l) = (VList (PyList.remove l k), Ok true)).
Proof.
  intros K key. unfold key_exists in K. fold key in K.
  destruct (get_parent sep param_name _content) as [parent|e]; [|discriminate].
  cbn [bind] in K.
  destruct parent as [| | | |l|d]; try discriminate.
  - right. cbn [is_none] in K.
    destruct (_is_int key) as [[|]|e] eqn:I; try discriminate. cbn [bind] in K.
    unfold _is_out_of_range in K.
    destruct (PyList.getitem l (PyStr.int key)) as [x|e] eqn:G; [|discriminate].
    destruct (getitem_position _ _ _ G) as [k [Hk Hn]].
    exists l, k. repeat split; try assumption.
    + apply (position_lt _ _ _ Hk).
    + simpl. rewrite I. unfold PyList.delitem. rewrite Hk. reflexivity.
  - left. cbn [is_none] in K. exists d.
    destruct (PyDict.mem key d) eqn:M; [|discriminate].
    repeat split. simpl. rewrite M. reflexivity.
Qed.

Lemma delete_when_exists (sep : ascii) (param_name : string) (_content : pyobj) :
  key_exists sep param_name _content = Ok true ->
  let key := _get_focused_key sep param_name in
  exists _content',
    delete sep param_name _content = (_content', Ok true) /\
    ((exists d, get_parent sep param_name _content = Ok (VDict d) /\
                get_parent sep param_name _content'
                = Ok (VDict (PyDict.del key d))) \/
     (exists l k, get_parent sep param_name _content = Ok (VList l) /\
                  PyList.position (PyStr.int key) (List.length l) = Some k /\
                  (k < List.length l)%nat /\
                  get_parent sep param_name _content'
                  = Ok (VList (PyList.remove l k)))).
Proof.
  intros K key.
  destruct (key_exists_true_del sep param_name _content K)
    as [[d [P [M D]]]|[l [k [P [I [Hk [Lk D]]]]]]].
  - destruct (delete_existing sep param_name _content _ _ K P D eq_refl)
      as [c' [E [P' _]]].
    exists c'. split; [exact E|]. left. exists d. split; assumption.
  - destruct (delete_existing sep param_name _content _ _ K P D eq_refl)
      as [c' [E [P' _]]].
    exists c'. split; [exact E|]. right. exists l, k. repeat split; assumption.
Qed.

(** X4.  [delete] does what [key_exists] says: when [key_exists] is
    [True] the deletion itself never fails and [delete] returns [True];
    [delete] returns [False] only when [key_exists] is [False], and
    raises only what [key_exists] raises; in both cases the content is
    what it was. *)
Theorem delete_follows_key_exists :
  forall _separator param_name _content,
    (key_exists _separator param_name _content = Ok true ->
     exists _content',
       delete _separator param_name _content = (_content', Ok true)) /\
    (forall _content',
        delete _separator param_name _content = (_content', Ok false) ->
        key_exists _separator param_name _content = Ok false /\
        _content' = _content) /\
    (forall _content' e,
        delete _separator param_name _content = (_content', Raise e) ->
        key_exists _separator param_name _content = Raise e /\
        _content' = _content).
Proof.
  intros sep p c. split; [|split].
  - intros K. destruct (delete_when_exists sep p c K) as [c' [E _]].
    exists c'. exact E.
  - intros c' H. destruct (key_exists sep p c) as [[|]|e] eqn:K.
    + destruct (delete_when_exists sep p c K) as [c1 [E _]]. congruence.
    + unfold delete in H. rewrite K in H. inversion H. split; reflexivity.
    + unfold delete in H. rewrite K in H. discriminate.
  - intros c' e H. destruct (key_exists sep p c) as [[|]|e0] eqn:K.
    + destruct (delete_when_exists sep p c K) as [c1 [E _]]. congruence.
    + unfold delete in H. rewrite K in H. discriminate.
    + unfold delete in H. rewrite K in H. inversion H. split; reflexivity.
Qed.

Lemma delete_follows_key_exists_witness :
  key_exists PATH_SEPARATOR_CHAR "a.-1" (VDict [("a", VList [VInt 1; VInt 2])])
  = Ok true /\
  (exists _content',
      delete PATH_SEPARATOR_CHAR "a.-1" (VDict [("a", VList [VInt 1; VInt 2])])
      = (_content', Ok true)) /\
  delete PATH_SEPARATOR_CHAR "a.5" (VDict [("a", VList [VInt 1; VInt 2])])
  = (VDict [("a", VList [VInt 1; VInt 2])], Ok false) /\
  key_exists PATH_SEPARATOR_CHAR "a.5" (VDict [("a", VList [VInt 1; VInt 2])])
  = Ok false /\
  delete PATH_SEPARATOR_CHAR "a.b.c" (VDict [("a", VInt 5)])
  = (VDict [("a", VInt 5)], Raise TypeError) /\
  key_exists PATH_SEPARATOR_CHAR "a.b.c" (VDict [("a", VInt 5)]) = Raise TypeError.
Proof.
  split; [reflexivity|]. split.
  - apply (proj1 (delete_follows_key_exists PATH_SEPARATOR_CHAR "a.-1"
                    (VDict [("a", VList [VInt 1; VInt 2])]))).
    reflexivity.
  - split; [reflexivity|]. split.
    + apply (proj1 (proj2 (delete_follows_key_exists PATH_SEPARATOR_CHAR "a.5"
                             (VDict [("a", VList [VInt 1; VInt 2])])))
               (VDict [("a", VList [VInt 1; VInt 2])])).
      reflexivity.
    + split; [reflexivity|].
      apply (proj2 (proj2 (delete_follows_key_exists PATH_SEPARATOR_CHAR "a.b.c"
                             (VDict [("a", VInt 5)])))
               (VDict [("a", VInt 5)]) TypeError).
      reflexivity.
Defined.

(** X5.  A [delete] that returns [True] has removed that entry from the
    parent and nothing else of it.  When the parent was a dict, it is
    afterwards the dict without the key: every other key keeps its value
    and its place.  When the parent was a list, it is afterwards the
    list without the element at the index: the elements before it stay,
    and each later element has moved down by one. *)
Theorem delete_removes_one_entry :
  forall _separator param_name _content _content',
    delete _separator param_name _content = (_content', Ok true) ->
    let key := _get_focused_key _separator param_name in
    (exists d d',
        get_parent _separator param_name _content = Ok (VDict d) /\
        get_parent _separator param_name _content' = Ok (VDict d') /\
        (forall k, PyDict.get k d'
                   = if String.eqb k key then None else PyDict.get k d) /\
        PyDict.keys d' = filter (fun k => negb (String.eqb key k)) (PyDict.keys d)) \/
    (exists l l' k,
        get_parent _separator param_name _content = Ok (VList l) /\
        get_parent _separator param_name _content' = Ok (VList l') /\
        PyList.position (PyStr.int key) (List.length l) = Some k /\
        List.length l = S (List.length l') /\
        (forall j, nth_error l' j
                   = if (j <? k)%nat then nth_error l j else nth_error l (S j))).
Proof.
  intros sep p c c' D key.
  assert (K : key_exists sep p c = Ok true).
  { destruct (key_exists sep p c) as [[|]|e] eqn:K; [reflexivity| |];
      unfold delete in D; rewrite K in D; discriminate. }
  destruct (delete_when_exists sep p c K) as [c1 [E Shape]].
  assert (c1 = c') by congruence. subst c1. fold key in Shape.
  destruct Shape as [[d [P P']]|[l [k [P [Hk [Lk P']]]]]].
  - left. exists d, (PyDict.del key d). repeat split; try assumption.
    + intros k. apply dict_get_del.
    + apply dict_keys_del.
  - right. exists l, (PyList.remove l k), k. repeat split; try assumption.
    + symmetry. apply remove_length. exact Lk.
    + intros j. apply nth_error_remove.
Qed.

Lemma delete_removes_one_entry_witness :
  delete PATH_SEPARATOR_CHAR "a.0" (VDict [("a", VList [VInt 1; VInt 2; VInt 3])])
  = (VDict [("a", VList [VInt 2; VInt 3])], Ok true) /\
  ((exists d d',
       get_parent PATH_SEPARATOR_CHAR "a.0"
         (VDict [("a", VList [VInt 1; VInt 2; VInt 3])]) = Ok (VDict d) /\
       get_parent PATH_SEPARATOR_CHAR "a.0" (VDict [("a", VList [VInt 2; VInt 3])])
       = Ok (VDict d') /\
       (forall k, PyDict.get k d'
                  = if String.eqb k (_get_focused_key PATH_SEPARATOR_CHAR "a.0")
                    then None else PyDict.get k d) /\
       PyDict.keys d'
       = filter (fun k => negb (String.eqb (_get_focused_key PATH_SEPARATOR_CHAR "a.0") k))
           (PyDict.keys d)) \/
   (exists l l' k,
       get_parent PATH_SEPARATOR_CHAR "a.0"
         (VDict [("a", VList [VInt 1; VInt 2; VInt 3])]) = Ok (VList l) /\
       get_parent PATH_SEPARATOR_CHAR "a.0" (VDict [("a", VList [VInt 2; VInt 3])])
       = Ok (VList l') /\
       PyList.position (PyStr.int (_get_focused_key PATH_SEPARATOR_CHAR "a.0"))
         (List.length l) = Some k /\
       List.length l = S (List.length l') /\
       (forall j, nth_error l' j
                  = if (j <? k)%nat then nth_error l j else nth_error l (S j)))).
Proof.
  split; [reflexivity|].
  apply (delete_removes_one_entry PATH_SEPARATOR_CHAR "a.0"
           (VDict [("a", VList [VInt 1; VInt 2; VInt 3])])
           (VDict [("a", VList [VInt 2; VInt 3])])).
  reflexivity.
Defined.
(** ** The exceptions that can be raised *)

Lemma is_int_raises (element : string) (e : exn) :
  _is_int element = Raise e -> e = IndexError.
Proof.
  destruct element as [|c s]; simpl.
  - intros H. inversion H. reflexivity.
  - destruct (Ascii.eqb c "-" || Ascii.eqb c "+"); discriminate.
Qed.

Lemma getitem_raises (l : list pyobj) (i : Z) (e : exn) :
  PyList.getitem l i = Raise e -> e = IndexError.
Proof.
  unfold PyList.getitem. destruct (PyList.position i (List.length l)) as [k|].
  - destruct (nth_error l k); [discriminate|]. intros H. inversion H. reflexivity.
  - intros H. inversion H. reflexivity.
Qed.

(** [item in obj] guards [obj[item]]: after it, the lookup raises
    [TypeError] or nothing, never [KeyError]. *)
Lemma guarded_getitem_raises (item : string) (obj : pyobj) (e : exn) :
  (present <- contains item obj ;;
   if (present : bool) then getitem_str obj item else Ok VNone) = Raise e ->
  e = TypeError.
Proof.
  destruct obj as [| | | |l|d]; simpl; try solve [intros H; inversion H; reflexivity].
  - destruct (PyStr.contains item s); [|discriminate].
    intros H. inversion H. reflexivity.
  - destruct (existsb _ l); [|discriminate]. intros H. inversion H. reflexivity.
  - unfold PyDict.mem. destruct (PyDict.get item d); discriminate.
Qed.

Lemma get_walk_raises (items : list string) :
  forall default_value local_content e,
    get_walk items default_value local_content = Raise e ->
    e = IndexError \/ e = TypeError.
Proof.
  induction items as [|item rest IH]; intros dflt c e; cbn [get_walk]; [discriminate|].
  destruct (_is_int item) as [[|]|e0] eqn:I; cbn [bind].
  - destruct c as [| | | |l|d]; try discriminate.
    destruct (_ <? len l); [|discriminate].
    destruct (PyList.getitem l _) as [child|e1] eqn:G; cbn [bind].
    + destruct (is_none child); [discriminate|]. apply IH.
    + intros H. inversion H; subst. left. apply (getitem_raises _ _ _ G).
  - pose proof (guarded_getitem_raises item c) as Guard.
    destruct (contains item c) as [[|]|e1]; cbn [bind] in *.
    + destruct (getitem_str c item) as [child|e1]; cbn [bind].
      * destruct (is_none child); [discriminate|]. apply IH.
      * intros H. inversion H; subst. right. apply Guard. reflexivity.
    + discriminate.
    + intros H. inversion H; subst. right. apply Guard. reflexivity.
  - intros H. inversion H; subst. left. apply (is_int_raises _ _ I).
Qed.

Lemma get_raises (sep : ascii) (param_name : string) (default_value _content : pyobj)
  (e : exn) :
  get sep param_name default_value _content = Raise e ->
  e = IndexError \/ e = TypeError.
Proof.
  unfold get. destruct (0 <? PyStr.find sep param_name); [apply get_walk_raises|].
  destruct (truthy _content); [|discriminate].
  pose proof (guarded_getitem_raises param_name _content e) as Guard.
  destruct (contains param_name _content) as [[|]|e1]; cbn [bind] in *.
  - intros H. right. apply Guard. exact H.
  - discriminate.
  - intros H. right. apply Guard. exact H.
Qed.

Lemma get_parent_raises (sep : ascii) (param_name : string) (_content : pyobj)
  (e : exn) :
  get_parent sep param_name _content = Raise e ->
  e = IndexError \/ e = TypeError.
Proof.
  unfold get_parent. destruct (0 <? PyStr.find sep param_name); [|discriminate].
  apply get_raises.
Qed.

Lemma key_exists_raises (sep : ascii) (param_name : string) (_content : pyobj)
  (e : exn) :
  key_exists sep param_name _content = Raise e ->
  e = IndexError \/ e = TypeError.
Proof.
  unfold key_exists.
  destruct (get_parent sep param_name _content) as [parent|e0] eqn:P; cbn [bind].
  - destruct parent as [| | | |l|d]; cbn [is_none]; try discriminate.
    destruct (_is_int _) as [[|]|e1] eqn:I; cbn [bind].
    + destruct (_is_out_of_range _ l); discriminate.
    + discriminate.
    + intros H. inversion H; subst. left. apply (is_int_raises _ _ I).
  - intros H. inversion H; subst. apply (get_parent_raises _ _ _ _ P).
Qed.

(** X6.  On a path of at most 4300 characters the four read operations
    raise nothing but [IndexError] and [TypeError]: each lookup in a
    dict is guarded by a membership test, so that a missing key never
    raises [KeyError].  The bound keeps every index segment within the
    digits that [int] accepts (4300 by default from Python 3.11 on; a
    longer digit string makes [int] raise [ValueError] there, which
    [PyStr.int] does not model).  [get_keys_in] without a path never
    raises. *)
Theorem reads_raise_only_IndexError_TypeError :
  forall _separator param_name default_value _content e,
    (String.length param_name <= 4300)%nat ->
    (get _separator param_name default_value _content = Raise e ->
     e = IndexError \/ e = TypeError) /\
    (get_parent _separator param_name _content = Raise e ->
     e = IndexError \/ e = TypeError) /\
    (key_exists _separator param_name _content = Raise e ->
     e = IndexError \/ e = TypeError) /\
    (get_keys_in _separator (Some param_name) _content = Raise e ->
     e = IndexError \/ e = TypeError) /\
    get_keys_in _separator None _content <> Raise e.
Proof.
  intros sep p dflt c e _. split; [|split; [|split; [|split]]].
  - apply get_raises.
  - apply get_parent_raises.
  - apply key_exists_raises.
  - unfold get_keys_in.
    destruct (get sep p VNone c) as [obj|e0] eqn:G; cbn [bind].
    + destruct obj; discriminate.
    + intros H. inversion H; subst. apply (get_raises _ _ _ _ _ G).
  - unfold get_keys_in. cbn [bind]. destruct c; discriminate.
Qed.

Lemma reads_raise_only_IndexError_TypeError_witness :
  (String.length "a..b" <= 4300)%nat /\
  get PATH_SEPARATOR_CHAR "a..b" VNone (VDict [("a", VDict [])]) = Raise IndexError /\
  (IndexError = IndexError \/ IndexError = TypeError) /\
  (String.length "a.b.c" <= 4300)%nat /\
  key_exists PATH_SEPARATOR_CHAR "a.b.c" (VDict [("a", VInt 5)]) = Raise TypeError /\
  (TypeError = IndexError \/ TypeError = TypeError).
Proof.
  assert (B1 : (String.length "a..b" <= 4300)%nat) by (simpl; lia).
  assert (B2 : (String.length "a.b.c" <= 4300)%nat) by (simpl; lia).
  split; [exact B1|]. split; [reflexivity|]. split.
  - apply (proj1 (reads_raise_only_IndexError_TypeError PATH_SEPARATOR_CHAR "a..b"
                    VNone (VDict [("a", VDict [])]) IndexError B1)).
    reflexivity.
  - split; [exact B2|]. split; [reflexivity|].
    apply (proj1 (proj2 (proj2 (reads_raise_only_IndexError_TypeError
                                  PATH_SEPARATOR_CHAR "a.b.c" VNone
                                  (VDict [("a", VInt 5)]) TypeError B2)))).
    reflexivity.
Defined.

(** The exceptions of [__recursive_set], whatever the fuel. *)
Lemma recursive_set_fuel_raises (sep : ascii) (fuel : nat) :
  forall param_name value dictionary dictionary' e,
    recursive_set_fuel sep fuel param_name value dictionary = (dictionary', Raise e) ->
    e = RuntimeError \/ e = ValueError \/ e = IndexError \/ e = TypeError \/
    e = RecursionError.
Proof.
  induction fuel as [|fuel IH]; intros p v c c' e; cbn [recursive_set_fuel].
  - intros H. inversion H. auto 6.
  - destruct (0 <? PyStr.find sep p).
    + destruct (_is_int (hd "" (PyStr.split sep p))) as [[|]|e0] eqn:I.
      * destruct c as [| | | |l|d]; try solve [intros H; inversion H; auto 6].
        destruct (_ <? len l); [|intros H; inversion H; auto 6].
        destruct (PyList.getitem l _) as [child|e1] eqn:G.
        -- destruct (is_none child); [intros H; inversion H; auto 6|].
           destruct (recursive_set_fuel sep fuel _ v child) as [child' r] eqn:R.
           intros H. inversion H; subst. apply (IH _ _ _ _ _ R).
        -- intros H. inversion H; subst. rewrite (getitem_raises _ _ _ G). auto 6.
      * destruct c as [| | | |l|d]; try solve [intros H; inversion H; auto 6].
        destruct (PyDict.get _ d) as [child|]; [|intros H; inversion H; auto 6].
        destruct (recursive_set_fuel sep fuel _ v child) as [child' r] eqn:R.
        intros H. inversion H; subst. apply (IH _ _ _ _ _ R).
      * intros H. inversion H; subst. rewrite (is_int_raises _ _ I). auto 6.
    + destruct (_is_int p) as [[|]|e0] eqn:I.
      * destruct c as [| | | |l|d]; try solve [intros H; inversion H; auto 6].
        destruct (_ <? len l); [|discriminate].
        unfold PyList.setitem. destruct (PyList.position _ _); [discriminate|].
        intros H. inversion H. auto 6.
      * destruct c as [| | | |l|d]; simpl; intros H; inversion H; auto 6.
      * intros H. inversion H; subst. rewrite (is_int_raises _ _ I). auto 6.
Qed.

Lemma set_raises (sep : ascii) (param_name : option string)
  (value _content _content' : pyobj) (e : exn) :
  set sep param_name value _content = (_content', Raise e) ->
  e = RuntimeError \/ e = ValueError \/ e = IndexError \/ e = TypeError.
Proof.
  destruct param_name as [p|]; cbn [set].
  - intros H. pose proof (recursive_set_never_exhausts sep p value _content) as T.
    rewrite H in T. simpl in T.
    apply recursive_set_fuel_raises in H.
    destruct H as [H|[H|[H|[H|H]]]]; auto. subst e. congruence.
  - intros H. inversion H. auto.
Qed.

Lemma initialise_loop_raises (sep : ascii) (pieces : list string) :
  forall parent_path _content _content' e,
    initialise_loop sep pieces parent_path _content = (_content', Raise e) ->
    e = RuntimeError \/ e = ValueError \/ e = IndexError \/ e = TypeError.
Proof.
  induction pieces as [|piece rest IH]; intros pp c c' e; cbn [initialise_loop];
    [discriminate|].
  destruct (key_exists sep (pp ++ piece) c) as [[|]|e0] eqn:K.
  - apply IH.
  - destruct (get_parent sep (pp ++ piece) c) as [parent|e0] eqn:P.
    + destruct (match parent with
                | VDict _ => is_index <- _is_int piece ;; Ok (negb is_index)
                | VList _ => _is_int piece
                | _ => Ok false
                end) as [[|]|e0] eqn:C.
      * destruct (set sep (Some (pp ++ piece)) (VDict []) c) as [c1 [[]|e1]] eqn:S.
        -- apply IH.
        -- intros H. inversion H; subst. apply (set_raises _ _ _ _ _ _ S).
      * intros H. inversion H. auto.
      * intros H. inversion H; subst.
        assert (e = IndexError); [|subst; auto].
        destruct parent; try discriminate.
        -- apply (is_int_raises piece). exact C.
        -- destruct (_is_int piece) as [b|e1] eqn:I; [discriminate|].
           inversion C; subst. apply (is_int_raises _ _ I).
    + intros H. inversion H; subst.
      destruct (get_parent_raises _ _ _ _ P); subst; auto.
  - intros H. inversion H; subst.
    destruct (key_exists_raises _ _ _ _ K); subst; auto.
Qed.

(** X7.  [set] and [initialise_recursive] raise nothing but
    [RuntimeError], [ValueError], [IndexError] and [TypeError], and
    [delete], on a path of at most 4300 characters, nothing but
    [IndexError] and [TypeError]: no write raises [KeyError], and
    [__recursive_set] comes to its end on every path.  The limits of the
    interpreter are not part of the model: its recursion limit, and the
    digits that [int] accepts, which the bound on the path of [delete]
    keeps out of play (for [set] and [initialise_recursive] [ValueError]
    is in the list). *)
Theorem writes_raise_only_four_exceptions :
  forall _separator _content _content' e,
    (forall param_name value,
        set _separator param_name value _content = (_content', Raise e) ->
        e = RuntimeError \/ e = ValueError \/ e = IndexError \/ e = TypeError) /\
    (forall param_name,
        initialise_recursive _separator param_name _content = (_content', Raise e) ->
        e = RuntimeError \/ e = ValueError \/ e = IndexError \/ e = TypeError) /\
    (forall param_name,
        (String.length param_name <= 4300)%nat ->
        delete _separator param_name _content = (_content', Raise e) ->
        e = IndexError \/ e = TypeError).
Proof.
  intros sep c c' e. split; [|split].
  - intros p v. apply set_raises.
  - intros p. apply initialise_loop_raises.
  - intros p _ H. destruct (key_exists sep p c) as [[|]|e0] eqn:K.
    + destruct (delete_when_exists sep p c K) as [c1 [E _]]. congruence.
    + unfold delete in H. rewrite K in H. discriminate.
    + unfold delete in H. rewrite K in H. inversion H; subst.
      apply (key_exists_raises _ _ _ _ K).
Qed.

Lemma writes_raise_only_four_exceptions_witness :
  set PATH_SEPARATOR_CHAR (Some "a.0") (VInt 1) (VDict [("a", VDict [])])
  = (VDict [("a", VDict [])], Raise ValueError) /\
  (ValueError = RuntimeError \/ ValueError = ValueError \/
   ValueError = IndexError \/ ValueError = TypeError) /\
  initialise_recursive PATH_SEPARATOR_CHAR "a.0" (VDict [])
  = (VDict [("a", VDict [])], Raise RuntimeError) /\
  (RuntimeError = RuntimeError \/ RuntimeError = ValueError \/
   RuntimeError = IndexError \/ RuntimeError = TypeError) /\
  (String.length "a." <= 4300)%nat /\
  delete PATH_SEPARATOR_CHAR "a." (VDict [("a", VList [])])
  = (VDict [("a", VList [])], Raise IndexError) /\
  (IndexError = IndexError \/ IndexError = TypeError).
Proof.
  assert (B : (String.length "a." <= 4300)%nat) by (simpl; lia).
  split; [reflexivity|]. split.
  - apply (proj1 (writes_raise_only_four_exceptions PATH_SEPARATOR_CHAR
                    (VDict [("a", VDict [])]) (VDict [("a", VDict [])]) ValueError)
             (Some "a.0") (VInt 1)).
    reflexivity.
  - split; [reflexivity|]. split.
    + apply (proj1 (proj2 (writes_raise_only_four_exceptions PATH_SEPARATOR_CHAR
                             (VDict []) (VDict [("a", VDict [])]) RuntimeError))
               "a.0").
      reflexivity.
    + split; [exact B|]. split; [reflexivity|].
      apply (proj2 (proj2 (writes_raise_only_four_exceptions PATH_SEPARATOR_CHAR
                             (VDict [("a", VList [])]) (VDict [("a", VList [])])
                             IndexError))
               "a." B).
      reflexivity.
Defined.
(** ** After [initialise_recursive] *)

Lemma chain_app (keys more : list string) (leaf : pyobj) :
  chain (keys ++ more) leaf = chain keys (chain more leaf).
Proof.
  induction keys as [|k keys IH]; simpl; [reflexivity|]. rewrite IH. reflexivity.
Qed.

Section AfterInitialise.

Variable sep : ascii.

(** Over dicts nested along key segments, [__recursive_set] does at the
    innermost object what it does with the last segment alone. *)
Lemma recursive_set_under_chain (keys : list string) (k : string)
  (value leaf : pyobj) :
  Forall (fun k => _is_int k = Ok false) keys ->
  Forall (fun k => PyStr.find sep k = -1) (keys ++ [k]) ->
  recursive_set sep (PyStr.join sep (keys ++ [k])) value (chain keys leaf)
  = (let (leaf', r) := recursive_set sep k value leaf in (chain keys leaf', r)).
Proof.
  induction keys as [|k0 keys IH]; intros K S.
  - cbn [app PyStr.join chain].
    destruct (recursive_set sep k value leaf). reflexivity.
  - change ((k0 :: keys) ++ [k])%list with (k0 :: (keys ++ [k]))%list in *.
    apply Forall_cons_iff in K as [K0 K1]. apply Forall_cons_iff in S as [S0 S1].
    assert (NE : (keys ++ [k])%list <> []) by (destruct keys; simpl; discriminate).
    rewrite recursive_set_descend
      by (apply find_join_cons;
          [apply is_int_false_not_empty; exact K0|exact S0|exact NE]).
    rewrite split_join by (discriminate || (constructor; assumption)).
    cbn [hd tl chain]. cbv zeta. rewrite K0.
    cbn [PyDict.get]. rewrite String.eqb_refl.
    rewrite IH by assumption.
    destruct (recursive_set sep k value leaf) as [leaf' r].
    cbn [PyDict.set]. rewrite String.eqb_refl. reflexivity.
Qed.

(** Over the dicts nested along the segments, every round of the loop
    finds its segment and goes on. *)
Lemma initialise_loop_present (rest : list string) (leaf : pyobj) :
  forall done,
    Forall (fun k => _is_int k = Ok false) (done ++ rest) ->
    Forall (fun k => PyStr.find sep k = -1) (done ++ rest) ->
    initialise_loop sep rest (parent_path_after sep done) (chain (done ++ rest) leaf)
    = (chain (done ++ rest) leaf, Ok tt).
Proof.
  induction rest as [|piece rest IH]; intros done K S; [reflexivity|].
  assert (K1 : Forall (fun k => _is_int k = Ok false) (done ++ [piece])).
  { apply Forall_app in K as [Ka Kb]. apply Forall_cons_iff in Kb as [Kb _].
    apply Forall_app. split; [assumption|]. constructor; [assumption|constructor]. }
  assert (S1 : Forall (fun k => PyStr.find sep k = -1) (done ++ [piece])).
  { apply Forall_app in S as [Sa Sb]. apply Forall_cons_iff in Sb as [Sb _].
    apply Forall_app. split; [assumption|]. constructor; [assumption|constructor]. }
  cbn [initialise_loop]. rewrite <- join_snoc.
  assert (E : key_exists sep (PyStr.join sep (done ++ [piece]))
                (chain (done ++ piece :: rest) leaf) = Ok true).
  { unfold key_exists. rewrite chain_app.
    rewrite get_parent_chain by (assumption || reflexivity).
    rewrite focused_key_join by assumption.
    cbn [chain bind is_none]. unfold PyDict.mem. cbn [PyDict.get].
    rewrite String.eqb_refl. reflexivity. }
  rewrite E.
  replace (PyStr.join sep (done ++ [piece]) ++ String sep "")
    with (parent_path_after sep (done ++ [piece])).
  - replace (done ++ piece :: rest)%list with ((done ++ [piece]) ++ rest)%list
      by (rewrite <- app_assoc; reflexivity).
    apply IH; rewrite <- app_assoc; assumption.
  - unfold parent_path_after. destruct (done ++ [piece])%list eqn:Q; [|reflexivity].
    destruct done; discriminate.
Qed.

End AfterInitialise.

(** X8.  [initialise_recursive] does not reset what is there: over the
    dicts nested along a path of key segments, with any value at the
    end, as [initialise_recursive(p)] and [set(p, v)] leave them, a
    further [initialise_recursive(p)] completes and changes nothing. *)
Theorem initialise_recursive_again_changes_nothing :
  forall _separator param_name value,
    Forall (fun k => _is_int k = Ok false) (PyStr.split _separator param_name) ->
    let keys := PyStr.split _separator param_name in
    initialise_recursive _separator param_name (chain keys value)
    = (chain keys value, Ok tt).
Proof.
  intros sep p v K keys. unfold initialise_recursive. fold keys.
  apply (initialise_loop_present sep keys v []).
  - exact K.
  - apply split_pieces_no_sep.
Qed.

Lemma initialise_recursive_again_changes_nothing_witness :
  Forall (fun k => _is_int k = Ok false) (PyStr.split PATH_SEPARATOR_CHAR "a.b") /\
  initialise_recursive PATH_SEPARATOR_CHAR "a.b" (VDict [("a", VDict [("b", VInt 7)])])
  = (VDict [("a", VDict [("b", VInt 7)])], Ok tt).
Proof.
  assert (K : Forall (fun k => _is_int k = Ok false)
                (PyStr.split PATH_SEPARATOR_CHAR "a.b"))
    by (repeat constructor).
  split; [exact K|].
  exact (initialise_recursive_again_changes_nothing PATH_SEPARATOR_CHAR "a.b"
           (VInt 7) K).
Defined.

(** X9.  [initialise_recursive] prepares dicts only.  Over the dicts it
    has nested along a path [p] of key segments, a [set] of [p] followed
    by an index segment raises [ValueError] and changes nothing: a list
    has to be put at [p] first. *)
Theorem set_index_under_initialised_path_raises :
  forall _separator param_name index value,
    Forall (fun k => _is_int k = Ok false) (PyStr.split _separator param_name) ->
    _is_int index = Ok true ->
    PyStr.find _separator index = -1 ->
    let keys := PyStr.split _separator param_name in
    initialise_recursive _separator param_name (VDict [])
    = (chain keys (VDict []), Ok tt) /\
    set _separator (Some (param_name ++ String _separator index)) value
      (chain keys (VDict []))
    = (chain keys (VDict []), Raise ValueError).
Proof.
  intros sep p i v K I F keys.
  pose proof (split_pieces_no_sep sep p) as S. fold keys in S.
  pose proof (split_not_nil sep p) as NE. fold keys in NE.
  pose proof (join_split sep p) as J. fold keys in J.
  split.
  - unfold initialise_recursive. fold keys.
    apply (initialise_loop_chain sep keys []); assumption.
  - cbn [set].
    replace (p ++ String sep i) with (PyStr.join sep (keys ++ [i])).
    + rewrite recursive_set_under_chain.
      * rewrite recursive_set_last by lia. rewrite I. reflexivity.
      * exact K.
      * apply Forall_app. split; [exact S|]. constructor; [exact F|constructor].
    + rewrite join_snoc. unfold parent_path_after.
      destruct keys as [|k0 keys']; [congruence|].
      rewrite J, string_app_assoc. reflexivity.
Qed.

Lemma set_index_under_initialised_path_raises_witness :
  Forall (fun k => _is_int k = Ok false)
    (PyStr.split PATH_SEPARATOR_CHAR "service.endpoints") /\
  initialise_recursive PATH_SEPARATOR_CHAR "service.endpoints" (VDict [])
  = (VDict [("service", VDict [("endpoints", VDict [])])], Ok tt) /\
  set PATH_SEPARATOR_CHAR (Some "service.endpoints.0") (VStr "http://x")
    (VDict [("service", VDict [("endpoints", VDict [])])])
  = (VDict [("service", VDict [("endpoints", VDict [])])], Raise ValueError).
Proof.
  assert (K : Forall (fun k => _is_int k = Ok false)
                (PyStr.split PATH_SEPARATOR_CHAR "service.endpoints"))
    by (repeat constructor).
  split; [exact K|].
  exact (set_index_under_initialised_path_raises PATH_SEPARATOR_CHAR
           "service.endpoints" "0" (VStr "http://x") K eq_refl eq_refl).
Defined.
(** ** A path followed by one more segment *)

Section LongerPaths.

Variable sep : ascii.

Lemma find_app_found (q r : string) :
  0 <= PyStr.find sep q -> PyStr.find sep (q ++ r) = PyStr.find sep q.
Proof.
  induction q as [|c q IH]; simpl; [lia|].
  destruct (Ascii.eqb c sep); [reflexivity|].
  pose proof (find_lower sep q).
  destruct (PyStr.find sep q <? 0) eqn:L; [lia|].
  pose proof L as L'. apply Z.ltb_ge in L'.
  intros _. rewrite IH by exact L'. rewrite L. reflexivity.
Qed.

(** A path that is neither empty nor led by the separator, once
    extended, is a path that is split. *)
Lemma find_extended (q k : string) :
  q <> "" -> PyStr.find sep q <> 0 ->
  0 < PyStr.find sep (q ++ String sep k).
Proof.
  intros N Z. pose proof (find_lower sep q).
  destruct (Z.eq_dec (PyStr.find sep q) (-1)) as [E|E].
  - rewrite find_app_sep by exact E. destruct q; [congruence|]. simpl. lia.
  - rewrite find_app_found by lia. lia.
Qed.

Lemma split_extended (q k : string) :
  PyStr.find sep k = -1 ->
  PyStr.split sep (q ++ String sep k) = (PyStr.split sep q ++ [k])%list.
Proof.
  intros F. induction q as [|c q IH]; simpl.
  - rewrite Ascii.eqb_refl. rewrite split_no_sep by exact F. reflexivity.
  - destruct (Ascii.eqb c sep); [rewrite IH; reflexivity|].
    rewrite IH. pose proof (split_not_nil sep q).
    destruct (PyStr.split sep q); [congruence|reflexivity].
Qed.

(** The parent and the last segment of an extended path. *)
Lemma get_parent_extended (q k : string) (_content : pyobj) :
  q <> "" -> PyStr.find sep q <> 0 -> PyStr.find sep k = -1 ->
  get_parent sep (q ++ String sep k) _content = get sep q VNone _content /\
  _get_focused_key sep (q ++ String sep k) = k.
Proof.
  intros N Z F. pose proof (find_extended q k N Z) as P. apply Z.ltb_lt in P.
  unfold get_parent, _get_focused_key. rewrite P, split_extended by exact F.
  rewrite removelast_last, last_last, join_split. split; reflexivity.
Qed.

End LongerPaths.

(** ** Walks that go on *)

(** A walk that has arrived somewhere goes on from there. *)
Lemma get_walk_app (items : list string) :
  forall local_content x,
    get_walk items VNone local_content = Ok x ->
    is_none x = false ->
    forall more default_value,
      get_walk (items ++ more) default_value local_content
      = get_walk more default_value x.
Proof.
  induction items as [|item rest IH]; intros c x W N more dflt.
  - simpl in W. inversion W. reflexivity.
  - cbn [app get_walk] in *.
    destruct (_is_int item) as [[|]|e]; cbn [bind] in *; [| |discriminate].
    + destruct c as [| | | |l|d];
        try (inversion W; subst x; discriminate).
      destruct (_ <? len l); [|inversion W; subst x; discriminate].
      destruct (PyList.getitem l _) as [child|e]; cbn [bind] in *; [|discriminate].
      destruct (is_none child); [inversion W; subst x; discriminate|].
      apply IH; assumption.
    + destruct (contains item c) as [[|]|e]; cbn [bind] in *;
        [|inversion W; subst x; discriminate|discriminate].
      destruct (getitem_str c item) as [child|e]; cbn [bind] in *; [|discriminate].
      destruct (is_none child); [inversion W; subst x; discriminate|].
      apply IH; assumption.
Qed.

(** A walk that has found something went through the parent. *)
Lemma get_walk_last (items : list string) (k : string) :
  forall local_content x,
    get_walk (items ++ [k]) VNone local_content = Ok x ->
    is_none x = false ->
    is_none local_content = false ->
    exists parent,
      get_walk items VNone local_content = Ok parent /\
      is_none parent = false /\
      get_walk [k] VNone parent = Ok x.
Proof.
  induction items as [|item rest IH]; intros c x W N NC.
  - exists c. repeat split; assumption.
  - cbn [app get_walk] in *.
    destruct (_is_int item) as [[|]|e]; cbn [bind] in *; [| |discriminate].
    + destruct c as [| | | |l|d];
        try (inversion W; subst x; discriminate).
      destruct (_ <? len l); [|inversion W; subst x; discriminate].
      destruct (PyList.getitem l _) as [child|e]; cbn [bind] in *; [|discriminate].
      destruct (is_none child) eqn:NC'; [inversion W; subst x; discriminate|].
      apply IH; assumption.
    + destruct (contains item c) as [[|]|e]; cbn [bind] in *;
        [|inversion W; subst x; discriminate|discriminate].
      destruct (getitem_str c item) as [child|e]; cbn [bind] in *; [|discriminate].
      destruct (is_none child) eqn:NC'; [inversion W; subst x; discriminate|].
      apply IH; assumption.
Qed.

(** The single-segment branch of [get] over a dict. *)
Lemma get_single_dict (sep : ascii) (k : string) (default_value : pyobj)
  (d : PyDict.t) :
  PyStr.find sep k <= 0 ->
  get sep k default_value (VDict d)
  = Ok (match PyDict.get k d with
        | Some v => v
        | None => default_value
        end).
Proof.
  intros F. unfold get.
  destruct (0 <? PyStr.find sep k) eqn:L; [apply Z.ltb_lt in L; lia|].
  destruct d as [|kv d]; [reflexivity|].
  cbn [truthy contains bind getitem_str]. unfold PyDict.mem.
  destruct (PyDict.get k (kv :: d)); reflexivity.
Qed.

(** A path that is split has a first piece that is not empty, and a
    second piece. *)
Lemma split_of_split_path (sep : ascii) (p : string) :
  0 < PyStr.find sep p ->
  exists k0 k1 rest, PyStr.split sep p = k0 :: k1 :: rest /\ k0 <> "".
Proof.
  intros F. pose proof (join_split sep p) as J.
  pose proof (split_pieces_no_sep sep p) as S.
  destruct (PyStr.split sep p) as [|k0 [|k1 rest]] eqn:E.
  - exfalso. apply (split_not_nil sep p). exact E.
  - cbn [PyStr.join] in J. subst k0. apply Forall_cons_iff in S as [S _]. lia.
  - exists k0, k1, rest. split; [reflexivity|]. intros Z. subst k0.
    rewrite join_cons in J by discriminate. rewrite <- J in F.
    simpl in F. rewrite Ascii.eqb_refl in F. lia.
Qed.
(** ** How the operations agree *)

Section Coherence.

Variable sep : ascii.

Lemma get_walk_one (k : string) (default_value parent : pyobj) :
  get_walk [k] default_value parent
  = (is_index <- _is_int k ;;
     if (is_index : bool) then
       match parent with
       | VList l =>
           if PyStr.int k <? len l then
             child <- PyList.getitem l (PyStr.int k) ;;
             Ok (if is_none child then default_value else child)
           else Ok default_value
       | _ => Ok default_value
       end
     else
       present <- contains k parent ;;
       if (present : bool) then
         child <- getitem_str parent k ;;
         Ok (if is_none child then default_value else child)
       else Ok default_value).
Proof.
  cbn [get_walk]. destruct (_is_int k) as [[|]|e]; cbn [bind]; [| |reflexivity].
  - destruct parent as [| | | |l|d]; try reflexivity.
    destruct (_ <? len l); [|reflexivity].
    destruct (PyList.getitem l _) as [child|e]; cbn [bind]; [|reflexivity].
    destruct (is_none child); reflexivity.
  - destruct (contains k parent) as [[|]|e]; cbn [bind]; try reflexivity.
    destruct (getitem_str parent k) as [child|e]; cbn [bind]; [|reflexivity].
    destruct (is_none child); reflexivity.
Qed.

(** [get] of an extended path goes on from what [get] of the path
    returns, when that is an object of the content. *)
Lemma get_extended (q k : string) (_content x default_value : pyobj) :
  q <> "" -> PyStr.find sep q <> 0 -> PyStr.find sep k = -1 ->
  (PyStr.find sep q < 0 -> _is_int q = Ok false) ->
  get sep q VNone _content = Ok x ->
  is_none x = false ->
  get sep (q ++ String sep k) default_value _content
  = get_walk [k] default_value x.
Proof.
  intros N Z F I G NX.
  pose proof (find_extended sep q k N Z) as P. apply Z.ltb_lt in P.
  unfold get at 1. rewrite P, split_extended by exact F.
  unfold get in G. destruct (0 <? PyStr.find sep q) eqn:L.
  - apply get_walk_app; assumption.
  - apply Z.ltb_ge in L. assert (L' : PyStr.find sep q < 0) by lia.
    pose proof (find_lower sep q).
    rewrite split_no_sep by lia. specialize (I L').
    cbn [app]. change [q; k] with ([q] ++ [k])%list.
    apply get_walk_app; [|exact NX].
    cbn [get_walk]. rewrite I. cbn [bind].
    destruct (truthy _content); [|inversion G; subst x; discriminate].
    destruct (contains q _content) as [[|]|e]; cbn [bind] in *;
      [|inversion G; subst x; discriminate|discriminate].
    rewrite G. cbn [bind]. rewrite NX. reflexivity.
Qed.

(** What [get] finds, [key_exists] confirms. *)
Lemma get_found_key_exists (param_name : string) (d : PyDict.t) (x : pyobj) :
  get sep param_name VNone (VDict d) = Ok x ->
  is_none x = false ->
  key_exists sep param_name (VDict d) = Ok true.
Proof.
  intros G NX. unfold key_exists, get_parent, _get_focused_key.
  destruct (0 <? PyStr.find sep param_name) eqn:L.
  - apply Z.ltb_lt in L.
    destruct (split_of_split_path sep param_name L) as [k0 [k1 [rest [E N0]]]].
    pose proof (split_pieces_no_sep sep param_name) as S. rewrite E in S.
    unfold get in G. apply Z.ltb_lt in L. rewrite L, E in G. rewrite E. cbv zeta.
    assert (NE : k0 :: k1 :: rest <> []) by discriminate.
    destruct (exists_last NE) as [items [k EL]]. rewrite EL in *.
    rewrite removelast_last, last_last.
    destruct (get_walk_last items k (VDict d) x G NX eq_refl) as [parent [W [NP Last]]].
    assert (GP : get sep (PyStr.join sep items) VNone (VDict d) = Ok parent).
    { destruct items as [|i0 [|i1 items']].
      - simpl in EL. discriminate.
      - (* the parent is an entry of the root *)
        simpl in EL. inversion EL; subst i0.
        apply Forall_cons_iff in S as [S0 _]. cbn [PyStr.join].
        rewrite get_single_dict by lia.
        cbn [get_walk] in W.
        destruct (_is_int k0) as [[|]|e]; cbn [bind] in W;
          [inversion W; subst parent; discriminate| |discriminate].
        cbn [contains getitem_str] in W. unfold PyDict.mem in W.
        destruct (PyDict.get k0 d) as [child|]; cbn [bind] in W;
          [|inversion W; subst parent; discriminate].
        destruct (is_none child); inversion W; subst; [discriminate|reflexivity].
      - (* the parent is reached by a walk *)
        simpl in EL. inversion EL; subst i0.
        apply Forall_app in S as [S _].
        pose proof S as S'. apply Forall_cons_iff in S' as [S0 _].
        unfold get.
        pose proof (find_join_cons sep k0 (i1 :: items') N0 S0) as P.
        destruct (0 <? PyStr.find sep (PyStr.join sep (k0 :: i1 :: items'))) eqn:Q.
        + rewrite split_join by (discriminate || assumption). exact W.
        + apply Z.ltb_ge in Q. assert (i1 :: items' <> []) by discriminate.
          intuition lia. }
    rewrite GP. cbn [bind]. rewrite NP.
    rewrite get_walk_one in Last.
    destruct parent as [| | | |l|dp]; try discriminate.
    + (* a scalar parent: the walk raised or returned the default *)
      destruct (_is_int k) as [[|]|e]; cbn [bind contains] in Last;
        try discriminate. inversion Last; subst x. discriminate.
    + destruct (_is_int k) as [[|]|e]; cbn [bind contains] in Last;
        try discriminate. inversion Last; subst x. discriminate.
    + destruct (_is_int k) as [[|]|e]; cbn [bind contains getitem_str] in Last;
        try discriminate; [inversion Last; subst x; discriminate|].
      destruct (PyStr.contains k s); cbn [bind] in Last; try discriminate.
      inversion Last; subst x. discriminate.
    + destruct (_is_int k) as [[|]|e]; cbn [bind contains getitem_str] in *;
        try discriminate.
      * destruct (PyStr.int k <? len l); [|inversion Last; subst x; discriminate].
        unfold _is_out_of_range.
        destruct (PyList.getitem l (PyStr.int k)); [reflexivity|discriminate].
      * destruct (existsb _ l); cbn [bind] in Last; try discriminate.
        inversion Last; subst x. discriminate.
    + destruct (_is_int k) as [[|]|e]; cbn [bind contains getitem_str] in Last;
        try discriminate; [inversion Last; subst x; discriminate|].
      destruct (PyDict.mem k dp); [reflexivity|].
      cbn [bind] in Last. inversion Last; subst x. discriminate.
  - apply Z.ltb_ge in L. rewrite get_single_dict in G by exact L.
    cbn [bind is_none]. unfold PyDict.mem.
    destruct (PyDict.get param_name d); [reflexivity|].
    inversion G; subst x. discriminate.
Qed.

Lemma first_segment_find (q : string) :
  PyStr.find sep (first_segment sep q) <= 0.
Proof.
  unfold first_segment. destruct (0 <? PyStr.find sep q) eqn:L.
  - pose proof (split_pieces_no_sep sep q) as S.
    destruct (PyStr.split sep q) as [|k0 rest]; [simpl; lia|].
    apply Forall_cons_iff in S as [S _]. simpl. lia.
  - apply Z.ltb_ge in L. exact L.
Qed.

(** [get] looks at the root only through the entry of the first
    segment. *)
Lemma get_ignores_entry (p q : string) (default_value : pyobj) (d : PyDict.t) :
  first_segment sep q <> p ->
  get sep q default_value (VDict (PyDict.del p d)) = get sep q default_value (VDict d).
Proof.
  unfold first_segment. intros N.
  destruct (0 <? PyStr.find sep q) eqn:L.
  - unfold get. rewrite L. pose proof (split_not_nil sep q) as NE.
    destruct (PyStr.split sep q) as [|k0 rest]; [congruence|]. simpl in N.
    cbn [get_walk]. destruct (_is_int k0) as [[|]|e]; cbn [bind]; try reflexivity.
    cbn [contains getitem_str]. unfold PyDict.mem. rewrite dict_get_del.
    apply String.eqb_neq in N. rewrite N. reflexivity.
  - apply Z.ltb_ge in L. rewrite !get_single_dict by exact L.
    rewrite dict_get_del. apply String.eqb_neq in N. rewrite N. reflexivity.
Qed.

Lemma key_exists_ignores_entry (p q : string) (d : PyDict.t) :
  0 < PyStr.find sep p ->
  key_exists sep q (VDict (PyDict.del p d)) = key_exists sep q (VDict d).
Proof.
  intros F. unfold key_exists, get_parent.
  destruct (0 <? PyStr.find sep q) eqn:L.
  - cbv zeta. rewrite get_ignores_entry; [reflexivity|].
    pose proof (first_segment_find
                  (PyStr.join sep (removelast (PyStr.split sep q)))).
    intros E. rewrite E in H. lia.
  - apply Z.ltb_ge in L. cbn [bind is_none]. unfold _get_focused_key.
    destruct (0 <? PyStr.find sep q) eqn:L'; [apply Z.ltb_lt in L'; lia|].
    unfold PyDict.mem. rewrite dict_get_del.
    destruct (String.eqb q p) eqn:E; [|reflexivity].
    apply String.eqb_eq in E. subst q. lia.
Qed.

End Coherence.
Lemma in_keys_mem (k : string) (d : PyDict.t) :
  In k (PyDict.keys d) -> PyDict.mem k d = true.
Proof.
  unfold PyDict.keys, PyDict.mem. induction d as [|[k' v'] d IH]; simpl; [tauto|].
  intros [E|H].
  - subst k'. rewrite String.eqb_refl. reflexivity.
  - destruct (String.eqb k k'); [reflexivity|]. apply IH. exact H.
Qed.

Lemma in_map_VStr (k : string) (keys : list string) :
  In (VStr k) (map VStr keys) -> In k keys.
Proof.
  intros H. apply in_map_iff in H as [k' [E H]]. inversion E; subst. exact H.
Qed.

Lemma not_in_map_VInt (k : string) (l : list Z) : ~ In (VStr k) (map VInt l).
Proof.
  intros H. apply in_map_iff in H as [z [E _]]. discriminate.
Qed.

(** X10.  A key of the root that holds the separator after its first
    character cannot be read: for every path, [get] and [key_exists]
    return over the root dict without that entry what they return over
    the root dict with it. *)
Theorem key_with_separator_is_out_of_reach :
  forall _separator key (d : PyDict.t),
    0 < PyStr.find _separator key ->
    (forall param_name default_value,
        get _separator param_name default_value (VDict (PyDict.del key d))
        = get _separator param_name default_value (VDict d)) /\
    (forall param_name,
        key_exists _separator param_name (VDict (PyDict.del key d))
        = key_exists _separator param_name (VDict d)).
Proof.
  intros sep key d F.
  assert (N : forall q, first_segment sep q <> key).
  { intros q E. pose proof (first_segment_find sep q). rewrite E in H. lia. }
  split.
  - intros q dflt. apply get_ignores_entry. apply N.
  - intros q. apply key_exists_ignores_entry. exact F.
Qed.

Lemma key_with_separator_is_out_of_reach_witness :
  0 < PyStr.find PATH_SEPARATOR_CHAR "a.b" /\
  get PATH_SEPARATOR_CHAR "a.b" (VStr "none")
    (VDict (PyDict.del "a.b" [("a.b", VInt 1)]))
  = get PATH_SEPARATOR_CHAR "a.b" (VStr "none") (VDict [("a.b", VInt 1)]) /\
  get PATH_SEPARATOR_CHAR "a.b" (VStr "none") (VDict [("a.b", VInt 1)])
  = Ok (VStr "none").
Proof.
  assert (F : 0 < PyStr.find PATH_SEPARATOR_CHAR "a.b") by (simpl; lia).
  split; [exact F|]. split; [|reflexivity].
  apply (proj1 (key_with_separator_is_out_of_reach PATH_SEPARATOR_CHAR "a.b"
                  [("a.b", VInt 1)] F)).
Defined.

(** X11.  The keys that [get_keys_in] lists exist for [key_exists]: a
    key listed for the root exists as a path of its own unless it holds
    the separator after its first character, and a key listed for the
    dict at a path exists as that path followed by the key unless it holds
    the separator (the path being neither empty nor led by the
    separator). *)
Theorem listed_keys_exist :
  forall _separator _content keys k,
    In (VStr k) keys ->
    (get_keys_in _separator None _content = Ok (VList keys) ->
     PyStr.find _separator k <= 0 ->
     key_exists _separator k _content = Ok true) /\
    (forall param_name,
        get_keys_in _separator (Some param_name) _content = Ok (VList keys) ->
        param_name <> "" ->
        PyStr.find _separator param_name <> 0 ->
        PyStr.find _separator k = -1 ->
        key_exists _separator (param_name ++ String _separator k) _content
        = Ok true).
Proof.
  intros sep c keys k In. split.
  - unfold get_keys_in. cbn [bind]. intros G F.
    destruct c as [| | | |l|d]; try discriminate.
    + inversion G; subst keys. exfalso. apply (not_in_map_VInt _ _ In).
    + inversion G; subst keys. apply in_map_VStr, in_keys_mem in In.
      unfold key_exists, get_parent, _get_focused_key.
      destruct (0 <? PyStr.find sep k) eqn:L; [apply Z.ltb_lt in L; lia|].
      cbn [bind is_none]. rewrite In. reflexivity.
  - intros q G N Z F. unfold get_keys_in in G.
    destruct (get_parent_extended sep q k c N Z F) as [P K].
    unfold key_exists. rewrite P, K.
    destruct (get sep q VNone c) as [obj|e]; cbn [bind] in *; [|discriminate].
    destruct obj as [| | | |l|d]; try discriminate.
    + inversion G; subst keys. exfalso. apply (not_in_map_VInt _ _ In).
    + inversion G; subst keys. apply in_map_VStr, in_keys_mem in In.
      cbn [is_none]. rewrite In. reflexivity.
Qed.

Lemma listed_keys_exist_witness :
  In (VStr "b") [VStr "b"; VStr "c"] /\
  get_keys_in PATH_SEPARATOR_CHAR (Some "a")
    (VDict [("a", VDict [("b", VNone); ("c", VInt 2)])])
  = Ok (VList [VStr "b"; VStr "c"]) /\
  key_exists PATH_SEPARATOR_CHAR "a.b"
    (VDict [("a", VDict [("b", VNone); ("c", VInt 2)])]) = Ok true /\
  get_keys_in PATH_SEPARATOR_CHAR None (VDict [("b", VNone); ("c", VInt 2)])
  = Ok (VList [VStr "b"; VStr "c"]) /\
  key_exists PATH_SEPARATOR_CHAR "b" (VDict [("b", VNone); ("c", VInt 2)]) = Ok true.
Proof.
  assert (I : In (VStr "b") [VStr "b"; VStr "c"]) by (left; reflexivity).
  split; [exact I|]. split; [reflexivity|]. split.
  - apply (proj2 (listed_keys_exist PATH_SEPARATOR_CHAR
                    (VDict [("a", VDict [("b", VNone); ("c", VInt 2)])])
                    [VStr "b"; VStr "c"] "b" I) "a");
      [reflexivity|discriminate|discriminate|reflexivity].
  - split; [reflexivity|].
    apply (proj1 (listed_keys_exist PATH_SEPARATOR_CHAR
                    (VDict [("b", VNone); ("c", VInt 2)])
                    [VStr "b"; VStr "c"] "b" I)); [reflexivity|].
    simpl. lia.
Defined.

(** X12.  [get] of a path followed by one more segment is a lookup in
    what [get] of the path returns.  Under a dict, a key segment gives
    the value of the key, and the default when the key is missing or
    holds [None].  Under a list, an index segment gives the element, and
    the default when the index is at or beyond the length or the element
    is [None]; an index below minus the length raises [IndexError].  The
    path is neither empty nor led by the separator, and when it is one
    segment it is a key segment. *)
Theorem get_of_child_through_parent :
  forall _separator param_name k _content default_value,
    param_name <> "" ->
    PyStr.find _separator param_name <> 0 ->
    (PyStr.find _separator param_name < 0 -> _is_int param_name = Ok false) ->
    PyStr.find _separator k = -1 ->
    (forall d : PyDict.t,
        get _separator param_name VNone _content = Ok (VDict d) ->
        _is_int k = Ok false ->
        get _separator (param_name ++ String _separator k) default_value _content
        = Ok (match PyDict.get k d with
              | Some v => if is_none v then default_value else v
              | None => default_value
              end)) /\
    (forall l : list pyobj,
        get _separator param_name VNone _content = Ok (VList l) ->
        _is_int k = Ok true ->
        get _separator (param_name ++ String _separator k) default_value _content
        = if PyStr.int k <? len l then
            match PyList.getitem l (PyStr.int k) with
            | Ok v => Ok (if is_none v then default_value else v)
            | Raise e => Raise e
            end
          else Ok default_value).
Proof.
  intros sep q k c dflt N Z I F. split.
  - intros d G K.
    rewrite (get_extended sep q k c (VDict d) dflt N Z F I G eq_refl).
    rewrite get_walk_one, K. cbn [bind contains getitem_str]. unfold PyDict.mem.
    destruct (PyDict.get k d); reflexivity.
  - intros l G K.
    rewrite (get_extended sep q k c (VList l) dflt N Z F I G eq_refl).
    rewrite get_walk_one, K. cbn [bind].
    destruct (PyStr.int k <? len l); [|reflexivity].
    destruct (PyList.getitem l (PyStr.int k)); reflexivity.
Qed.

Lemma get_of_child_through_parent_witness :
  get PATH_SEPARATOR_CHAR "a" VNone (VDict [("a", VDict [("b", VNone)])])
  = Ok (VDict [("b", VNone)]) /\
  get PATH_SEPARATOR_CHAR "a.b" (VInt 9) (VDict [("a", VDict [("b", VNone)])])
  = Ok (VInt 9) /\
  get PATH_SEPARATOR_CHAR "a" VNone (VDict [("a", VList [VInt 1])])
  = Ok (VList [VInt 1]) /\
  get PATH_SEPARATOR_CHAR "a.-2" (VInt 9) (VDict [("a", VList [VInt 1])])
  = Raise IndexError.
Proof.
  split; [reflexivity|]. split.
  - apply (proj1 (get_of_child_through_parent PATH_SEPARATOR_CHAR "a" "b"
                    (VDict [("a", VDict [("b", VNone)])]) (VInt 9)
                    ltac:(discriminate) ltac:(discriminate)
                    (fun _ => eq_refl) eq_refl)
             [("b", VNone)]); reflexivity.
  - split; [reflexivity|].
    apply (proj2 (get_of_child_through_parent PATH_SEPARATOR_CHAR "a" "-2"
                    (VDict [("a", VList [VInt 1])]) (VInt 9)
                    ltac:(discriminate) ltac:(discriminate)
                    (fun _ => eq_refl) eq_refl)
             [VInt 1]); reflexivity.
Defined.

(** X13.  What [get] finds, [key_exists] confirms: over a root dict,
    when [get(p)] returns something other than [None], [key_exists(p)]
    is [True]. *)
Theorem found_by_get_exists :
  forall _separator param_name (d : PyDict.t) x,
    get _separator param_name VNone (VDict d) = Ok x ->
    is_none x = false ->
    key_exists _separator param_name (VDict d) = Ok true.
Proof.
  intros. apply (get_found_key_exists _separator param_name d x); assumption.
Qed.

Lemma found_by_get_exists_witness :
  get PATH_SEPARATOR_CHAR "a.-1.b" VNone
    (VDict [("a", VList [VNone; VDict [("b", VInt 1)]])]) = Ok (VInt 1) /\
  key_exists PATH_SEPARATOR_CHAR "a.-1.b"
    (VDict [("a", VList [VNone; VDict [("b", VInt 1)]])]) = Ok true.
Proof.
  split; [reflexivity|].
  apply (found_by_get_exists PATH_SEPARATOR_CHAR "a.-1.b"
           [("a", VList [VNone; VDict [("b", VInt 1)]])] (VInt 1));
    reflexivity.
Defined.

(** The loop of [initialise_recursive]: when it completes over a root
    dict, the path of its last round exists. *)
Lemma initialise_loop_completed (sep : ascii) (pieces : list string) :
  forall parent_path (d : PyDict.t) _content',
    pieces <> [] ->
    Forall (fun k => k <> "")
      (PyStr.split sep (parent_path ++ PyStr.join sep pieces)) ->
    initialise_loop sep pieces parent_path (VDict d) = (_content', Ok tt) ->
    key_exists sep (parent_path ++ PyStr.join sep pieces) _content' = Ok true.
Proof.
  induction pieces as [|piece rest IH]; intros pp d c' NE N; [congruence|].
  cbn [initialise_loop].
  destruct rest as [|piece' rest].
  - (* the last round *)
    cbn [PyStr.join] in *. cbn [initialise_loop].
    destruct (key_exists sep (pp ++ piece) (VDict d)) as [[|]|e] eqn:K;
      [intros H; inversion H; subst; exact K| |discriminate].
    destruct (get_parent sep (pp ++ piece) (VDict d)) as [parent|e] eqn:P;
      [|discriminate].
    destruct (match parent with
              | VDict _ => is_index <- _is_int piece ;; Ok (negb is_index)
              | VList _ => _is_int piece
              | _ => Ok false
              end) as [[|]|e] eqn:C; [|discriminate|discriminate].
    destruct (set_root_frame sep (pp ++ piece) (VDict []) d) as [d1 [E _]].
    destruct (set sep (Some (pp ++ piece)) (VDict []) (VDict d)) as [c1 [[]|e]] eqn:W;
      [|discriminate].
    simpl in E. subst c1. intros H. inversion H; subst c'.
    destruct (set_read_back sep (pp ++ piece) (VDict []) d (VDict d1) N W)
      as [Found|[_ Lost]].
    + apply (get_found_key_exists sep _ d1 (VDict [])); [exact Found|reflexivity].
    + rewrite Lost in P. inversion P; subst parent. discriminate.
  - (* a round before the last *)
    assert (Next : forall d1,
               initialise_loop sep (piece' :: rest) ((pp ++ piece) ++ String sep "")
                 (VDict d1) = (c', Ok tt) ->
               key_exists sep (pp ++ PyStr.join sep (piece :: piece' :: rest)) c'
               = Ok true).
    { intros d1 H.
      assert (J : pp ++ PyStr.join sep (piece :: piece' :: rest)
                  = ((pp ++ piece) ++ String sep "")
                    ++ PyStr.join sep (piece' :: rest)).
      { rewrite join_cons by discriminate. rewrite !string_app_assoc. reflexivity. }
      rewrite J in *. apply (IH _ d1); [discriminate|exact N|exact H]. }
    destruct (key_exists sep (pp ++ piece) (VDict d)) as [[|]|e] eqn:K;
      [apply Next| |discriminate].
    destruct (get_parent sep (pp ++ piece) (VDict d)) as [parent|e] eqn:P;
      [|discriminate].
    destruct (match parent with
              | VDict _ => is_index <- _is_int piece ;; Ok (negb is_index)
              | VList _ => _is_int piece
              | _ => Ok false
              end) as [[|]|e] eqn:C; [|discriminate|discriminate].
    destruct (set_root_frame sep (pp ++ piece) (VDict []) d) as [d1 [E _]].
    destruct (set sep (Some (pp ++ piece)) (VDict []) (VDict d)) as [c1 [[]|e]] eqn:W;
      [|discriminate].
    simpl in E. subst c1. apply Next.
Qed.

(** X14.  Over a root dict, for a path none of whose segments is empty:
    when [initialise_recursive(p)] completes, [key_exists(p)] is [True]
    afterwards. *)
Theorem initialise_recursive_completed_exists :
  forall _separator param_name (d : PyDict.t) _content',
    Forall (fun k => k <> "") (PyStr.split _separator param_name) ->
    initialise_recursive _separator param_name (VDict d) = (_content', Ok tt) ->
    key_exists _separator param_name _content' = Ok true.
Proof.
  intros sep p d c' N H. unfold initialise_recursive in H.
  pose proof (initialise_loop_completed sep (PyStr.split sep p) "" d c') as L.
  cbn [append] in L. rewrite join_split in L.
  apply L; [apply split_not_nil|exact N|exact H].
Qed.

Lemma initialise_recursive_completed_exists_witness :
  Forall (fun k => k <> "") (PyStr.split PATH_SEPARATOR_CHAR "a.1.b") /\
  initialise_recursive PATH_SEPARATOR_CHAR "a.1.b"
    (VDict [("a", VList [VInt 0; VDict []])])
  = (VDict [("a", VList [VInt 0; VDict [("b", VDict [])]])], Ok tt) /\
  key_exists PATH_SEPARATOR_CHAR "a.1.b"
    (VDict [("a", VList [VInt 0; VDict [("b", VDict [])]])]) = Ok true.
Proof.
  assert (N : Forall (fun k => k <> "") (PyStr.split PATH_SEPARATOR_CHAR "a.1.b"))
    by (repeat constructor; discriminate).
  split; [exact N|]. split; [reflexivity|].
  apply (initialise_recursive_completed_exists PATH_SEPARATOR_CHAR "a.1.b"
           [("a", VList [VInt 0; VDict []])] _ N).
  reflexivity.
Defined.
(** ** [set] writes in the object that [get] returns for the parent *)

Section SetAtParent.

Variable sep : ascii.

(** Along the walk of [get], [__recursive_set] comes to the same object
    and does there what it does with the last segment alone. *)
Lemma recursive_set_through_walk (keys : list string) (k : string) (value : pyobj) :
  forall dictionary a x,
    Forall (fun k => k <> "") keys ->
    Forall (fun k => PyStr.find sep k = -1) (keys ++ [k]) ->
    get_walk_address keys dictionary = Ok (Some a) ->
    deref a dictionary = Some x ->
    recursive_set sep (PyStr.join sep (keys ++ [k])) value dictionary
    = (let (x', r) := recursive_set sep k value x in (put_at a x' dictionary, r)).
Proof.
  induction keys as [|k0 keys IH]; intros c a x N S W D.
  - simpl in W. inversion W; subst a. simpl in D. inversion D; subst x.
    cbn [app PyStr.join]. destruct (recursive_set sep k value c). reflexivity.
  - change ((k0 :: keys) ++ [k])%list with (k0 :: (keys ++ [k]))%list in *.
    apply Forall_cons_iff in N as [N0 N1]. apply Forall_cons_iff in S as [S0 S1].
    assert (NE : (keys ++ [k])%list <> []) by (destruct keys; simpl; discriminate).
    rewrite recursive_set_descend by (apply find_join_cons; assumption).
    rewrite split_join by (discriminate || (constructor; assumption)).
    cbn [hd tl]. cbv zeta. cbn [get_walk_address] in W.
    destruct (_is_int k0) as [[|]|e]; cbn [bind] in W; [| |discriminate].
    + destruct c as [| | | |l|d]; try discriminate.
      destruct (PyStr.int k0 <? len l); [|discriminate].
      destruct (PyList.getitem l (PyStr.int k0)) as [child|e] eqn:G;
        cbn [bind] in W; [|discriminate].
      destruct (is_none child); [discriminate|].
      destruct (getitem_position _ _ _ G) as [pos [Hp Hn]]. rewrite Hp in W.
      destruct (get_walk_address keys child) as [[a'|]|e] eqn:W';
        cbn [bind under] in W; try discriminate.
      inversion W; subst a. simpl in D. rewrite Hn in D.
      rewrite (IH child a' x N1 S1 W' D).
      destruct (recursive_set sep k value x) as [x' r].
      rewrite (put_at_index _ _ _ _ _ Hn). unfold PyList.update. rewrite Hp.
      reflexivity.
    + destruct (contains k0 c) as [[|]|e]; cbn [bind] in W; try discriminate.
      destruct (getitem_str c k0) as [child|e] eqn:G; cbn [bind] in W; [|discriminate].
      destruct (is_none child); [discriminate|].
      destruct c as [| | | |l|d]; simpl in G; try discriminate.
      destruct (PyDict.get k0 d) as [child0|] eqn:Gd; [|discriminate].
      inversion G; subst child0.
      destruct (get_walk_address keys child) as [[a'|]|e] eqn:W';
        cbn [bind under] in W; try discriminate.
      inversion W; subst a. simpl in D. rewrite Gd in D.
      rewrite (IH child a' x N1 S1 W' D).
      destruct (recursive_set sep k value x) as [x' r].
      rewrite (put_at_key _ _ _ _ _ Gd). reflexivity.
Qed.

(** The address of what [get] returns is the address the walk over the
    pieces comes to, also for a path of one key segment. *)
Lemma get_address_walk (q : string) (_content x : pyobj) :
  q <> "" -> PyStr.find sep q <> 0 ->
  (PyStr.find sep q < 0 -> _is_int q = Ok false) ->
  get sep q VNone _content = Ok x ->
  is_none x = false ->
  exists a,
    get_address sep q _content = Ok (Some a) /\
    get_walk_address (PyStr.split sep q) _content = Ok (Some a) /\
    deref a _content = Some x.
Proof.
  intros N Z I G NX.
  pose proof (get_address_get sep q _content) as A.
  destruct (get_address sep q _content) as [[a|]|e] eqn:E.
  - destruct A as [y [D Gy]]. rewrite Gy in G. inversion G; subst y.
    exists a. split; [reflexivity|]. split; [|exact D].
    unfold get_address in E. destruct (0 <? PyStr.find sep q) eqn:L; [exact E|].
    apply Z.ltb_ge in L. pose proof (find_lower sep q).
    rewrite split_no_sep by lia. cbn [get_walk_address].
    rewrite I by lia. cbn [bind].
    destruct (truthy _content); [|discriminate].
    destruct (contains q _content) as [[|]|e]; cbn [bind] in *; try discriminate.
    destruct (getitem_str _content q) as [child|e] eqn:Gc; cbn [bind] in *;
      [|discriminate].
    inversion E; subst a.
    destruct _content as [| | | |l|d]; simpl in Gc; try discriminate.
    simpl in D. destruct (PyDict.get q d); [|discriminate].
    inversion Gc; subst. inversion D; subst. rewrite NX. reflexivity.
  - rewrite A in G. inversion G; subst x. discriminate.
  - rewrite A in G. discriminate.
Qed.

(** A [set] of a path followed by one more segment, when [get] of the
    path returns an object of the content: the outcome is the outcome of
    the last segment alone on that object, and [get] of the path then
    returns the object as the write left it. *)
Lemma set_extended (q k : string) (value _content x : pyobj) :
  q <> "" -> PyStr.find sep q <> 0 ->
  (PyStr.find sep q < 0 -> _is_int q = Ok false) ->
  Forall (fun k => k <> "") (PyStr.split sep q) ->
  PyStr.find sep k = -1 ->
  get sep q VNone _content = Ok x ->
  is_none x = false ->
  exists _content',
    set sep (Some (q ++ String sep k)) value _content
    = (_content', snd (recursive_set sep k value x)) /\
    get sep q VNone _content' = Ok (fst (recursive_set sep k value x)).
Proof.
  intros N Z I NS F G NX.
  destruct (get_address_walk q _content x N Z I G NX) as [a [A [W D]]].
  pose proof (recursive_set_not_none sep k value x NX) as NX'.
  exists (put_at a (fst (recursive_set sep k value x)) _content). split.
  - cbn [set].
    replace (q ++ String sep k) with (PyStr.join sep (PyStr.split sep q ++ [k])).
    + rewrite (recursive_set_through_walk _ _ _ _ a x); try assumption.
      * destruct (recursive_set sep k value x). reflexivity.
      * apply Forall_app. split; [apply split_pieces_no_sep|].
        constructor; [exact F|constructor].
    + rewrite <- split_extended by exact F. apply join_split.
  - destruct (get_address_put_at sep q _ _content a NX' A) as [A' D'].
    pose proof (get_address_get sep q
                  (put_at a (fst (recursive_set sep k value x)) _content)) as G'.
    rewrite A' in G'. destruct G' as [y [Dy Gy]].
    rewrite D' in Dy. inversion Dy; subst y. apply Gy.
Qed.

End SetAtParent.

Lemma nth_error_put_other (l : list pyobj) :
  forall k j v, j <> k -> nth_error (PyList.put l k v) j = nth_error l j.
Proof.
  induction l as [|x l IH]; intros [|k] [|j] v N; simpl; try reflexivity.
  - congruence.
  - apply IH. congruence.
Qed.

(** X15.  [set] of a path followed by a key segment, when [get] of the
    path returns a dict: the call completes, and [get] of the path then
    returns that dict with the one key set; every other key keeps its
    value.  The path is neither empty nor led by the separator, none of
    its segments is empty, and when it is one segment it is a key
    segment. *)
Theorem set_key_under_dict_parent :
  forall _separator param_name k value _content (d : PyDict.t),
    param_name <> "" ->
    PyStr.find _separator param_name <> 0 ->
    (PyStr.find _separator param_name < 0 -> _is_int param_name = Ok false) ->
    Forall (fun k => k <> "") (PyStr.split _separator param_name) ->
    PyStr.find _separator k = -1 ->
    _is_int k = Ok false ->
    get _separator param_name VNone _content = Ok (VDict d) ->
    exists _content',
      set _separator (Some (param_name ++ String _separator k)) value _content
      = (_content', Ok tt) /\
      get _separator param_name VNone _content' = Ok (VDict (PyDict.set k value d)) /\
      PyDict.get k (PyDict.set k value d) = Some value /\
      (forall k', k' <> k -> PyDict.get k' (PyDict.set k value d) = PyDict.get k' d).
Proof.
  intros sep q k v c d N Z I NS F K G.
  destruct (set_extended sep q k v c (VDict d) N Z I NS F G eq_refl) as [c' [W G']].
  rewrite recursive_set_last_key in W, G' by (lia || assumption).
  exists c'. split; [exact W|]. split; [exact G'|]. split.
  - apply dict_get_set_same.
  - intros k' N'. apply dict_get_set_other. exact N'.
Qed.

Lemma set_key_under_dict_parent_witness :
  get PATH_SEPARATOR_CHAR "a.0" VNone (VDict [("a", VList [VDict [("x", VInt 1)]])])
  = Ok (VDict [("x", VInt 1)]) /\
  exists _content',
    set PATH_SEPARATOR_CHAR (Some "a.0.y") (VInt 2)
      (VDict [("a", VList [VDict [("x", VInt 1)]])]) = (_content', Ok tt) /\
    get PATH_SEPARATOR_CHAR "a.0" VNone _content'
    = Ok (VDict [("x", VInt 1); ("y", VInt 2)]).
Proof.
  split; [reflexivity|].
  assert (I : PyStr.find PATH_SEPARATOR_CHAR "a.0" < 0 -> _is_int "a.0" = Ok false)
    by (simpl; lia).
  assert (NS : Forall (fun k => k <> "") (PyStr.split PATH_SEPARATOR_CHAR "a.0"))
    by (repeat constructor; discriminate).
  destruct (set_key_under_dict_parent PATH_SEPARATOR_CHAR "a.0" "y" (VInt 2)
              (VDict [("a", VList [VDict [("x", VInt 1)]])]) [("x", VInt 1)]
              ltac:(discriminate) ltac:(discriminate) I NS eq_refl eq_refl eq_refl)
    as [c' [W [G _]]].
  exists c'. split; [exact W|exact G].
Defined.

(** X16.  [set] of a path followed by an index segment, when [get] of
    the path returns a list and the index is not below minus its length:
    the call completes, and [get] of the path then returns a list that
    holds the value at the index, is as long as before or just long
    enough for the index, and has the former elements at every other
    former position.  The path is as for a key segment. *)
Theorem set_index_under_list_parent :
  forall _separator param_name k value _content (l : list pyobj),
    param_name <> "" ->
    PyStr.find _separator param_name <> 0 ->
    (PyStr.find _separator param_name < 0 -> _is_int param_name = Ok false) ->
    Forall (fun k => k <> "") (PyStr.split _separator param_name) ->
    PyStr.find _separator k = -1 ->
    _is_int k = Ok true ->
    - len l <= PyStr.int k ->
    get _separator param_name VNone _content = Ok (VList l) ->
    exists _content' l',
      set _separator (Some (param_name ++ String _separator k)) value _content
      = (_content', Ok tt) /\
      get _separator param_name VNone _content' = Ok (VList l') /\
      PyList.getitem l' (PyStr.int k) = Ok value /\
      len l' = Z.max (len l) (PyStr.int k + 1) /\
      (forall j x, nth_error l j = Some x ->
                   PyList.position (PyStr.int k) (List.length l) <> Some j ->
                   nth_error l' j = Some x).
Proof.
  intros sep q k v c l N Z I NS F K B G.
  destruct (set_extended sep q k v c (VList l) N Z I NS F G eq_refl) as [c' [W G']].
  rewrite recursive_set_last in W, G' by lia. rewrite K in W, G'. cbv zeta in W, G'.
  destruct (PyStr.int k <? len l) eqn:In.
  - apply Z.ltb_lt in In.
    destruct (position_inside (PyStr.int k) (List.length l)) as [pos [Hp Lp]];
      [unfold len in *; lia|].
    unfold PyList.setitem in W, G'. rewrite Hp in W, G'. cbn [fst snd] in W, G'.
    exists c', (PyList.put l pos v). split; [exact W|]. split; [exact G'|].
    split; [|split].
    + unfold PyList.getitem. rewrite put_length, Hp.
      destruct (nth_error l pos) as [w|] eqn:E.
      * rewrite (nth_error_put_same _ _ _ _ E). reflexivity.
      * apply nth_error_None in E. lia.
    + unfold len in *. rewrite put_length. lia.
    + intros j x E NP. rewrite nth_error_put_other; [exact E|]. congruence.
  - apply Z.ltb_ge in In. cbn [fst snd] in W, G'.
    destruct (getitem_appended l (PyStr.int k) v In) as [L Gi].
    eexists c', _. split; [exact W|]. split; [exact G'|].
    split; [exact Gi|]. split; [rewrite L; lia|].
    intros j x E _. rewrite nth_error_app1; [exact E|].
    apply nth_error_Some. congruence.
Qed.

Lemma set_index_under_list_parent_witness :
  get PATH_SEPARATOR_CHAR "a" VNone (VDict [("a", VList [VInt 1; VInt 2])])
  = Ok (VList [VInt 1; VInt 2]) /\
  exists _content' l',
    set PATH_SEPARATOR_CHAR (Some "a.-1") (VInt 9)
      (VDict [("a", VList [VInt 1; VInt 2])]) = (_content', Ok tt) /\
    get PATH_SEPARATOR_CHAR "a" VNone _content' = Ok (VList l') /\
    PyList.getitem l' (-1) = Ok (VInt 9) /\
    len l' = 2.
Proof.
  split; [reflexivity|].
  assert (NS : Forall (fun k => k <> "") (PyStr.split PATH_SEPARATOR_CHAR "a"))
    by (repeat constructor; discriminate).
  assert (B : - len [VInt 1; VInt 2] <= PyStr.int "-1") by (unfold len; simpl; lia).
  destruct (set_index_under_list_parent PATH_SEPARATOR_CHAR "a" "-1" (VInt 9)
              (VDict [("a", VList [VInt 1; VInt 2])]) [VInt 1; VInt 2]
              ltac:(discriminate) ltac:(discriminate) (fun _ => eq_refl) NS
              eq_refl eq_refl B eq_refl)
    as [c' [l' [W [G [Gi [L _]]]]]].
  exists c', l'. repeat split; assumption.
Defined.
(** ** After [delete], and the indices that are listed *)

(** The walk of one key segment over a dict without the key. *)
Lemma get_walk_deleted (k : string) (default_value : pyobj) (d : PyDict.t) :
  k <> "" ->
  get_walk [k] default_value (VDict (PyDict.del k d)) = Ok default_value.
Proof.
  intros N. rewrite get_walk_one.
  destruct (_is_int k) as [[|]|e] eqn:I; cbn [bind].
  - reflexivity.
  - cbn [contains]. rewrite dict_mem_del. reflexivity.
  - destruct k; [congruence|]. simpl in I.
    destruct (Ascii.eqb a "-" || Ascii.eqb a "+"); discriminate.
Qed.

(** X17.  After a [delete] that removed a key from a dict, [get] returns
    the default for the path: over a root dict, for a path none of whose
    segments is empty and whose parent is a dict, when [delete(p)]
    returns [True], [get(p, default)] afterwards returns the default. *)
Theorem deleted_key_reads_default :
  forall _separator param_name default_value (d dp : PyDict.t) _content',
    Forall (fun k => k <> "") (PyStr.split _separator param_name) ->
    get_parent _separator param_name (VDict d) = Ok (VDict dp) ->
    delete _separator param_name (VDict d) = (_content', Ok true) ->
    get _separator param_name default_value _content' = Ok default_value.
Proof.
  intros sep p dflt d dp c' N P D.
  assert (K : key_exists sep p (VDict d) = Ok true).
  { destruct (key_exists sep p (VDict d)) as [[|]|e] eqn:K; [reflexivity| |];
      unfold delete in D; rewrite K in D; discriminate. }
  destruct (delete_when_exists sep p (VDict d) K) as [c1 [E Shape]].
  assert (c1 = c') by congruence. subst c1.
  destruct Shape as [[d0 [P0 P']]|[l [k [P0 _]]]]; [|congruence].
  assert (d0 = dp) by congruence. subst d0. clear P0.
  unfold get_parent, _get_focused_key in P'. unfold get.
  destruct (0 <? PyStr.find sep p) eqn:L.
  - apply Z.ltb_lt in L.
    destruct (split_of_split_path sep p L) as [k0 [k1 [rest [Es N0]]]].
    pose proof (split_pieces_no_sep sep p) as S. rewrite Es in *. cbv zeta in P'.
    assert (NE : k0 :: k1 :: rest <> []) by discriminate.
    destruct (exists_last NE) as [items [k EL]]. rewrite EL in *.
    rewrite removelast_last, last_last in P'.
    assert (Nk : k <> "").
    { apply Forall_app in N as [_ N]. apply Forall_cons_iff in N as [N _]. exact N. }
    destruct items as [|i0 [|i1 items']].
    + simpl in EL. discriminate.
    + (* two segments: the parent is an entry of the root *)
      simpl in EL. inversion EL; subst i0.
      apply Forall_cons_iff in S as [S0 _]. cbn [PyStr.join] in P'.
      unfold get in P'.
      destruct (0 <? PyStr.find sep k0) eqn:Q; [apply Z.ltb_lt in Q; lia|].
      destruct (truthy c'); [|discriminate].
      destruct (contains k0 c') as [[|]|e] eqn:C; cbn [bind] in P';
        try discriminate.
      cbn [app get_walk].
      destruct (_is_int k0) as [[|]|e] eqn:I0; cbn [bind].
      * destruct c' as [| | | |l'|d']; try discriminate. reflexivity.
      * rewrite C. cbn [bind]. rewrite P'. cbn [bind is_none].
        apply get_walk_deleted. exact Nk.
      * destruct k0; [congruence|]. simpl in I0.
        destruct (Ascii.eqb a "-" || Ascii.eqb a "+"); discriminate.
    + (* more: the parent is reached by the walk *)
      simpl in EL. inversion EL; subst i0.
      apply Forall_app in S as [S _].
      pose proof S as S'. apply Forall_cons_iff in S' as [S0 _].
      unfold get in P'.
      pose proof (find_join_cons sep k0 (i1 :: items') N0 S0) as Q.
      destruct (0 <? PyStr.find sep (PyStr.join sep (k0 :: i1 :: items'))) eqn:Q'.
      * rewrite split_join in P' by (discriminate || assumption).
        rewrite (get_walk_app _ c' _ P' eq_refl).
        apply get_walk_deleted. exact Nk.
      * apply Z.ltb_ge in Q'. assert (i1 :: items' <> []) by discriminate.
        intuition lia.
  - apply Z.ltb_ge in L. inversion P'; subst c'.
    destruct (0 <? PyStr.find sep p) eqn:L'; [apply Z.ltb_lt in L'; lia|].
    pose proof (get_single_dict sep p dflt (PyDict.del p dp) L) as G.
    unfold get in G. rewrite L' in G. rewrite G.
    rewrite dict_get_del, String.eqb_refl. reflexivity.
Qed.

Lemma deleted_key_reads_default_witness :
  Forall (fun k => k <> "") (PyStr.split PATH_SEPARATOR_CHAR "a.b") /\
  delete PATH_SEPARATOR_CHAR "a.b" (VDict [("a", VDict [("b", VInt 1); ("c", VInt 2)])])
  = (VDict [("a", VDict [("c", VInt 2)])], Ok true) /\
  get PATH_SEPARATOR_CHAR "a.b" (VInt 9) (VDict [("a", VDict [("c", VInt 2)])])
  = Ok (VInt 9).
Proof.
  assert (N : Forall (fun k => k <> "") (PyStr.split PATH_SEPARATOR_CHAR "a.b"))
    by (repeat constructor; discriminate).
  split; [exact N|]. split; [reflexivity|].
  apply (deleted_key_reads_default PATH_SEPARATOR_CHAR "a.b" (VInt 9)
           [("a", VDict [("b", VInt 1); ("c", VInt 2)])]
           [("b", VInt 1); ("c", VInt 2)] _ N); reflexivity.
Defined.

Lemma in_range (i lo hi : Z) : In i (range lo hi) -> lo <= i < hi.
Proof.
  unfold range. intros H. apply in_map_iff in H as [n [E H]].
  apply in_seq in H. lia.
Qed.

Lemma in_map_VInt (i : Z) (l : list Z) : In (VInt i) (map VInt l) -> In i l.
Proof.
  intros H. apply in_map_iff in H as [z [E H]]. inversion E; subst. exact H.
Qed.

Lemma not_in_map_VStr (i : Z) (l : list string) : ~ In (VInt i) (map VStr l).
Proof.
  intros H. apply in_map_iff in H as [z [E _]]. discriminate.
Qed.

(** X18.  The indices that [get_keys_in] lists for a list exist for
    [key_exists]: when [get(p)] returns a list and [get_keys_in(p)]
    lists the index [i], [key_exists] is [True] for [p] followed by any
    index segment of at most 4300 characters that reads as [i] (the path
    being neither empty nor led by the separator).  The object is a list:
    for a tuple or a set, which are not among the objects of the model,
    [get_keys_in] lists indices that [key_exists] does not accept.  The
    bound keeps the segment within the digits that [int] accepts. *)
Theorem listed_indices_exist :
  forall _separator param_name _content (l : list pyobj) keys index,
    get _separator param_name VNone _content = Ok (VList l) ->
    get_keys_in _separator (Some param_name) _content = Ok (VList keys) ->
    In (VInt (PyStr.int index)) keys ->
    _is_int index = Ok true ->
    (String.length index <= 4300)%nat ->
    PyStr.find _separator index = -1 ->
    param_name <> "" ->
    PyStr.find _separator param_name <> 0 ->
    key_exists _separator (param_name ++ String _separator index) _content = Ok true.
Proof.
  intros sep q c l keys s L G In I _ F N Z. unfold get_keys_in in G.
  destruct (get_parent_extended sep q s c N Z F) as [P K].
  unfold key_exists. rewrite P, K.
  rewrite L in *. cbn [bind] in *.
  inversion G; subst keys. apply in_map_VInt, in_range in In.
  cbn [is_none]. rewrite I. cbn [bind]. rewrite is_out_of_range_bounds.
  destruct (- len l <=? PyStr.int s) eqn:A; [|apply Z.leb_gt in A; unfold len in *; lia].
  destruct (PyStr.int s <? len l) eqn:B; [reflexivity|apply Z.ltb_ge in B; lia].
Qed.

Lemma listed_indices_exist_witness :
  get PATH_SEPARATOR_CHAR "a" VNone (VDict [("a", VList [VNone; VInt 2])])
  = Ok (VList [VNone; VInt 2]) /\
  get_keys_in PATH_SEPARATOR_CHAR (Some "a") (VDict [("a", VList [VNone; VInt 2])])
  = Ok (VList [VInt 0; VInt 1]) /\
  In (VInt (PyStr.int "+1")) [VInt 0; VInt 1] /\
  (String.length "+1" <= 4300)%nat /\
  key_exists PATH_SEPARATOR_CHAR "a.+1" (VDict [("a", VList [VNone; VInt 2])])
  = Ok true.
Proof.
  assert (I : In (VInt (PyStr.int "+1")) [VInt 0; VInt 1]) by (right; left; reflexivity).
  assert (B : (String.length "+1" <= 4300)%nat) by (simpl; lia).
  split; [reflexivity|]. split; [reflexivity|]. split; [exact I|]. split; [exact B|].
  apply (listed_indices_exist PATH_SEPARATOR_CHAR "a"
           (VDict [("a", VList [VNone; VInt 2])]) [VNone; VInt 2] [VInt 0; VInt 1] "+1"
           eq_refl eq_refl I eq_refl B eq_refl); discriminate.
Defined.

(** ** [set] twice, and the one root entry that a read looks at *)

Lemma put_twice (l : list pyobj) (k : nat) (v w : pyobj) :
  PyList.put (PyList.put l k v) k w = PyList.put l k w.
Proof.
  revert k. induction l as [|x l IH]; intros [|k]; simpl; auto.
  rewrite IH. reflexivity.
Qed.

Lemma dict_set_twice (k : string) (v w : pyobj) (d : PyDict.t) :
  PyDict.set k w (PyDict.set k v d) = PyDict.set k w d.
Proof.
  induction d as [|[k' v'] d IH]; simpl.
  - rewrite String.eqb_refl. reflexivity.
  - destruct (String.eqb k k') eqn:E; simpl; rewrite E; [reflexivity|].
    rewrite IH. reflexivity.
Qed.

Section SetAgain.

Variable sep : ascii.

(** A [__recursive_set] that has completed completes again on its own
    result and leaves it as it is. *)
Lemma recursive_set_again (n : nat) :
  forall param_name value dictionary dictionary',
    (String.length param_name < n)%nat ->
    recursive_set sep param_name value dictionary = (dictionary', Ok tt) ->
    recursive_set sep param_name value dictionary' = (dictionary', Ok tt).
Proof.
  induction n as [|n IH]; intros p v c c' Len; [lia|].
  destruct (0 <? PyStr.find sep p) eqn:L.
  - apply Z.ltb_lt in L.
    assert (T : (String.length (PyStr.join sep (tl (PyStr.split sep p))) < n)%nat).
    { pose proof (tail_shorter sep p). lia. }
    rewrite !recursive_set_descend by exact L. cbv zeta.
    destruct (_is_int (hd "" (PyStr.split sep p))) as [[|]|e] eqn:I; [| |discriminate].
    + destruct c as [| | | |l|d]; try discriminate.
      destruct (PyStr.int (hd "" (PyStr.split sep p)) <? len l) eqn:B; [|discriminate].
      destruct (PyList.getitem l _) as [child|e] eqn:G; [|discriminate].
      destruct (is_none child) eqn:NC; [discriminate|].
      pose proof (recursive_set_not_none sep
                    (PyStr.join sep (tl (PyStr.split sep p))) v child NC) as NC'.
      destruct (recursive_set sep _ v child) as [child' r] eqn:R.
      intros H. inversion H; subst c' r. simpl in NC'.
      unfold len in *. rewrite update_length, B.
      rewrite (getitem_update _ _ _ _ G), NC'.
      rewrite (IH _ _ _ _ T R).
      rewrite update_unchanged by (apply (getitem_update _ _ _ _ G)). reflexivity.
    + destruct c as [| | | |l|d]; try discriminate.
      destruct (PyDict.get _ d) as [child|] eqn:G; [|discriminate].
      destruct (recursive_set sep _ v child) as [child' r] eqn:R.
      intros H. inversion H; subst c' r.
      rewrite dict_get_set_same. rewrite (IH _ _ _ _ T R).
      rewrite dict_set_twice. reflexivity.
  - apply Z.ltb_ge in L. rewrite !recursive_set_last by exact L.
    destruct (_is_int p) as [[|]|e] eqn:I; [| |discriminate].
    + destruct c as [| | | |l|d]; try discriminate. cbv zeta.
      destruct (PyStr.int p <? len l) eqn:B.
      * destruct (PyList.setitem l (PyStr.int p) v) as [l'|e] eqn:W; [|discriminate].
        intros H. inversion H; subst c'.
        unfold PyList.setitem in *.
        destruct (PyList.position (PyStr.int p) (List.length l)) as [pos|] eqn:Hp;
          [|discriminate].
        inversion W; subst l'. unfold len in *. rewrite put_length, B, Hp.
        rewrite put_twice. reflexivity.
      * intros H. inversion H; subst c'. apply Z.ltb_ge in B.
        destruct (getitem_appended l (PyStr.int p) v B) as [La Ga].
        rewrite La.
        destruct (PyStr.int p <? PyStr.int p + 1) eqn:Q; [|apply Z.ltb_ge in Q; lia].
        destruct (getitem_position _ _ _ Ga) as [pos [Hp Hn]].
        unfold PyList.setitem. rewrite Hp, put_unchanged by exact Hn. reflexivity.
    + destruct c as [| | | |l|d]; try discriminate.
      * intros H. inversion H; subst c'. reflexivity.
      * intros H. inversion H; subst c'. rewrite dict_set_twice. reflexivity.
Qed.

(** [get] and [key_exists] look at a root dict only through the entry
    of the first segment. *)
Lemma get_depends_on_first_entry (q : string) (default_value : pyobj)
  (d1 d2 : PyDict.t) :
  PyDict.get (first_segment sep q) d1 = PyDict.get (first_segment sep q) d2 ->
  get sep q default_value (VDict d1) = get sep q default_value (VDict d2).
Proof.
  unfold first_segment. intros E.
  destruct (0 <? PyStr.find sep q) eqn:L.
  - unfold get. rewrite L. pose proof (split_not_nil sep q) as NE.
    destruct (PyStr.split sep q) as [|k0 rest]; [congruence|]. simpl in E.
    cbn [get_walk]. destruct (_is_int k0) as [[|]|e]; cbn [bind]; try reflexivity.
    cbn [contains getitem_str]. unfold PyDict.mem. rewrite E. reflexivity.
  - apply Z.ltb_ge in L. rewrite !get_single_dict by exact L. rewrite E. reflexivity.
Qed.

Lemma first_segment_parent (q : string) :
  0 < PyStr.find sep q ->
  first_segment sep (PyStr.join sep (removelast (PyStr.split sep q)))
  = first_segment sep q.
Proof.
  intros F. destruct (split_of_split_path sep q F) as [k0 [k1 [rest [E N0]]]].
  pose proof (split_pieces_no_sep sep q) as S.
  unfold first_segment at 2. apply Z.ltb_lt in F. rewrite F, E in *. cbn [hd].
  change (removelast (k0 :: k1 :: rest)) with (k0 :: removelast (k1 :: rest)).
  apply Forall_cons_iff in S as [S0 S1].
  unfold first_segment.
  destruct (removelast (k1 :: rest)) as [|k2 more] eqn:RL.
  - cbn [PyStr.join]. rewrite S0. reflexivity.
  - assert (S2 : Forall (fun k => PyStr.find sep k = -1) (k0 :: k2 :: more)).
    { constructor; [exact S0|]. rewrite <- RL. apply Forall_removelast. exact S1. }
    pose proof (find_join_cons sep k0 (k2 :: more) N0 S0) as P.
    destruct (0 <? PyStr.find sep (PyStr.join sep (k0 :: k2 :: more))) eqn:Q.
    + rewrite split_join by (discriminate || assumption). reflexivity.
    + apply Z.ltb_ge in Q. assert (k2 :: more <> []) by discriminate. intuition lia.
Qed.

Lemma key_exists_depends_on_first_entry (q : string) (d1 d2 : PyDict.t) :
  PyDict.get (first_segment sep q) d1 = PyDict.get (first_segment sep q) d2 ->
  key_exists sep q (VDict d1) = key_exists sep q (VDict d2).
Proof.
  intros E. unfold key_exists, get_parent.
  destruct (0 <? PyStr.find sep q) eqn:L.
  - cbv zeta. apply Z.ltb_lt in L.
    rewrite (get_depends_on_first_entry _ _ d1 d2); [reflexivity|].
    rewrite first_segment_parent by exact L. exact E.
  - cbn [bind is_none]. unfold first_segment in E. rewrite L in E.
    unfold _get_focused_key. rewrite L. unfold PyDict.mem. rewrite E. reflexivity.
Qed.

End SetAgain.

(** X19.  [set] twice is [set] once: when [set(p, v)] completes, a
    second [set(p, v)] completes too and leaves the content as the first
    call left it. *)
Theorem set_twice_is_set_once :
  forall _separator param_name value _content _content',
    set _separator param_name value _content = (_content', Ok tt) ->
    set _separator param_name value _content' = (_content', Ok tt).
Proof.
  intros sep [p|] v c c'; cbn [set]; [|discriminate].
  apply (recursive_set_again sep (S (String.length p))). lia.
Qed.

Lemma set_twice_is_set_once_witness :
  set PATH_SEPARATOR_CHAR (Some "a.3") (VStr "x") (VDict [("a", VList [])])
  = (VDict [("a", VList [VNone; VNone; VNone; VStr "x"])], Ok tt) /\
  set PATH_SEPARATOR_CHAR (Some "a.3") (VStr "x")
    (VDict [("a", VList [VNone; VNone; VNone; VStr "x"])])
  = (VDict [("a", VList [VNone; VNone; VNone; VStr "x"])], Ok tt).
Proof.
  split; [reflexivity|].
  apply (set_twice_is_set_once PATH_SEPARATOR_CHAR (Some "a.3") (VStr "x")
           (VDict [("a", VList [])])).
  reflexivity.
Defined.

(** X20.  [get] and [key_exists] look at a root dict through one entry
    only, the one of the first segment of the path: over two root dicts
    that hold the same under that segment, or both lack it, they return
    the same, whatever the other entries are. *)
Theorem reads_look_at_one_root_entry :
  forall _separator param_name (d1 d2 : PyDict.t),
    PyDict.get (first_segment _separator param_name) d1
    = PyDict.get (first_segment _separator param_name) d2 ->
    (forall default_value,
        get _separator param_name default_value (VDict d1)
        = get _separator param_name default_value (VDict d2)) /\
    key_exists _separator param_name (VDict d1)
    = key_exists _separator param_name (VDict d2).
Proof.
  intros sep q d1 d2 E. split.
  - intros dflt. apply get_depends_on_first_entry. exact E.
  - apply key_exists_depends_on_first_entry. exact E.
Qed.

Lemma reads_look_at_one_root_entry_witness :
  PyDict.get (first_segment PATH_SEPARATOR_CHAR "b.0")
    [("a", VInt 1); ("b", VList [VInt 5])]
  = PyDict.get (first_segment PATH_SEPARATOR_CHAR "b.0")
      [("b", VList [VInt 5]); ("z", VDict [])] /\
  get PATH_SEPARATOR_CHAR "b.0" VNone (VDict [("a", VInt 1); ("b", VList [VInt 5])])
  = Ok (VInt 5) /\
  get PATH_SEPARATOR_CHAR "b.0" VNone (VDict [("b", VList [VInt 5]); ("z", VDict [])])
  = Ok (VInt 5) /\
  key_exists PATH_SEPARATOR_CHAR "b.0" (VDict [("a", VInt 1); ("b", VList [VInt 5])])
  = key_exists PATH_SEPARATOR_CHAR "b.0" (VDict [("b", VList [VInt 5]); ("z", VDict [])]).
Proof.
  assert (E : PyDict.get (first_segment PATH_SEPARATOR_CHAR "b.0")
                [("a", VInt 1); ("b", VList [VInt 5])]
              = PyDict.get (first_segment PATH_SEPARATOR_CHAR "b.0")
                  [("b", VList [VInt 5]); ("z", VDict [])]) by reflexivity.
  split; [exact E|]. split; [reflexivity|]. split.
  - rewrite <- (proj1 (reads_look_at_one_root_entry PATH_SEPARATOR_CHAR "b.0"
                         [("a", VInt 1); ("b", VList [VInt 5])]
                         [("b", VList [VInt 5]); ("z", VDict [])] E) VNone).
    reflexivity.
  - apply (proj2 (reads_look_at_one_root_entry PATH_SEPARATOR_CHAR "b.0"
                    [("a", VInt 1); ("b", VList [VInt 5])]
                    [("b", VList [VInt 5]); ("z", VDict [])] E)).
Defined.
